(** * The cache synchronisation and query-resolution engine of ietfdata

    A shallow embedding of the private cache methods of class [DataTracker]
    in [ietfdata/datatracker.py] (lines 1874-2410), and the properties of
    the engine stated in the specification.

    Modelling conventions.
    - Python values that travel through the cache (decoded JSON, query
      parameter values) are terms of [Json]; floats do not occur in the
      modelled paths.
    - A method of [DataTracker] is a function from the object's state to an
      [Outcome]: a normal return, [sys.exit(1)], a raised exception, or
      running out of the fuel that bounds the pagination loop.
    - The remote service and the wall clock are the environment: the
      response to the n-th GET issued by the object and the value of the
      n-th reading of [datetime.now].
    - The cache directory is a pair of finite maps keyed by the relative
      path the source computes ([uri[1:-1]]): the [_cache_info.json] file of
      each directory, and the object files.  Object files are assumed never
      to be named [_cache_info.json], and paths are taken literally (no
      normalisation of empty or dot segments).
    - [pavlova.from_mapping] on objects (JSON to typed resource) is outside
      the engine: queries return the stored JSON mappings. *)

From Stdlib Require Import ZArith QArith Ascii String List Bool Lia.
From stdpp Require Import gmap strings list.

Local Open Scope string_scope.
Local Open Scope list_scope.

(** ** Python values *)

#[warnings="-register-all"]
Inductive Json :=
| JNull
| JBool (b : bool)
| JInt (n : Z)
| JStr (s : string)
| JList (l : list Json)
| JDict (d : list (string * Json)).

(** Induction on decoded JSON, through lists and mappings. *)
Fixpoint Json_nested_ind (P : Json -> Prop)
    (Hnull : P JNull) (Hbool : forall b, P (JBool b)) (Hint : forall n, P (JInt n))
    (Hstr : forall s, P (JStr s))
    (Hlist : forall l, Forall P l -> P (JList l))
    (Hdict : forall d, Forall (fun kv => P (snd kv)) d -> P (JDict d))
    (j : Json) {struct j} : P j :=
  let rec := Json_nested_ind P Hnull Hbool Hint Hstr Hlist Hdict in
  match j with
  | JNull => Hnull
  | JBool b => Hbool b
  | JInt n => Hint n
  | JStr s => Hstr s
  | JList l =>
      Hlist l ((fix go (l : list Json) : Forall P l :=
                  match l with
                  | [] => @List.Forall_nil _ P
                  | x :: r => @List.Forall_cons _ P x r (rec x) (go r)
                  end) l)
  | JDict d =>
      Hdict d ((fix go (d : list (string * Json)) : Forall (fun kv => P (snd kv)) d :=
                  match d with
                  | [] => @List.Forall_nil _ _
                  | kv :: r => @List.Forall_cons _ (fun kv => P (snd kv)) kv r (rec (snd kv)) (go r)
                  end) d)
  end.

Inductive Exn :=
| KeyError | TypeError | IndexError | AttributeError
| AssertionError | FileNotFoundError | ValueError.

(** Result of a computation that touches no state. *)
Inductive Res (A : Type) :=
| Val (a : A)
| Err (e : Exn).
Arguments Val {A} a.
Arguments Err {A} e.

Definition res_bind {A B} (r : Res A) (k : A -> Res B) : Res B :=
  match r with Val a => k a | Err e => Err e end.

(** ** Strings as Python slices them *)

Module PyStr.

(** [s[1:-1]] *)
Definition strip_ends (s : string) : string :=
  String.substring 1 (String.length s - 2) s.

(** [s[:-n]] for [n > 0] *)
Definition drop_last (n : nat) (s : string) : string :=
  String.substring 0 (String.length s - n) s.

(** [needle in hay] on two strings *)
Definition contains (needle hay : string) : bool :=
  match String.index 0 needle hay with Some _ => true | None => false end.

Definition startswith (p s : string) : bool := String.prefix p s.

Definition endswith (p s : string) : bool :=
  String.prefix (String.rev p) (String.rev s).

(** [s.split(sep)] for a one-character separator *)
Fixpoint split_go (sep : ascii) (cur : string) (s : string) : list string :=
  match s with
  | EmptyString => [String.rev cur]
  | String c s' =>
      if Ascii.eqb c sep then String.rev cur :: split_go sep "" s'
      else split_go sep (String c cur) s'
  end.
Definition split (sep : ascii) (s : string) : list string := split_go sep "" s.

(** [s.rfind("/")], as the length of the prefix that ends with the last
    separator: [rfind + 1], which is [0] when there is none. *)
Fixpoint rfind_succ (sep : ascii) (s : string) : nat :=
  match s with
  | EmptyString => 0
  | String c s' =>
      match rfind_succ sep s' with
      | O => if Ascii.eqb c sep then 1 else 0
      | S n => S (S n)
      end
  end.

(** [l[-2]] *)
Definition penultimate {A} (l : list A) : option A :=
  match List.rev l with
  | _ :: x :: _ => Some x
  | _ => None
  end.

Definition ljust (w : nat) (s : string) : string :=
  s +:+ string_of_list_ascii (List.repeat " "%char (w - String.length s)).
Definition rjust (w : nat) (s : string) : string :=
  string_of_list_ascii (List.repeat " "%char (w - String.length s)) +:+ s.

(** Decimal rendering of an [int]. *)
Definition digit (n : nat) : ascii := ascii_of_nat (48 + n).
Fixpoint pos_digits (fuel : nat) (n : N) (acc : string) : string :=
  match fuel with
  | O => acc
  | S f =>
      let acc' := String (digit (N.to_nat (n mod 10))) acc in
      if (n <? 10)%N then acc' else pos_digits f (n / 10)%N acc'
  end.
Definition of_N (n : N) : string := pos_digits (S (N.to_nat (N.log2 n))) n "".
Definition of_Z (z : Z) : string :=
  match z with
  | Zneg p => "-" +:+ of_N (Npos p)
  | _ => of_N (Z.to_N z)
  end.

(** [int(s)] on an optional sign followed by decimal digits. *)
Definition digit_val (c : ascii) : option Z :=
  let n := nat_of_ascii c in
  if (48 <=? n)%nat && (n <=? 57)%nat then Some (Z.of_nat (n - 48)) else None.
Fixpoint digits_val (acc : Z) (s : string) : option Z :=
  match s with
  | EmptyString => Some acc
  | String c s' =>
      match digit_val c with
      | Some d => digits_val (10 * acc + d)%Z s'
      | None => None
      end
  end.
Definition to_Z (s : string) : option Z :=
  match s with
  | EmptyString => None
  | String "-"%char (String c r) => option_map Z.opp (digits_val 0 (String c r))
  | String "+"%char (String c r) => digits_val 0 (String c r)
  | String "-"%char EmptyString | String "+"%char EmptyString => None
  | _ => digits_val 0 s
  end.

End PyStr.

(** ** Python operators on decoded JSON *)

Module Py.

Definition num (j : Json) : option Z :=
  match j with
  | JInt n => Some n
  | JBool b => Some (Z.b2z b)
  | _ => None
  end.

Fixpoint lookup_key {V} (k : string) (d : list (string * V)) : option V :=
  match d with
  | [] => None
  | (k', v) :: d' => if String.eqb k k' then Some v else lookup_key k d'
  end.

(** [a == b]: [bool] is a subclass of [int], sequences compare element by
    element, mappings compare regardless of the order of their keys. *)
Fixpoint eq (a b : Json) {struct a} : bool :=
  match a, b with
  | JNull, JNull => true
  | JBool x, JBool y => Bool.eqb x y
  | JBool x, JInt n => Z.eqb (Z.b2z x) n
  | JInt n, JBool x => Z.eqb n (Z.b2z x)
  | JInt m, JInt n => Z.eqb m n
  | JStr s, JStr t => String.eqb s t
  | JList l, JList l' =>
      (fix go (l l' : list Json) {struct l} : bool :=
         match l, l' with
         | [], [] => true
         | x :: xs, y :: ys => eq x y && go xs ys
         | _, _ => false
         end) l l'
  | JDict d, JDict d' =>
      Nat.eqb (List.length d) (List.length d') &&
      (fix go (d : list (string * Json)) {struct d} : bool :=
         match d with
         | [] => true
         | (k, v) :: r =>
             match lookup_key k d' with
             | Some v' => eq v v' && go r
             | None => false
             end
         end) d
  | _, _ => false
  end.

Inductive CmpOp := Lt | Le | Gt | Ge.

Definition cmp_Z (op : CmpOp) (m n : Z) : bool :=
  match op with
  | Lt => (m <? n)%Z | Le => (m <=? n)%Z | Gt => (m >? n)%Z | Ge => (m >=? n)%Z
  end.

Definition cmp_str (op : CmpOp) (s t : string) : bool :=
  match op, String.compare s t with
  | Lt, Datatypes.Lt => true
  | Le, (Datatypes.Lt | Datatypes.Eq) => true
  | Gt, Datatypes.Gt => true
  | Ge, (Datatypes.Gt | Datatypes.Eq) => true
  | _, _ => false
  end.

Definition cmp_nat (op : CmpOp) (m n : nat) : bool := cmp_Z op (Z.of_nat m) (Z.of_nat n).

(** [a < b], [a <= b], [a > b], [a >= b]; unorderable operands raise
    [TypeError]. *)
Fixpoint cmp (op : CmpOp) (a b : Json) {struct a} : Res bool :=
  match a, b with
  | JStr s, JStr t => Val (cmp_str op s t)
  | JList l, JList l' =>
      (fix go (l l' : list Json) {struct l} : Res bool :=
         match l, l' with
         | x :: xs, y :: ys => if eq x y then go xs ys else cmp op x y
         | _, _ => Val (cmp_nat op (List.length l) (List.length l'))
         end) l l'
  | _, _ =>
      match num a, num b with
      | Some m, Some n => Val (cmp_Z op m n)
      | _, _ => Err TypeError
      end
  end.

(** The comparison that holds exactly when [op] does not. *)
Definition negate (op : CmpOp) : CmpOp :=
  match op with Lt => Ge | Le => Gt | Gt => Le | Ge => Lt end.

(** [v in c] *)
Definition contains (v c : Json) : Res bool :=
  match c with
  | JStr s => match v with JStr t => Val (PyStr.contains t s) | _ => Err TypeError end
  | JList l => Val (existsb (fun x => eq v x) l)
  | JDict d =>
      match v with
      | JList _ | JDict _ => Err TypeError
      | _ => Val (existsb (fun kv => eq v (JStr (fst kv))) d)
      end
  | _ => Err TypeError
  end.

(** [o[k]] for a string key *)
Definition getitem (o : Json) (k : string) : Res Json :=
  match o with
  | JDict d => match lookup_key k d with Some v => Val v | None => Err KeyError end
  | _ => Err TypeError
  end.

(** [repr] of a string: single quotes unless the string has one and no
    double quote; the quote and the backslash are escaped.  Exact on
    printable text. *)
Fixpoint escape (q : ascii) (s : string) : string :=
  match s with
  | EmptyString => EmptyString
  | String c r =>
      if Ascii.eqb c q || Ascii.eqb c "\"%char
      then String "\"%char (String c (escape q r))
      else String c (escape q r)
  end.

Definition repr_str (s : string) : string :=
  let dq := ascii_of_nat 34 in
  let q := if PyStr.contains "'" s && negb (PyStr.contains (String dq EmptyString) s)
           then dq else "'"%char in
  String q (escape q s) +:+ String q EmptyString.

Fixpoint repr (j : Json) : string :=
  match j with
  | JNull => "None"
  | JBool true => "True"
  | JBool false => "False"
  | JInt n => PyStr.of_Z n
  | JStr s => repr_str s
  | JList l => "[" +:+ String.concat ", " (List.map repr l) +:+ "]"
  | JDict d =>
      "{" +:+ String.concat ", "
               (List.map (fun kv => repr_str (fst kv) +:+ ": " +:+ repr (snd kv)) d) +:+ "}"
  end.

(** [str(v)] *)
Definition str (j : Json) : string :=
  match j with
  | JStr s => s
  | _ => repr j
  end.

(** [F"{v:40}"]: text is padded on the right, numbers on the left. *)
Definition format40 (j : Json) : Res string :=
  match j with
  | JStr s => Val (PyStr.ljust 40 s)
  | JInt n => Val (PyStr.rjust 40 (PyStr.of_Z n))
  | JBool b => Val (PyStr.rjust 40 (PyStr.of_Z (Z.b2z b)))
  | _ => Err TypeError
  end.

End Py.

(** ** The parts of [urllib.parse] the engine calls *)

Module Url.

Definition is_unreserved (c : ascii) : bool :=
  let n := nat_of_ascii c in
  ((48 <=? n) && (n <=? 57))%nat || ((65 <=? n) && (n <=? 90))%nat ||
  ((97 <=? n) && (n <=? 122))%nat ||
  Ascii.eqb c "_" || Ascii.eqb c "." || Ascii.eqb c "-" || Ascii.eqb c "~".

Definition hex_digit (n : nat) : ascii :=
  if (n <? 10)%nat then ascii_of_nat (48 + n) else ascii_of_nat (55 + n).

Definition quote_char (c : ascii) : string :=
  if is_unreserved c then String c EmptyString
  else if Ascii.eqb c " " then "+"
  else let n := nat_of_ascii c in
       String "%" (String (hex_digit (n / 16)) (String (hex_digit (n mod 16)) EmptyString)).

(** [quote_plus(s)] with the default empty [safe] set *)
Fixpoint quote_plus (s : string) : string :=
  match s with
  | EmptyString => EmptyString
  | String c r => quote_char c +:+ quote_plus r
  end.

(** [urlencode(params)] without [doseq]: every value goes through [str] *)
Definition urlencode (ps : list (string * Json)) : string :=
  String.concat "&"
    (List.map (fun kv => quote_plus (fst kv) +:+ "=" +:+ quote_plus (Py.str (snd kv))) ps).

Definition hex_val (c : ascii) : option nat :=
  let n := nat_of_ascii c in
  if ((48 <=? n) && (n <=? 57))%nat then Some (n - 48)
  else if ((65 <=? n) && (n <=? 70))%nat then Some (n - 55)
  else if ((97 <=? n) && (n <=? 102))%nat then Some (n - 87)
  else None.

(** [unquote(s.replace('+', ' '))], byte-wise *)
Fixpoint unquote_plus (s : string) : string :=
  match s with
  | EmptyString => EmptyString
  | String "+" r => String " " (unquote_plus r)
  | String "%" (String h (String l r) as r1) =>
      match hex_val h, hex_val l with
      | Some a, Some b => String (ascii_of_nat (16 * a + b)) (unquote_plus r)
      | _, _ => String "%" (unquote_plus r1)
      end
  | String c r => String c (unquote_plus r)
  end.

(** Text before and after the first character that satisfies [p] (the
    character itself opens the second part). *)
Fixpoint break_at (p : ascii -> bool) (s : string) : string * string :=
  match s with
  | EmptyString => (EmptyString, EmptyString)
  | String c r =>
      if p c then (EmptyString, s)
      else let '(a, b) := break_at p r in (String c a, b)
  end.

(** The [query] mapping keeps the order of first appearance of each name
    and collects the values of a repeated name. *)
Fixpoint qs_add (k v : string) (d : list (string * list string)) : list (string * list string) :=
  match d with
  | [] => [(k, [v])]
  | (k', vs) :: r =>
      if String.eqb k k' then (k', vs ++ [v]) :: r else (k', vs) :: qs_add k v r
  end.

(** [parse_qs(qs)]: fields without [=] and blank values are dropped *)
Definition parse_qs (qs : string) : list (string * list string) :=
  List.fold_left
    (fun d field =>
       let '(n, rest) := break_at (Ascii.eqb "=") field in
       match rest with
       | String _ (String _ _ as v) => qs_add (unquote_plus n) (unquote_plus v) d
       | _ => d
       end)
    (PyStr.split "&" qs) [].

Record SplitResult := { path : string; query : string }.

(** [urlsplit(url)] of an absolute [scheme://host/path?query#fragment] *)
Definition urlsplit (url : string) : SplitResult :=
  let rest := match String.index 0 "://" url with
              | Some i => String.substring (i + 3) (String.length url - (i + 3)) url
              | None => url
              end in
  let is_delim := fun c => Ascii.eqb c "/" || Ascii.eqb c "?" || Ascii.eqb c "#" in
  let '(_, after_host) := break_at is_delim rest in
  let '(p, after_path) := break_at (fun c => Ascii.eqb c "?" || Ascii.eqb c "#") after_host in
  let q := match after_path with
           | String "?" r => fst (break_at (Ascii.eqb "#") r)
           | _ => EmptyString
           end in
  {| path := p; query := q |}.

End Url.

(** ** Data model of the engine *)

Record URI := mkURI { uri : string; params : list (string * Json) }.

(** [URI.__str__] *)
Definition URI_str (u : URI) : string :=
  match params u with
  | [] => uri u
  | _ :: _ => uri u +:+ "?" +:+ Url.urlencode (params u)
  end.

Record CacheMetadata := mkCacheMetadata {
  created : Z;
  updated : Z;
  partial : bool;
  queries : list string
}.

Record CacheHints := mkCacheHints {
  deref : list (string * string);
  trim : list string;
  sort_by : list string;
  reverse : bool;
  timed : bool
}.

Record Response := mkResponse { status_code : Z; json : Json }.

(** The places of the source that issue a GET: the page request and the
    single-item request of [_cache_put_objects], and [_retrieve_json]. *)
Inductive Site := PageGet | IsolateGet | ItemGet.

(** What the object does to the outside world, in order. *)
Inductive Event :=
| EvGet (site : Site) (n : Z) (url : string) (ps : list (string * Json))
| EvClose
| EvSleep (t : Q).

(** The fields of a [DataTracker] object, the cache directory it owns, and
    two ghost fields: the number of clock readings so far and the events so
    far (most recent first). *)
Record DataTracker := mkDataTracker {
  http_req : Z;
  get_count : Z;
  cache_req : Z;
  cache_hit : Z;
  memcache_req : Z;
  memcache_hit : Z;
  memcache : gmap string Json;
  dirs : gset string;
  metadata : gmap string CacheMetadata;
  objects : gmap string Json;
  now_calls : nat;
  trace : list Event
}.

Definition base_url : string := "https://datatracker.ietf.org".

(** A fresh object on an empty cache directory ([__init__]). *)
Definition init : DataTracker :=
  mkDataTracker 0 0 0 0 0 0 ∅ ∅ ∅ ∅ 0 [].

Definition with_http_req (f : Z -> Z) (s : DataTracker) : DataTracker :=
  mkDataTracker (f (http_req s)) (get_count s) (cache_req s) (cache_hit s) (memcache_req s)
    (memcache_hit s) (memcache s) (dirs s) (metadata s) (objects s) (now_calls s) (trace s).
Definition with_get_count (f : Z -> Z) (s : DataTracker) : DataTracker :=
  mkDataTracker (http_req s) (f (get_count s)) (cache_req s) (cache_hit s) (memcache_req s)
    (memcache_hit s) (memcache s) (dirs s) (metadata s) (objects s) (now_calls s) (trace s).
Definition with_cache_req (f : Z -> Z) (s : DataTracker) : DataTracker :=
  mkDataTracker (http_req s) (get_count s) (f (cache_req s)) (cache_hit s) (memcache_req s)
    (memcache_hit s) (memcache s) (dirs s) (metadata s) (objects s) (now_calls s) (trace s).
Definition with_cache_hit (f : Z -> Z) (s : DataTracker) : DataTracker :=
  mkDataTracker (http_req s) (get_count s) (cache_req s) (f (cache_hit s)) (memcache_req s)
    (memcache_hit s) (memcache s) (dirs s) (metadata s) (objects s) (now_calls s) (trace s).
Definition with_memcache_req (f : Z -> Z) (s : DataTracker) : DataTracker :=
  mkDataTracker (http_req s) (get_count s) (cache_req s) (cache_hit s) (f (memcache_req s))
    (memcache_hit s) (memcache s) (dirs s) (metadata s) (objects s) (now_calls s) (trace s).
Definition with_memcache_hit (f : Z -> Z) (s : DataTracker) : DataTracker :=
  mkDataTracker (http_req s) (get_count s) (cache_req s) (cache_hit s) (memcache_req s)
    (f (memcache_hit s)) (memcache s) (dirs s) (metadata s) (objects s) (now_calls s) (trace s).
Definition with_memcache (f : gmap string Json -> gmap string Json) (s : DataTracker) : DataTracker :=
  mkDataTracker (http_req s) (get_count s) (cache_req s) (cache_hit s) (memcache_req s)
    (memcache_hit s) (f (memcache s)) (dirs s) (metadata s) (objects s) (now_calls s) (trace s).
Definition with_dirs (f : gset string -> gset string) (s : DataTracker) : DataTracker :=
  mkDataTracker (http_req s) (get_count s) (cache_req s) (cache_hit s) (memcache_req s)
    (memcache_hit s) (memcache s) (f (dirs s)) (metadata s) (objects s) (now_calls s) (trace s).
Definition with_metadata (f : gmap string CacheMetadata -> gmap string CacheMetadata)
    (s : DataTracker) : DataTracker :=
  mkDataTracker (http_req s) (get_count s) (cache_req s) (cache_hit s) (memcache_req s)
    (memcache_hit s) (memcache s) (dirs s) (f (metadata s)) (objects s) (now_calls s) (trace s).
Definition with_objects (f : gmap string Json -> gmap string Json) (s : DataTracker) : DataTracker :=
  mkDataTracker (http_req s) (get_count s) (cache_req s) (cache_hit s) (memcache_req s)
    (memcache_hit s) (memcache s) (dirs s) (metadata s) (f (objects s)) (now_calls s) (trace s).
Definition with_now_calls (f : nat -> nat) (s : DataTracker) : DataTracker :=
  mkDataTracker (http_req s) (get_count s) (cache_req s) (cache_hit s) (memcache_req s)
    (memcache_hit s) (memcache s) (dirs s) (metadata s) (objects s) (f (now_calls s)) (trace s).
Definition with_trace (f : list Event -> list Event) (s : DataTracker) : DataTracker :=
  mkDataTracker (http_req s) (get_count s) (cache_req s) (cache_hit s) (memcache_req s)
    (memcache_hit s) (memcache s) (dirs s) (metadata s) (objects s) (now_calls s) (f (trace s)).

(** ** Methods as state transformers *)

Inductive Outcome (A : Type) :=
| Ok (a : A) (s : DataTracker)      (* normal return *)
| Exit (s : DataTracker)            (* sys.exit(1) *)
| Raise (e : Exn) (s : DataTracker) (* uncaught exception *)
| Diverge.                          (* out of fuel *)
Arguments Ok {A} a s.
Arguments Exit {A} s.
Arguments Raise {A} e s.
Arguments Diverge {A}.

Definition M (A : Type) : Type := DataTracker -> Outcome A.

Definition ret {A} (a : A) : M A := fun s => Ok a s.
Definition bind {A B} (m : M A) (k : A -> M B) : M B :=
  fun s => match m s with
           | Ok a s' => k a s'
           | Exit s' => Exit s'
           | Raise e s' => Raise e s'
           | Diverge => Diverge
           end.
Definition sys_exit {A} : M A := fun s => Exit s.
Definition raise {A} (e : Exn) : M A := fun s => Raise e s.
Definition diverge {A} : M A := fun _ => Diverge.
Definition gets {A} (f : DataTracker -> A) : M A := fun s => Ok (f s) s.
Definition modify (f : DataTracker -> DataTracker) : M unit := fun s => Ok tt (f s).
Definition lift {A} (r : Res A) : M A :=
  match r with Val a => ret a | Err e => raise e end.
Definition py_assert (b : bool) : M unit :=
  if b then ret tt else raise AssertionError.

Declare Scope method_scope.
Delimit Scope method_scope with method.
Notation "x ← y ; z" := (bind y (fun x => z))
  (at level 20, y at level 100, z at level 200, only parsing) : method_scope.
Notation "' x ← y ; z" := (bind y (fun x => z))
  (at level 20, x pattern, y at level 100, z at level 200, only parsing) : method_scope.
Notation "x ;; z" := (bind x (fun _ => z))
  (at level 100, z at level 200, only parsing, right associativity) : method_scope.
Local Open Scope method_scope.

Fixpoint for_each {A} (f : A -> M unit) (l : list A) : M unit :=
  match l with
  | [] => ret tt
  | x :: r => f x;; for_each f r
  end.

(** The state an outcome leaves behind. *)
Definition final {A} (o : Outcome A) : option DataTracker :=
  match o with
  | Ok _ s | Exit s | Raise _ s => Some s
  | Diverge => None
  end.

(** ** Pure helpers of the module *)

(** [_parent_uri] *)
Definition _parent_uri (u : URI) : URI :=
  let separator_succ := PyStr.rfind_succ "/" (PyStr.drop_last 1 (uri u)) in
  mkURI (String.substring 0 separator_succ (uri u)) [].

(** [d[k] = v] on an insertion-ordered mapping *)
Fixpoint dict_set {V} (k : string) (v : V) (d : list (string * V)) : list (string * V) :=
  match d with
  | [] => [(k, v)]
  | (k', v') :: r =>
      if String.eqb k k' then (k, v) :: r else (k', v') :: dict_set k v r
  end.

Definition is_time_param (n : string) : bool :=
  String.eqb n "time__gte" || String.eqb n "time__lt".

(** The loop that copies every parameter but the time range into a fresh
    URI ([_cache_record_query], [_retrieve_multi]). *)
Fixpoint copy_params (ps acc : list (string * Json)) : Res (list (string * Json)) :=
  match ps with
  | [] => Val acc
  | (n, v) :: r =>
      match v with
      | JNull => Err AssertionError
      | _ => copy_params r (if is_time_param n then acc else dict_set n v acc)
      end
  end.

Definition strip_time (u : URI) : Res URI :=
  res_bind (copy_params (params u) []) (fun ps => Val (mkURI (uri u) ps)).

(** Paths below the cache directory *)
Definition dir_path (type_uri : string) : string := PyStr.strip_ends type_uri.
Definition obj_path (obj_uri : string) : string := PyStr.strip_ends obj_uri +:+ ".json".
Definition path_parent (p : string) : string :=
  String.substring 0 (PyStr.rfind_succ "/" p - 1) p.

(** The directory and its ancestors, as [mkdir(parents=True)] makes them. *)
Fixpoint ancestors_go (pre : string) (segs : list string) : list string :=
  match segs with
  | [] => []
  | seg :: r =>
      let here := match pre with EmptyString => seg | _ => pre +:+ "/" +:+ seg end in
      here :: ancestors_go here r
  end.
Definition ancestors (d : string) : list string := ancestors_go "" (PyStr.split "/" d).

Definition dir_exists (s : DataTracker) (d : string) : bool :=
  bool_decide (d = "" ∨ d ∈ dirs s).

(** The names [glob("*.json")] finds in directory [d]. *)
Definition file_in_dir (d p : string) : option string :=
  let pre := match d with EmptyString => EmptyString | _ => d +:+ "/" end in
  if String.prefix pre p then
    let name := String.substring (String.length pre) (String.length p - String.length pre) p in
    if negb (PyStr.contains "/" name) && PyStr.endswith ".json" name then Some name else None
  else None.

Definition listdir (s : DataTracker) (d : string) : list string :=
  omap (fun kv => file_in_dir d (fst kv)) (map_to_list (objects s)).

(** [results.sort(key=_sort_objs, reverse=...)]: a stable sort on the key;
    a reversed sort keeps equal keys in their original order as well. *)
Fixpoint insert_by_key {A} (x : string * A) (l : list (string * A)) : list (string * A) :=
  match l with
  | [] => [x]
  | y :: r => if String.ltb (fst y) (fst x) then y :: insert_by_key x r else x :: l
  end.
Definition sort_by_key {A} (l : list (string * A)) : list (string * A) :=
  List.fold_right insert_by_key [] l.
Fixpoint insert_by_key_desc {A} (x : string * A) (l : list (string * A)) : list (string * A) :=
  match l with
  | [] => [x]
  | y :: r => if String.ltb (fst x) (fst y) then y :: insert_by_key_desc x r else x :: l
  end.
Definition py_sort {A} (rev : bool) (l : list (string * A)) : list (string * A) :=
  if rev then List.fold_right insert_by_key_desc [] l else sort_by_key l.

(** [item.split("/")[-2]] *)
Definition id_tail (s : string) : Res string :=
  match PyStr.penultimate (PyStr.split "/" s) with
  | Some t => Val t
  | None => Err IndexError
  end.

(** ** The engine *)

Section Engine.

(** The remote service: the response to the [n]-th GET of the object, for
    the URL and the [params] argument handed to [session.get]. *)
Variable remote : Z -> string -> list (string * Json) -> Response.
(** The [n]-th reading of [datetime.now], in microseconds. *)
Variable clock : nat -> Z.
(** [self._cache_hints] *)
Variable cache_hints : string -> option CacheHints.
(** [strftime("%Y-%m-%dT%H:%M:%S.%f")] *)
Variable strftime : Z -> string.

Definition hour : Z := 3600 * 1000000.

Definition datetime_now : M Z :=
  fun s => Ok (clock (now_calls s)) (with_now_calls S s).

Definition session_close : M unit := modify (with_trace (cons EvClose)).
Definition time_sleep (t : Q) : M unit := modify (with_trace (cons (EvSleep t))).

(** [self.session.get(url, params = ps, ...)] *)
Definition session_get (site : Site) (url : string) (ps : list (string * Json)) : M Response :=
  fun s => Ok (remote (get_count s) url ps)
              (with_trace (cons (EvGet site (get_count s) url ps)) s).

Definition hints_for (type_uri : string) : M CacheHints :=
  match cache_hints type_uri with
  | Some h => ret h
  | None => raise KeyError
  end.

(** *** In-process lookaside cache *)

Definition _memcache_has_object (obj_uri : string) : M bool :=
  gets (fun s => bool_decide (is_Some (memcache s !! obj_uri))).

Definition _memcache_get_object (obj_uri : string) : M Json :=
  o ← gets (fun s => memcache s !! obj_uri);
  match o with
  | Some j => ret j
  | None => raise AssertionError
  end.

Definition _memcache_put_object (obj_uri : string) (obj : Json) : M unit :=
  modify (with_memcache (insert obj_uri obj)).

(** *** Cache metadata store *)

Definition _cache_load_metadata (obj_type_uri : URI) : M CacheMetadata :=
  o ← gets (fun s => metadata s !! dir_path (uri obj_type_uri));
  match o with
  | Some m => ret m
  | None => raise FileNotFoundError
  end.

Definition _cache_save_metadata (obj_type_uri : URI) (meta : CacheMetadata) : M unit :=
  modify (with_metadata (insert (dir_path (uri obj_type_uri)) meta)).

Definition _cache_create (obj_type_uri : URI) : M unit :=
  let cache_filepath := dir_path (uri obj_type_uri) in
  dir_ok ← gets (fun s => dir_exists s cache_filepath);
  (if dir_ok then ret tt
   else modify (with_dirs (fun ds => ds ∪ list_to_set (ancestors cache_filepath))));;
  mdata ← gets (fun s => metadata s !! cache_filepath);
  match mdata with
  | Some _ => ret tt
  | None =>
      created ← datetime_now;
      _cache_save_metadata obj_type_uri (mkCacheMetadata created created true [])
  end.

Definition _cache_record_query (obj_uri obj_type_uri : URI) : M unit :=
  py_assert (negb (PyStr.contains "?" (uri obj_uri)));;
  meta ← _cache_load_metadata obj_type_uri;
  if partial meta then
    cache_uri ← lift (strip_time obj_uri);
    if bool_decide (URI_str cache_uri ∈ queries meta) then ret tt
    else _cache_save_metadata obj_type_uri
           (mkCacheMetadata (created meta) (updated meta) (partial meta)
              (queries meta ++ [URI_str cache_uri]))
  else ret tt.

Definition _cache_has_all_objects (obj_type_uri : URI) : M bool :=
  meta ← _cache_load_metadata obj_type_uri;
  ret (negb (partial meta)).

Definition _cache_has_objects (obj_uri obj_type_uri : URI) : M bool :=
  meta ← _cache_load_metadata obj_type_uri;
  ret (bool_decide (URI_str obj_uri ∈ queries meta)).

(** *** Object store *)

Definition _cache_has_object (obj_uri : URI) : M bool :=
  in_mem ← _memcache_has_object (uri obj_uri);
  if in_mem then ret true
  else
    on_disk ← gets (fun s => bool_decide (is_Some (objects s !! obj_path (uri obj_uri))));
    if on_disk then ret true
    else
      full ← _cache_has_all_objects (_parent_uri obj_uri);
      if full then ret true else ret false.

Definition _cache_get_object (obj_uri : URI) : M (option Json) :=
  modify (with_memcache_req (Z.add 1));;
  in_mem ← _memcache_has_object (uri obj_uri);
  if in_mem then
    modify (with_memcache_hit (Z.add 1));;
    j ← _memcache_get_object (uri obj_uri);
    ret (Some j)
  else
    file ← gets (fun s => objects s !! obj_path (uri obj_uri));
    match file with
    | Some obj_json =>
        _memcache_put_object (uri obj_uri) obj_json;;
        ret (Some obj_json)
    | None => ret None
    end.

Definition _cache_put_object (obj_uri : URI) (obj_json : Json) : M unit :=
  py_assert (PyStr.startswith "/" (uri obj_uri));;
  py_assert (PyStr.endswith "/" (uri obj_uri));;
  let cache_filepath := obj_path (uri obj_uri) in
  parent_ok ← gets (fun s => dir_exists s (path_parent cache_filepath));
  (if parent_ok then ret tt else _cache_create (_parent_uri obj_uri));;
  modify (with_objects (insert cache_filepath obj_json));;
  _memcache_put_object (uri obj_uri) obj_json.

(** *** Rate limiter *)

Definition _rate_limit : M unit :=
  modify (with_http_req (Z.add 1));;
  n ← gets http_req;
  if (n mod 100 =? 0)%Z then session_close else ret tt.

(** *** Single-object fetch *)

Definition _retrieve_json (obj_uri : URI) : M (option Json) :=
  modify (with_cache_req (Z.add 1));;
  cached ← _cache_has_object obj_uri;
  if negb cached then
    _rate_limit;;
    modify (with_get_count (Z.add 1));;
    r ← session_get ItemGet (base_url +:+ uri obj_uri) (params obj_uri);
    if (status_code r =? 200)%Z then
      _cache_put_object obj_uri (json r);;
      _cache_record_query obj_uri (_parent_uri obj_uri);;
      ret (Some (json r))
    else if (status_code r =? 404)%Z then ret None
    else sys_exit
  else
    modify (with_cache_hit (Z.add 1));;
    _cache_get_object obj_uri.

(** [_retrieve_json(URI(item))] on a field value: a reference that is not
    text fails as soon as its [uri] is used as a path. *)
Definition _retrieve_json_of (item : Json) : M (option Json) :=
  match item with
  | JStr s => _retrieve_json (mkURI s [])
  | _ => modify (with_cache_req (Z.add 1));; raise TypeError
  end.

(** *** Local predicate evaluator *)

(** The [for item in obj[k]] loop of a [trim] field. *)
Fixpoint trim_found (v : Json) (items : list Json) : Res bool :=
  match items with
  | [] => Val false
  | JStr item :: rest =>
      res_bind (id_tail item) (fun tail =>
        if String.eqb (Py.str v) tail then Val true else trim_found v rest)
  | _ :: _ => Err AttributeError
  end.

(** The [for item in obj[k]] loop of a [deref] field. *)
Fixpoint deref_found (field : string) (v : Json) (items : list Json) : M bool :=
  match items with
  | [] => ret false
  | item :: rest =>
      deref_obj ← _retrieve_json_of item;
      match deref_obj with
      | Some o =>
          x ← lift (Py.getitem o field);
          if Py.eq v x then ret true else deref_found field v rest
      | None => deref_found field v rest
      end
  end.

(** One turn of the loop over [query_uri.params]: [false] when the turn
    assigns [res = False]. *)
Definition match_param (hints : CacheHints) (obj : Json) (k : string) (v : Json) : M bool :=
  match v with
  | JNull => ret true
  | _ =>
      if bool_decide (k ∈ trim hints) then
        x ← lift (Py.getitem obj k);
        match x with
        | JNull => ret false
        | JList items => lift (trim_found v items)
        | JStr s =>
            tail ← lift (id_tail s);
            ret (String.eqb (Py.str v) tail)
        | _ => sys_exit
        end
      else
        match Py.lookup_key k (deref hints) with
        | Some field =>
            x ← lift (Py.getitem obj k);
            match x with
            | JNull => ret false
            | JList items => deref_found field v items
            | JStr s =>
                deref_obj ← _retrieve_json (mkURI s []);
                match deref_obj with
                | None => ret false
                | Some o =>
                    y ← lift (Py.getitem o field);
                    ret (Py.eq v y)
                end
            | _ => sys_exit
            end
        | None =>
            if PyStr.contains "__contains" k then
              x ← lift (Py.getitem obj (PyStr.drop_last 10 k));
              lift (Py.contains v x)
            else if PyStr.contains "__gte" k then
              x ← lift (Py.getitem obj (PyStr.drop_last 5 k));
              b ← lift (Py.cmp Py.Lt x v); ret (negb b)
            else if PyStr.contains "__gt" k then
              x ← lift (Py.getitem obj (PyStr.drop_last 4 k));
              b ← lift (Py.cmp Py.Le x v); ret (negb b)
            else if PyStr.contains "__lte" k then
              x ← lift (Py.getitem obj (PyStr.drop_last 5 k));
              b ← lift (Py.cmp Py.Gt x v); ret (negb b)
            else if PyStr.contains "__lt" k then
              x ← lift (Py.getitem obj (PyStr.drop_last 4 k));
              b ← lift (Py.cmp Py.Ge x v); ret (negb b)
            else
              x ← lift (Py.getitem obj k);
              ret (Py.eq x v)
        end
  end.

Fixpoint match_loop (hints : CacheHints) (obj : Json) (ps : list (string * Json))
    (res : bool) : M bool :=
  match ps with
  | [] => ret res
  | (k, v) :: rest =>
      ok ← match_param hints obj k v;
      match_loop hints obj rest (if ok then res else false)
  end.

Definition _cache_obj_matches (obj : Json) (query_uri : URI) : M bool :=
  hints ← hints_for (uri query_uri);
  match_loop hints obj (params query_uri) true.

(** *** Answering a query from disk *)

(** The loop over [hints.sort_by] that builds the sort key. *)
Fixpoint sort_key_loop (obj_json : Json) (sbs : list string) (sort_key : string) : Res string :=
  match sbs with
  | [] => Val sort_key
  | sb :: rest =>
      res_bind (Py.getitem obj_json sb) (fun x =>
      res_bind (Py.format40 x) (fun f =>
      sort_key_loop obj_json rest (sort_key +:+ " " +:+ f)))
  end.

(** The loop over the files of the directory. *)
Fixpoint scan_loop (hints : CacheHints) (obj_uri obj_type_uri : URI) (files : list string)
    (results : list (string * Json)) : M (list (string * Json)) :=
  match files with
  | [] => ret results
  | name :: rest =>
      if String.eqb name "_cache_info.json" then
        scan_loop hints obj_uri obj_type_uri rest results
      else
        let cache_uri := mkURI (uri obj_type_uri +:+ PyStr.drop_last 5 name +:+ "/") [] in
        o ← _cache_get_object cache_uri;
        match o with
        | None => raise AssertionError
        | Some obj_json =>
            m ← _cache_obj_matches obj_json obj_uri;
            if m then
              sort_key ← lift (sort_key_loop obj_json (sort_by hints) "");
              scan_loop hints obj_uri obj_type_uri rest (results ++ [(sort_key, obj_json)])
            else scan_loop hints obj_uri obj_type_uri rest results
        end
  end.

Definition _cache_get_objects (obj_uri obj_type_uri : URI) : M (list Json) :=
  hints ← hints_for (uri obj_type_uri);
  files ← gets (fun s => listdir s (dir_path (uri obj_type_uri)));
  results ← scan_loop hints obj_uri obj_type_uri files [];
  ret (List.map snd (py_sort (reverse hints) results)).

(** *** Network fetcher *)

(** [for obj_json in objs: self._cache_put_object(URI(obj_json["resource_uri"]), obj_json)] *)
Definition put_fetched (obj_json : Json) : M unit :=
  r ← lift (Py.getitem obj_json "resource_uri");
  match r with
  | JStr u => _cache_put_object (mkURI u []) obj_json
  | _ => raise AttributeError
  end.

Definition iter_objects (objs : Json) : M (list Json) :=
  match objs with
  | JList l => ret l
  | JDict [] | JStr EmptyString => ret []
  | _ => raise TypeError
  end.

(** The parameters of a single-item or next-page URL: the parsed query,
    with [offset] and [limit] assigned last. *)
Definition range_params (query : list (string * list string)) (offset limit : Z)
    : list (string * Json) :=
  dict_set "limit" (JInt limit)
    (dict_set "offset" (JInt offset)
       (List.map (fun kv => (fst kv, JList (List.map JStr (snd kv)))) query)).

(** [for i in range(offset, finish)], [n] turns left; returns [failed]. *)
Fixpoint isolate_loop (split : Url.SplitResult) (query : list (string * list string))
    (i : Z) (n : nat) (failed : bool) : M bool :=
  match n with
  | O => ret failed
  | S n' =>
      let obj_uri := mkURI (base_url +:+ Url.path split) (range_params query i 1) in
      modify (with_get_count (Z.add 1));;
      _rate_limit;;
      r ← session_get IsolateGet (URI_str obj_uri) [];
      if (status_code r =? 200)%Z then
        _cache_put_object (mkURI (Url.path split) []) (json r);;
        isolate_loop split query (i + 1) n' false
      else if (status_code r =? 400)%Z then
        isolate_loop split query (i + 1) n' failed
      else sys_exit
  end.

(** The branch taken on status 400 with a known total: returns the URI of
    the next page. *)
Definition isolate_bad_request (req_url : string) (total : Json) : M Json :=
  let split := Url.urlsplit req_url in
  let query := Url.parse_qs (Url.query split) in
  offset_text ← lift (match Py.lookup_key "offset" query with
                      | Some (v :: _) => Val v
                      | Some [] => Err IndexError
                      | None => Err KeyError
                      end);
  offset ← lift (match PyStr.to_Z offset_text with
                 | Some z => Val z
                 | None => Err ValueError
                 end);
  below ← lift (Py.cmp Py.Lt (JInt offset) total);
  finish ← (if below : bool then ret (offset + 100)%Z
            else match Py.num total with
                 | Some t => ret t
                 | None => raise TypeError
                 end);
  failed ← isolate_loop split query offset (Z.to_nat (finish - offset)) true;
  if failed then sys_exit
  else
    let obj_uri := mkURI (Url.path split) (range_params query finish 100) in
    ret (JStr (uri obj_uri +:+ "?" +:+ Url.urlencode (params obj_uri))).

Definition is_none (j : Json) : bool :=
  match j with JNull => true | _ => false end.

(** The [while retry] loop on one page; returns the next [obj_uri.uri] and
    [total]. *)
Fixpoint retry_loop (fuel : nat) (obj_uri total : Json) (retry_time : Q) : M (Json * Json) :=
  match fuel with
  | O => diverge
  | S fuel' =>
      modify (with_get_count (Z.add 1));;
      req_url ← (match obj_uri with
                 | JStr u => ret (base_url +:+ u)
                 | _ => raise TypeError
                 end);
      r ← session_get PageGet req_url [];
      if (status_code r =? 200)%Z then
        meta ← lift (Py.getitem (json r) "meta");
        objs ← lift (Py.getitem (json r) "objects");
        next ← lift (Py.getitem meta "next");
        l ← iter_objects objs;
        for_each put_fetched l;;
        total' ← lift (Py.getitem meta "total_count");
        ret (next, total')
      else if (status_code r =? 500)%Z then
        if negb (Qle_bool retry_time 60) then sys_exit
        else
          session_close;;
          time_sleep retry_time;;
          retry_loop fuel' obj_uri total (retry_time * 2)
      else if (status_code r =? 400)%Z && negb (is_none total) then
        next ← isolate_bad_request req_url total;
        ret (next, total)
      else sys_exit
  end.

(** The [while obj_uri.uri is not None] loop. *)
Fixpoint page_loop (fuel : nat) (obj_uri total : Json) : M unit :=
  match obj_uri with
  | JNull => ret tt
  | _ =>
      match fuel with
      | O => diverge
      | S fuel' =>
          _rate_limit;;
          '(next, total') ← retry_loop fuel obj_uri total (15 # 8);
          page_loop fuel' next total'
      end
  end.

Definition _cache_put_objects (fuel : nat) (obj_uri obj_type_uri : URI) : M unit :=
  let first :=
    match params obj_uri with
    | _ :: _ => uri obj_uri +:+ "?limit=100&" +:+ Url.urlencode (params obj_uri)
    | [] => uri obj_uri +:+ "?limit=100"
    end in
  page_loop fuel (JStr first) JNull.

(** *** Sync coordinator *)

Definition _cache_update (fuel : nat) (obj_type_uri : URI) : M unit :=
  _cache_create obj_type_uri;;
  now ← datetime_now;
  meta ← _cache_load_metadata obj_type_uri;
  meta ← (if partial meta && (100 <? List.length (queries meta))%nat then
            _cache_put_objects fuel obj_type_uri obj_type_uri;;
            meta ← _cache_load_metadata obj_type_uri;
            let meta := mkCacheMetadata (created meta) now false [] in
            _cache_save_metadata obj_type_uri meta;;
            ret meta
          else ret meta);
  if (hour <? now - updated meta)%Z then
    hints ← hints_for (uri obj_type_uri);
    if timed hints then
      let update_uri :=
        mkURI (uri obj_type_uri)
          (dict_set "time__lt" (JStr (strftime now))
             (dict_set "time__gte" (JStr (strftime (updated meta))) [])) in
      _cache_put_objects fuel update_uri obj_type_uri;;
      meta ← _cache_load_metadata obj_type_uri;
      _cache_save_metadata obj_type_uri
        (mkCacheMetadata (created meta) now (partial meta) (queries meta))
    else ret tt
  else ret tt.

Definition _retrieve (fuel : nat) (obj_uri : URI) : M (option Json) :=
  _cache_update fuel (_parent_uri obj_uri);;
  _retrieve_json obj_uri.

Definition _retrieve_multi (fuel : nat) (obj_uri : URI) : M (list Json) :=
  let obj_type_uri := mkURI (uri obj_uri) [] in
  cache_uri ← lift (strip_time obj_uri);
  _cache_create obj_type_uri;;
  modify (with_cache_req (Z.add 1));;
  recorded ← _cache_has_objects cache_uri obj_type_uri;
  full ← (if recorded : bool then ret true else _cache_has_all_objects obj_type_uri);
  if full then
    modify (with_cache_hit (Z.add 1));;
    _cache_update fuel obj_type_uri;;
    _cache_get_objects obj_uri obj_type_uri
  else
    _cache_put_objects fuel cache_uri obj_type_uri;;
    _cache_record_query cache_uri obj_type_uri;;
    _cache_get_objects obj_uri obj_type_uri.

End Engine.

(** ** The cache-hints registry of [DataTracker.__init__] *)

Definition registry : list (string * CacheHints) := [
  ("/api/v1/doc/ballotdocevent/",
     mkCacheHints [("doc", "id")] ["ballot_type"; "by"] ["id"] false true);
  ("/api/v1/doc/ballottype/",
     mkCacheHints [] ["doc_type"] ["order"; "id"] false false);
  ("/api/v1/doc/docalias/",
     mkCacheHints [] [] ["id"] false false);
  ("/api/v1/doc/docevent/",
     mkCacheHints [("doc", "id")] ["by"] ["id"] true true);
  ("/api/v1/doc/document/",
     mkCacheHints [] ["type"; "stream"; "group"] ["id"] false true);
  ("/api/v1/doc/documentauthor/",
     mkCacheHints [("document", "id")] ["email"; "person"] ["order"; "id"] false false);
  ("/api/v1/doc/relateddocument/",
     mkCacheHints [("source", "id"); ("target", "id"); ("relationship", "slug")] [] ["id"] false false);
  ("/api/v1/doc/state/",
     mkCacheHints [] ["type"] ["order"; "id"; "slug"] false false);
  ("/api/v1/doc/statetype/",
     mkCacheHints [] [] ["slug"] false false);
  ("/api/v1/group/changestategroupevent/",
     mkCacheHints [] ["by"; "group"; "state"] ["order"; "id"] false true);
  ("/api/v1/group/group/",
     mkCacheHints [] ["parent"; "state"] ["id"] false true);
  ("/api/v1/group/groupevent/",
     mkCacheHints [] ["by"; "group"] ["id"] true true);
  ("/api/v1/group/grouphistory/",
     mkCacheHints [] ["group"; "parent"; "state"] ["id"] false true);
  ("/api/v1/group/groupmilestone/",
     mkCacheHints [] ["group"; "state"] ["id"] false true);
  ("/api/v1/group/groupmilestonehistory/",
     mkCacheHints [] ["group"; "milestone"; "state"] ["id"] false true);
  ("/api/v1/group/groupurl/",
     mkCacheHints [] ["group"] ["id"] false false);
  ("/api/v1/group/milestonegroupevent/",
     mkCacheHints [] ["by"; "group"; "milestone"] ["id"] true true);
  ("/api/v1/group/role/",
     mkCacheHints [] ["email"; "group"; "name"; "person"] ["id"] false false);
  ("/api/v1/group/rolehistory/",
     mkCacheHints [] ["email"; "group"; "name"; "person"] ["id"] false false);
  ("/api/v1/ipr/genericiprdisclosure/",
     mkCacheHints [] ["by"; "state"] ["order"; "id"] false true);
  ("/api/v1/ipr/holderiprdisclosure/",
     mkCacheHints [] ["by"; "licensing"; "state"] ["order"; "id"] false true);
  ("/api/v1/ipr/iprdisclosurebase/",
     mkCacheHints [] ["by"; "state"] ["order"; "id"] false true);
  ("/api/v1/ipr/thirdpartyiprdisclosure/",
     mkCacheHints [] ["by"; "state"] ["order"; "id"] false true);
  ("/api/v1/mailinglists/list/",
     mkCacheHints [] [] ["id"] false false);
  ("/api/v1/mailinglists/subscribed/",
     mkCacheHints [] ["lists"] ["id"] false true);
  ("/api/v1/meeting/meeting/",
     mkCacheHints [] ["type"] ["id"] false false);
  ("/api/v1/meeting/schedtimesessassignment/",
     mkCacheHints [] ["schedule"] ["id"] false false);
  ("/api/v1/meeting/schedule/",
     mkCacheHints [] [] ["id"] false false);
  ("/api/v1/meeting/schedulingevent/",
     mkCacheHints [] ["session"; "by"] ["id"] false true);
  ("/api/v1/meeting/session/",
     mkCacheHints [] ["meeting"; "group"; "group_parent"] ["id"] false false);
  ("/api/v1/meeting/timeslot/",
     mkCacheHints [] [] ["id"] false true);
  ("/api/v1/message/announcementfrom/",
     mkCacheHints [] ["group"; "name"] ["id"] false false);
  ("/api/v1/message/message/",
     mkCacheHints [("related_doc", "id")] ["by"] ["id"] false true);
  ("/api/v1/message/sendqueue/",
     mkCacheHints [] ["by"; "message"] ["id"] false true);
  ("/api/v1/name/ballotpositionname/",
     mkCacheHints [] [] ["order"; "slug"] false false);
  ("/api/v1/name/docrelationshipname/",
     mkCacheHints [] [] ["slug"] false false);
  ("/api/v1/name/doctypename/",
     mkCacheHints [] [] ["order"; "slug"] false false);
  ("/api/v1/name/groupmilestonestatename/",
     mkCacheHints [] [] ["slug"] false false);
  ("/api/v1/name/groupstatename/",
     mkCacheHints [] [] ["slug"] false false);
  ("/api/v1/name/grouptypename/",
     mkCacheHints [] [] ["slug"] false false);
  ("/api/v1/name/meetingtypename/",
     mkCacheHints [] [] ["slug"] false false);
  ("/api/v1/name/iprdisclosurestatename/",
     mkCacheHints [] [] ["slug"] false false);
  ("/api/v1/name/iprlicensetypename/",
     mkCacheHints [] [] ["slug"] false false);
  ("/api/v1/name/reviewassignmentstatename/",
     mkCacheHints [] [] ["slug"] false false);
  ("/api/v1/name/reviewresultname/",
     mkCacheHints [] [] ["slug"] false false);
  ("/api/v1/name/reviewtypename/",
     mkCacheHints [] [] ["slug"] false false);
  ("/api/v1/name/reviewrequeststatename/",
     mkCacheHints [] [] ["slug"] false false);
  ("/api/v1/name/rolename/",
     mkCacheHints [] [] ["slug"] false false);
  ("/api/v1/name/sessionstatusname/",
     mkCacheHints [] [] ["slug"] false false);
  ("/api/v1/name/streamname/",
     mkCacheHints [] [] ["slug"] false false);
  ("/api/v1/person/alias/",
     mkCacheHints [] ["person"] ["id"] false false);
  ("/api/v1/person/email/",
     mkCacheHints [] ["person"] ["address"] false true);
  ("/api/v1/person/historicalemail/",
     mkCacheHints [] ["person"] ["history_id"] true true);
  ("/api/v1/person/historicalperson/",
     mkCacheHints [] ["person"] ["history_id"] true true);
  ("/api/v1/person/person/",
     mkCacheHints [] [] ["id"] false true);
  ("/api/v1/person/personevent/",
     mkCacheHints [] ["person"] ["id"] false true);
  ("/api/v1/review/historicalreviewassignment/",
     mkCacheHints [] ["result"; "review_request"; "reviewer"; "state"] ["id"] false false);
  ("/api/v1/review/historicalreviewersettings/",
     mkCacheHints [] ["person"; "team"] ["order"; "id"] false false);
  ("/api/v1/review/historicalreviewrequest/",
     mkCacheHints [("doc", "id")] ["requested_by"; "state"; "team"; "type"] ["order"; "id"] false false);
  ("/api/v1/review/historicalunavailableperiod/",
     mkCacheHints [] ["person"; "team"] ["id"] false false);
  ("/api/v1/review/nextreviewerinteam/",
     mkCacheHints [] ["team"] ["id"] false false);
  ("/api/v1/review/reviewassignment/",
     mkCacheHints [] ["result"; "review_request"; "reviewer"; "state"] ["id"] false false);
  ("/api/v1/review/reviewersettings/",
     mkCacheHints [] ["person"; "team"] ["id"] false false);
  ("/api/v1/review/reviewrequest/",
     mkCacheHints [("doc", "id")] ["requested_by"; "state"; "team"; "type"] ["id"] false true);
  ("/api/v1/review/reviewsecretarysettings/",
     mkCacheHints [] ["person"; "team"] ["order"; "id"] false false);
  ("/api/v1/review/reviewteamsettings/",
     mkCacheHints [] ["group"] ["id"] false false);
  ("/api/v1/review/reviewwish/",
     mkCacheHints [("doc", "id")] ["person"; "team"] ["id"] false true);
  ("/api/v1/review/unavailableperiod/",
     mkCacheHints [] ["person"; "team"] ["order"; "id"] false false);
  ("/api/v1/stats/meetingregistration/",
     mkCacheHints [] ["meeting"; "person"] ["id"] false false);
  ("/api/v1/submit/submission/",
     mkCacheHints [] [] ["order"; "id"] false false);
  ("/api/v1/submit/submissionevent/",
     mkCacheHints [] ["by"; "submission"] ["order"; "id"] false true)
].

Definition registry_hints (type_uri : string) : option CacheHints :=
  Py.lookup_key type_uri registry.


(** ** Vocabulary of the statements *)

(** What a lookup of an object URI sees: the lookaside cache first, then
    the file. *)
Definition cache_view (s : DataTracker) (u : string) : option Json :=
  match memcache s !! u with
  | Some j => Some j
  | None => objects s !! obj_path u
  end.

(** The events the rate limiter adds when it runs in state [s]. *)
Definition rate_limit_events (s : DataTracker) : list Event :=
  if ((1 + http_req s) mod 100 =? 0)%Z then [EvClose] else [].

(** The events of a page that answers 500 to every request, oldest first,
    when [g] requests were issued before. *)
Definition backoff_events (url : string) (g : Z) : list Event :=
  [ EvGet PageGet (g + 1) url []; EvClose; EvSleep (15 # 8);
    EvGet PageGet (g + 2) url []; EvClose; EvSleep (30 # 8);
    EvGet PageGet (g + 3) url []; EvClose; EvSleep (60 # 8);
    EvGet PageGet (g + 4) url []; EvClose; EvSleep (120 # 8);
    EvGet PageGet (g + 5) url []; EvClose; EvSleep (240 # 8);
    EvGet PageGet (g + 6) url []; EvClose; EvSleep (480 # 8);
    EvGet PageGet (g + 7) url [] ]%Z.

Definition sleeps_of (evs : list Event) : list Q :=
  omap (fun e => match e with EvSleep t => Some t | _ => None end) evs.


(** *** Evolution of the metadata files *)

(** A recorded query is the text of a URI without a time range. *)
Definition time_free (q : string) : Prop :=
  exists u ps, q = URI_str (mkURI u ps) /\
    PyStr.contains "?" u = false /\
    forall k v, (k, v) ∈ ps -> k <> "time__gte" /\ k <> "time__lt".

(** The four ways the engine rewrites a [_cache_info.json]: creation,
    recording of a query, promotion to a full cache, and refresh. *)
Inductive meta_step : relation (gmap string CacheMetadata) :=
| ms_create d c ms :
    ms !! d = None ->
    meta_step ms (<[d := mkCacheMetadata c c true []]> ms)
| ms_record d m q ms :
    ms !! d = Some m -> partial m = true -> q ∉ queries m -> time_free q ->
    meta_step ms (<[d := mkCacheMetadata (created m) (updated m) (partial m)
                           (queries m ++ [q])]> ms)
| ms_promote d m now ms :
    ms !! d = Some m ->
    meta_step ms (<[d := mkCacheMetadata (created m) now false []]> ms)
| ms_refresh d m now ms :
    ms !! d = Some m ->
    meta_step ms (<[d := mkCacheMetadata (created m) now (partial m) (queries m)]> ms).

Definition meta_evolves (s s' : DataTracker) : Prop :=
  rtc meta_step (metadata s) (metadata s').

(** The shape every metadata record keeps. *)
Record wf_meta (m : CacheMetadata) : Prop := {
  wf_full_no_queries : partial m = false -> queries m = [];
  wf_distinct : NoDup (queries m);
  wf_time_free : Forall time_free (queries m)
}.

Definition meta_inv (ms : gmap string CacheMetadata) : Prop :=
  forall d m, ms !! d = Some m -> wf_meta m.

(** The type stored in directory [d] is fully cached. *)
Definition fully_cached (ms : gmap string CacheMetadata) (d : string) : Prop :=
  exists m, ms !! d = Some m /\ partial m = false.

(** Query text [q] is answerable from directory [d] without the network. *)
Definition answerable (ms : gmap string CacheMetadata) (d q : string) : Prop :=
  exists m, ms !! d = Some m /\ (partial m = false \/ q ∈ queries m).

(** *** Methods that keep a relation between the states *)

(** [m] relates the state it starts from to the state it leaves behind,
    whatever the outcome. *)
Definition preserves {A} (R : relation DataTracker) (m : M A) : Prop :=
  forall s s', final (m s) = Some s' -> R s s'.

(** A relation that does not look at the counters, the lookaside cache,
    the directories or the object files. *)
Class FrameRel (R : relation DataTracker) : Prop := {
  frame_preorder :: PreOrder R;
  frame_http_req f s : R s (with_http_req f s);
  frame_get_count f s : R s (with_get_count f s);
  frame_cache_req f s : R s (with_cache_req f s);
  frame_cache_hit f s : R s (with_cache_hit f s);
  frame_memcache_req f s : R s (with_memcache_req f s);
  frame_memcache_hit f s : R s (with_memcache_hit f s);
  frame_now_calls f s : R s (with_now_calls f s);
  frame_memcache f s : R s (with_memcache f s);
  frame_dirs f s : R s (with_dirs f s);
  frame_objects f s : R s (with_objects f s)
}.

(** A relation that admits the four rewrites of a metadata file. *)
Class MetaRel (R : relation DataTracker) : Prop :=
  meta_rel s ms' : meta_step (metadata s) ms' -> R s (with_metadata (fun _ => ms') s).

Definition is_fetch (e : Event) : bool :=
  match e with
  | EvGet PageGet _ _ _ | EvGet IsolateGet _ _ _ => true
  | _ => false
  end.

(** A relation that admits every event but the two GETs of the collection
    fetcher. *)
Class ItemTraceRel (R : relation DataTracker) : Prop :=
  item_trace_rel s e : is_fetch e = false -> R s (with_trace (cons e) s).

(** A relation that admits every event. *)
Class TraceRel (R : relation DataTracker) : Prop :=
  trace_rel s e : R s (with_trace (cons e) s).

(** Only events other than collection fetches were added. *)
Definition no_fetch (s s' : DataTracker) : Prop :=
  exists evs, trace s' = evs ++ trace s /\ Forall (fun e => is_fetch e = false) evs.

(** *** Histories of a cache directory *)

(** The two private entry points every public method of [DataTracker] goes
    through. *)
Inductive Call :=
| Retrieve (obj_uri : URI)
| RetrieveMulti (obj_uri : URI).

(** A new process opens the same directory. *)
Definition restart (s : DataTracker) : DataTracker :=
  mkDataTracker 0 0 0 0 0 0 ∅ (dirs s) (metadata s) (objects s) 0 [].

(** One step of the history of a cache directory: a call, against any
    behaviour of the remote and of the clock and however it ends, or a
    restart. *)
Inductive cache_step (hints : string -> option CacheHints) : relation DataTracker :=
| step_retrieve remote clock strftime fuel u s s' :
    final (_retrieve remote clock hints strftime fuel u s) = Some s' ->
    cache_step hints s s'
| step_retrieve_multi remote clock strftime fuel u s s' :
    final (_retrieve_multi remote clock hints strftime fuel u s) = Some s' ->
    cache_step hints s s'
| step_restart s :
    cache_step hints s (restart s).

Definition reachable (hints : string -> option CacheHints) (s : DataTracker) : Prop :=
  rtc (cache_step hints) init s.

(** The state after [_cache_create] found the metadata file in place: the
    directory is made if the file system had lost it. *)
Definition ensure_dir (d : string) (s : DataTracker) : DataTracker :=
  if dir_exists s d then s
  else with_dirs (fun ds => ds ∪ list_to_set (ancestors d)) s.

(** More than one hour lies between [updated] and the next reading of the
    clock. *)
Definition stale (clock : nat -> Z) (s : DataTracker) (m : CacheMetadata) : bool :=
  (hour <? clock (now_calls s) - updated m)%Z.

(** The URI of the incremental refresh. *)
Definition update_uri (strftime : Z -> string) (t : URI) (m : CacheMetadata) (now : Z) : URI :=
  mkURI (uri t)
    [("time__gte", JStr (strftime (updated m))); ("time__lt", JStr (strftime now))].

(** A method that needs no fuel. *)
Definition total {A} (m : M A) : Prop := forall s, m s <> Diverge.

(** ** Concrete remotes, clocks and cache directories *)

Module Demo.

(** A remote that answers 500 to everything. *)
Definition remote_500 (n : Z) (url : string) (ps : list (string * Json)) : Response :=
  mkResponse 500 JNull.

Definition clock_0 (n : nat) : Z := 0.

(** A clock that stands two hours after the epoch. *)
Definition clock_2h (n : nat) : Z := 2 * hour.

(** Times are printed as their number of microseconds. *)
Definition strftime (t : Z) : string := PyStr.of_Z t.

(** The envelope of a page of a collection. *)
Definition page (objs : list Json) (next : Json) (total : Z) : Json :=
  JDict [("meta", JDict [("next", next); ("total_count", JInt total)]);
         ("objects", JList objs)].

(** A remote whose collections are all empty. *)
Definition remote_empty (n : Z) (url : string) (ps : list (string * Json)) : Response :=
  mkResponse 200 (page [] JNull 0).

Definition person_dir : string := "api/v1/person/person".
Definition person_uri : string := "/api/v1/person/person/".

(** A directory where the person type (timed) was cached at the epoch:
    fully, or for no query yet. *)
Definition with_person_metadata (partial : bool) : DataTracker :=
  with_dirs (fun _ => list_to_set (ancestors person_dir))
    (with_metadata (fun _ => {[ person_dir := mkCacheMetadata 0 0 partial [] ]}) init).

Definition person_full : DataTracker := with_person_metadata false.
Definition person_partial : DataTracker := with_person_metadata true.

(** The query [name=x] on the person type. *)
Definition person_query : URI := mkURI person_uri [("name", JStr "x")].

End Demo.

Module Demo2.

(** A state of the document-state type (not timed), and its references. *)
Definition state_obj (id : Z) (slug type : string) : Json :=
  JDict [("id", JInt id); ("order", JInt id);
         ("resource_uri", JStr ("/api/v1/doc/state/" +:+ PyStr.of_Z id +:+ "/"));
         ("slug", JStr slug);
         ("type", JStr ("/api/v1/doc/statetype/" +:+ type +:+ "/"))].

(** A remote with two states of type [draft], served in one page, a third
    state served on its own, and nothing else. *)
Definition remote (n : Z) (url : string) (ps : list (string * Json)) : Response :=
  if String.eqb url "https://datatracker.ietf.org/api/v1/doc/state/?limit=100&type=draft"
  then mkResponse 200
         (Demo.page [state_obj 2 "expired" "draft"; state_obj 1 "active" "draft"] JNull 2)
  else if String.eqb url "https://datatracker.ietf.org/api/v1/doc/state/3/"
  then mkResponse 200 (state_obj 3 "approved" "charter")
  else mkResponse 404 JNull.

Definition state_uri : string := "/api/v1/doc/state/".
Definition state_dir : string := "api/v1/doc/state".

(** The query [type=draft] on the states. *)
Definition draft_query : URI := mkURI state_uri [("type", JStr "draft")].

(** The directory after the first [type=draft] query on an empty cache. *)
Definition after_draft_query : DataTracker :=
  match final (_retrieve_multi remote Demo.clock_0 registry_hints Demo.strftime 3
                 draft_query init) with
  | Some s => s
  | None => init
  end.

End Demo2.

Module Demo3.

(** A remote that fails once: 500 to the first request, an empty last page
    to every later one. *)
Definition remote_flaky (n : Z) (url : string) (ps : list (string * Json)) : Response :=
  if (n =? 1)%Z then mkResponse 500 JNull
  else mkResponse 200 (Demo.page [] JNull 0).

(** A remote that fails once and then serves empty pages, the last of
    them to the hundredth request. *)
Definition remote_flaky_pages (n : Z) (url : string) (ps : list (string * Json)) : Response :=
  if (n =? 1)%Z then mkResponse 500 JNull
  else if (n <? 100)%Z
       then mkResponse 200 (Demo.page [] (JStr "/api/v1/doc/state/?limit=100&offset=100") 0)
       else mkResponse 200 (Demo.page [] JNull 0).

Definition param_Z (name : string) (query : list (string * list string)) : Z :=
  match Py.lookup_key name query with
  | Some (v :: _) => match PyStr.to_Z v with Some z => z | None => 0%Z end
  | _ => 0%Z
  end.

(** A collection of 150 states of which the record at offset 120 is
    corrupt: the page at offset 100 answers 400, and so does the single-item
    request for offset 120; a single-item request at or past offset 150
    finds nothing. *)
Definition remote_corrupt (n : Z) (url : string) (ps : list (string * Json)) : Response :=
  let split := Url.urlsplit url in
  let query := Url.parse_qs (Url.query split) in
  let limit := param_Z "limit" query in
  let offset := param_Z "offset" query in
  let state := fun (i : Z) => Demo2.state_obj (i + 1) "s" "draft" in
  if negb (String.eqb (Url.path split) "/api/v1/doc/state/") then mkResponse 404 JNull
  else if (limit =? 100)%Z && (offset =? 0)%Z then
    mkResponse 200
      (Demo.page (List.map (fun i => state (Z.of_nat i)) (seq 0 100))
         (JStr "/api/v1/doc/state/?limit=100&offset=100") 150)
  else if (limit =? 100)%Z && (offset =? 100)%Z then mkResponse 400 JNull
  else if (limit =? 1)%Z then
    if (offset =? 120)%Z then mkResponse 400 JNull
    else if (offset <? 150)%Z then mkResponse 200 (Demo.page [state offset] JNull 150)
    else mkResponse 200 (Demo.page [] JNull 150)
  else mkResponse 200 (Demo.page [] JNull 150).

Definition state_collection : URI := mkURI "/api/v1/doc/state/" [].

Definition count_site (site : Site) (evs : list Event) : nat :=
  List.length (List.filter (fun e => match e with
                                     | EvGet PageGet _ _ _ =>
                                         match site with PageGet => true | _ => false end
                                     | EvGet IsolateGet _ _ _ =>
                                         match site with IsolateGet => true | _ => false end
                                     | EvGet ItemGet _ _ _ =>
                                         match site with ItemGet => true | _ => false end
                                     | _ => false
                                     end) evs).

End Demo3.

(** ** The evaluator as the specification words it *)

(** The filter a parameter name stands for: equality, or one of the five
    relational suffixes. *)
Inductive FilterOp := FEq | FGte | FGt | FLte | FLt | FContains.

Definition relational_suffixes : list (string * FilterOp) :=
  [("__contains", FContains); ("__gte", FGte); ("__gt", FGt); ("__lte", FLte); ("__lt", FLt)].

(** A name that ends in a relational suffix is split into its base field
    and the filter; any other name is an equality on the field itself. *)
Definition parse_filter (field : string) : string * FilterOp :=
  match List.find (fun sf => PyStr.endswith (fst sf) field) relational_suffixes with
  | Some (suffix, op) => (PyStr.drop_last (String.length suffix) field, op)
  | None => (field, FEq)
  end.

(** The split the source makes: by the first suffix the name contains. *)
Definition source_filter (k : string) : string * FilterOp :=
  match List.find (fun sf => PyStr.contains (fst sf) k) relational_suffixes with
  | Some (suffix, op) => (PyStr.drop_last (String.length suffix) k, op)
  | None => (k, FEq)
  end.

(** [x op v], for the stored value [x] and the query value [v]. *)
Definition apply_filter (op : FilterOp) (x v : Json) : Res bool :=
  match op with
  | FEq => Val (Py.eq x v)
  | FGte => Py.cmp Py.Ge x v
  | FGt => Py.cmp Py.Gt x v
  | FLte => Py.cmp Py.Le x v
  | FLt => Py.cmp Py.Lt x v
  | FContains => Py.contains v x
  end.

Definition non_none (ps : list (string * Json)) : list (string * Json) :=
  List.filter (fun kv => negb (is_none (snd kv))) ps.

Definition in_trim (hints : CacheHints) (k : string) : bool := bool_decide (k ∈ trim hints).

(** The names on which ending in a suffix and containing one agree; [trim]
    and [deref] fields are tested before any suffix is looked at. *)
Definition regular_name (hints : CacheHints) (k : string) : bool :=
  in_trim hints k ||
  match Py.lookup_key k (deref hints) with
  | Some _ => true
  | None =>
      let '(b1, o1) := parse_filter k in
      let '(b2, o2) := source_filter k in
      String.eqb b1 b2 &&
      match o1, o2 with
      | FEq, FEq | FGte, FGte | FGt, FGt | FLte, FLte | FLt, FLt | FContains, FContains => true
      | _, _ => false
      end
  end.

Definition regular_query (hints : CacheHints) (q : URI) : bool :=
  forallb (fun kv => regular_name hints (fst kv)) (non_none (params q)).

Section EvaluatorSpec.

Context (remote : Z -> string -> list (string * Json) -> Response) (clock : nat -> Z).

(** [any(p(x) for x in l)] *)
Fixpoint any_of {A} (p : A -> M bool) (l : list A) : M bool :=
  match l with
  | [] => ret false
  | x :: rest => b ← p x; if b : bool then ret true else any_of p rest
  end.

(** The id suffix of a reference equals the query value. *)
Definition id_suffix_is (v : Json) (ref : Json) : M bool :=
  match ref with
  | JStr s => tail ← lift (id_tail s); ret (String.eqb (Py.str v) tail)
  | _ => raise AttributeError
  end.

(** The referenced object exists and its remote field equals the query
    value. *)
Definition remote_field_is (field : string) (v : Json) (ref : Json) : M bool :=
  o ← _retrieve_json_of remote clock ref;
  match o with
  | Some target => y ← lift (Py.getitem target field); ret (Py.eq v y)
  | None => ret false
  end.

(** A reference field holds a reference, a list of references, or nothing. *)
Definition on_reference (test : Json -> M bool) (x : Json) : M bool :=
  match x with
  | JNull => ret false
  | JList items => any_of test items
  | JStr _ => test x
  | _ => sys_exit
  end.

(** One filter parameter holds for the object. *)
Definition clause_holds (hints : CacheHints) (obj : Json) (k : string) (v : Json) : M bool :=
  if in_trim hints k then
    x ← lift (Py.getitem obj k); on_reference (id_suffix_is v) x
  else
    match Py.lookup_key k (deref hints) with
    | Some field => x ← lift (Py.getitem obj k); on_reference (remote_field_is field v) x
    | None =>
        let '(base, op) := parse_filter k in
        x ← lift (Py.getitem obj base); lift (apply_filter op x v)
    end.

Fixpoint eval_clauses (hints : CacheHints) (obj : Json) (ps : list (string * Json))
    : M (list bool) :=
  match ps with
  | [] => ret []
  | (k, v) :: rest =>
      b ← clause_holds hints obj k v;
      bs ← eval_clauses hints obj rest;
      ret (b :: bs)
  end.

(** All conditions must hold. *)
Definition matches_spec (hs : string -> option CacheHints) (obj : Json) (q : URI) : M bool :=
  hints ← hints_for hs (uri q);
  bs ← eval_clauses hints obj (non_none (params q));
  ret (forallb id bs).

End EvaluatorSpec.

(** ** Saving a metadata file, operation by operation *)

Module MetaFile.

(** A file is the sequence of values dumped into it since it was last opened
    for writing. *)
Inductive FsOp :=
| OpenW (p : string)
| Dump (p : string) (data : Json)
| Close (p : string)
| Rename (src dst : string).

Definition apply (op : FsOp) (disk : gmap string (list Json)) : gmap string (list Json) :=
  match op with
  | OpenW p => <[p := []]> disk
  | Dump p data => alter (fun c => c ++ [data]) p disk
  | Close _ => disk
  | Rename src dst =>
      match disk !! src with
      | Some c => <[dst := c]> (delete src disk)
      | None => disk
      end
  end.

Definition run (ops : list FsOp) (disk : gmap string (list Json)) : gmap string (list Json) :=
  List.fold_left (fun d op => apply op d) ops disk.

(** What a reader finds at [p] after each operation. *)
Fixpoint observe (p : string) (ops : list FsOp) (disk : gmap string (list Json))
    : list (option (list Json)) :=
  match ops with
  | [] => []
  | op :: rest => let d := apply op disk in d !! p :: observe p rest d
  end.

Definition metadata_path (obj_type_uri : URI) : string :=
  dir_path (uri obj_type_uri) +:+ "/_cache_info.json".

Definition metadata_json (isoformat : Z -> string) (meta : CacheMetadata) : Json :=
  JDict [("created", JStr (isoformat (created meta)));
         ("updated", JStr (isoformat (updated meta)));
         ("partial", JBool (partial meta));
         ("queries", JList (List.map JStr (queries meta)))].

(** [_cache_save_metadata]: [with open(cache_filepath, "w")], one
    [json.dump], and the end of the [with] block. *)
Definition _cache_save_metadata_ops (isoformat : Z -> string) (obj_type_uri : URI)
    (meta : CacheMetadata) : list FsOp :=
  let cache_filepath := metadata_path obj_type_uri in
  [OpenW cache_filepath; Dump cache_filepath (metadata_json isoformat meta);
   Close cache_filepath].

(** The protocol of the specification: write a temporary file, then rename
    it into place. *)
Definition atomic_save_ops (isoformat : Z -> string) (obj_type_uri : URI)
    (meta : CacheMetadata) : list FsOp :=
  let cache_filepath := metadata_path obj_type_uri in
  let tmp := cache_filepath +:+ ".tmp" in
  [OpenW tmp; Dump tmp (metadata_json isoformat meta); Close tmp; Rename tmp cache_filepath].

(** A reader of [p] finds the old content or the new record, never
    anything else. *)
Definition never_partial (p : string) (ops : list FsOp) (disk : gmap string (list Json))
    (new : Json) : Prop :=
  Forall (fun c => c = disk !! p \/ c = Some [new]) (observe p ops disk).

Definition is_rename (op : FsOp) : bool :=
  match op with Rename _ _ => true | _ => false end.

End MetaFile.

Module Demo6.

(** A document that belongs to group 2161. *)
Definition document : Json :=
  JDict [("group", JStr "/type/2161/"); ("time", JStr "2020-01-01T00:00:00")].

Definition document_hints : CacheHints :=
  mkCacheHints [] ["type"; "stream"; "group"] ["id"] false true.

Definition group_since_2019 : URI :=
  mkURI "/api/v1/doc/document/"
    [("group", JInt 2161); ("time__gte", JStr "2019-01-01T00:00:00")].

Definition group_before_2019 : URI :=
  mkURI "/api/v1/doc/document/"
    [("group", JInt 2161); ("time__lt", JStr "2019-01-01T00:00:00")].

(** A state, and a query that carries a parameter without a value. *)
Definition state : Json := JDict [("slug", JStr "active")].
Definition state_hints : CacheHints :=
  mkCacheHints [] ["type"] ["order"; "id"; "slug"] false false.
Definition slug_none : URI := mkURI "/api/v1/doc/state/" [("slug", JNull)].

End Demo6.

(** ** Vocabulary of the replay of a query *)

(** The outcome of a method that neither reads nor writes the state. *)
Inductive Pure (A : Type) :=
| PVal (a : A)
| PExit
| PErr (e : Exn).
Arguments PVal {A} a.
Arguments PExit {A}.
Arguments PErr {A} e.

Definition embed {A} (r : Pure A) (s : DataTracker) : Outcome A :=
  match r with
  | PVal a => Ok a s
  | PExit => Exit s
  | PErr e => Raise e s
  end.

Definition is_pure {A} (m : M A) : Prop := exists r, forall s, m s = embed r s.

(** [s'] differs from [s] in counters and in what the lookaside cache has
    loaded from disk, and in nothing else. *)
Definition quiet (s s' : DataTracker) : Prop :=
  objects s' = objects s /\ metadata s' = metadata s /\ trace s' = trace s /\
  now_calls s' = now_calls s /\
  forall u, cache_view s' u = cache_view s u.

(** No parameter of the query needs a referenced object to be fetched. *)
Definition no_deref (hints : CacheHints) (q : URI) : bool :=
  forallb (fun kv => in_trim hints (fst kv) ||
                     match Py.lookup_key (fst kv) (deref hints) with
                     | Some _ => false
                     | None => true
                     end)
    (non_none (params q)).

(** [_cache_update] has nothing to do for metadata [m] in state [s]:
    no promotion is due, and the type is fresh or not timed. *)
Definition refresh_idle (clock : nat -> Z) (hs : string -> option CacheHints)
    (q : URI) (s : DataTracker) (m : CacheMetadata) : Prop :=
  partial m && (100 <? List.length (queries m))%nat = false /\
  (stale clock s m = false \/ forall h, hs (uri q) = Some h -> timed h = false).

(** Parameters as [strip_time] leaves them: distinct names, no value
    missing, no time range. *)
Definition clean_params (l : list (string * Json)) : Prop :=
  NoDup (List.map fst l) /\
  forall k v, (k, v) ∈ l -> is_none v = false /\ is_time_param k = false.


(** ** Vocabulary of the further properties *)

(** Nothing went over the wire between [s] and [s']: no event, and the two
    request counters stand where they stood. *)
Definition same_wire (s s' : DataTracker) : Prop :=
  trace s' = trace s /\ get_count s' = get_count s /\ http_req s' = http_req s.

(** Every metadata file of [s] is in [s'] as it was. *)
Definition keeps_metadata (s s' : DataTracker) : Prop :=
  forall d m, metadata s !! d = Some m -> metadata s' !! d = Some m.

(** The URL path of the first page [_cache_put_objects] asks for. *)
Definition first_page (obj_uri : URI) : string :=
  match params obj_uri with
  | _ :: _ => uri obj_uri +:+ "?limit=100&" +:+ Url.urlencode (params obj_uri)
  | [] => uri obj_uri +:+ "?limit=100"
  end.

(** The retry time after [k] doublings. *)
Fixpoint doubled (k : nat) (rt : Q) : Q :=
  match k with
  | O => rt
  | S k' => doubled k' (rt * 2)
  end.

(** The state after [k] requests for [url] were answered 500 and slept on,
    starting with retry time [rt]. *)
Fixpoint after_failures (url : string) (k : nat) (rt : Q) (s : DataTracker) : DataTracker :=
  match k with
  | O => s
  | S k' =>
      after_failures url k' (rt * 2)
        (with_trace (cons (EvSleep rt))
           (with_trace (cons EvClose)
              (with_trace (cons (EvGet PageGet (1 + get_count s) url []))
                 (with_get_count (Z.add 1) s))))
  end.

(** [obj_json["resource_uri"]], when it is text. *)
Definition resource_uri_of (obj_json : Json) : option string :=
  match Py.getitem obj_json "resource_uri" with
  | Val (JStr r) => Some r
  | _ => None
  end.

(** An object of a page that [_cache_put_object] accepts, and its URI. *)
Definition storable (obj_json : Json) (r : string) : Prop :=
  resource_uri_of obj_json = Some r /\
  PyStr.startswith "/" r = true /\ PyStr.endswith "/" r = true.

Module Demo7.

(** A directory where 101 queries on the person type have been recorded. *)
Definition person_busy : DataTracker :=
  with_dirs (fun _ => list_to_set (ancestors Demo.person_dir))
    (with_metadata
       (fun _ => {[ Demo.person_dir :=
                      mkCacheMetadata 0 0 true
                        (List.map (fun i => Demo.person_uri +:+ "?id=" +:+ PyStr.of_Z (Z.of_nat i))
                           (seq 0 101)) ]})
       init).

End Demo7.

(** The object a scan of type [t] reads from file [name] in state [s], when
    it answers query [q]. *)
Definition scanned (remote : Z -> string -> list (string * Json) -> Response)
    (clock : nat -> Z) (hs : string -> option CacheHints) (q t : URI) (s : DataTracker)
    (name : string) : option Json :=
  if String.eqb name "_cache_info.json" then None
  else
    match cache_view s (uri t +:+ PyStr.drop_last 5 name +:+ "/") with
    | Some o =>
        match _cache_obj_matches remote clock hs o q s with
        | Ok true _ => Some o
        | _ => None
        end
    | None => None
    end.

(** Neighbours are in order: ascending, or descending when [rev]. *)
Fixpoint in_order (rev : bool) (keys : list string) : bool :=
  match keys with
  | k1 :: (k2 :: _) as rest =>
      (if rev then String.leb k2 k1 else String.leb k1 k2) && in_order rev rest
  | _ => true
  end.

(** The events of [s'] are those of [s] and later ones. *)
Definition trace_extends (s s' : DataTracker) : Prop :=
  exists evs, trace s' = evs ++ trace s.

(** ** Public methods that list a collection *)

(** The typed resources the methods take as arguments, by the field the
    methods read. *)
Module Document.
Record t := mk { id : Z }.
End Document.

Module Person.
Record t := mk { id : Z }.
End Person.

(** [PersonURI(uri)] and [DocumentEventURI(uri)]: the assertion of
    [__post_init__], and no parameter yet. *)
Definition PersonURI (u : string) : M URI :=
  py_assert (PyStr.startswith "/api/v1/person/person/" u ||
             PyStr.startswith "/api/v1/person/historicalperson/" u);;
  ret (mkURI u []).

Definition DocumentEventURI (u : string) : M URI :=
  py_assert (PyStr.startswith "/api/v1/doc/docevent/" u);;
  ret (mkURI u []).

(** [url.params[k] = v] *)
Definition set_param (k : string) (v : Json) (url : URI) : URI :=
  mkURI (uri url) (dict_set k v (params url)).

(** [if x is not None: url.params[k] = f(x)] *)
Definition set_param_if {A} (k : string) (f : A -> Json) (x : option A) (url : URI) : URI :=
  match x with
  | Some a => set_param k (f a) url
  | None => url
  end.

Section Api.

Variable remote : Z -> string -> list (string * Json) -> Response.
Variable clock : nat -> Z.
Variable cache_hints : string -> option CacheHints.
Variable strftime : Z -> string.

(** [people(since, until, name_contains, ascii_contains)], its result
    consumed. *)
Definition people (fuel : nat) (since until : string)
    (name_contains ascii_contains : option string) : M (list Json) :=
  url ← PersonURI "/api/v1/person/person/";
  let url := set_param "time__gte" (JStr since) url in
  let url := set_param "time__lt" (JStr until) url in
  let url := set_param_if "name__contains" JStr name_contains url in
  let url := set_param_if "ascii__contains" JStr ascii_contains url in
  _retrieve_multi remote clock cache_hints strftime fuel url.

(** [document_events(since, until, doc, by, event_type)], its result
    consumed; [event_type] is assigned whether it is [None] or not. *)
Definition document_events (fuel : nat) (since until : string)
    (doc : option Document.t) (by_ : option Person.t) (event_type : option string)
    : M (list Json) :=
  url ← DocumentEventURI "/api/v1/doc/docevent/";
  let url := set_param "time__gte" (JStr since) url in
  let url := set_param "time__lt" (JStr until) url in
  let url := set_param_if "doc" (fun d => JInt (Document.id d)) doc url in
  let url := set_param_if "by" (fun p => JInt (Person.id p)) by_ url in
  let url := set_param "type" (match event_type with Some e => JStr e | None => JNull end) url in
  _retrieve_multi remote clock cache_hints strftime fuel url.

End Api.

(** The filters of [people] that are not the time window. *)
Definition people_filters (name_contains ascii_contains : option string) : URI :=
  set_param_if "ascii__contains" JStr ascii_contains
    (set_param_if "name__contains" JStr name_contains (mkURI "/api/v1/person/person/" [])).

(** ** Relations that every call keeps *)

(** A relation that admits each elementary change of state the engine
    makes outside the object store, and is kept by the two methods that
    write the object store and the lookaside cache. *)
Class EngineRel (R : relation DataTracker) : Prop := {
  eng_preorder :: PreOrder R;
  eng_http_req s : R s (with_http_req (Z.add 1) s);
  eng_get_count s : R s (with_get_count (Z.add 1) s);
  eng_cache_req s : R s (with_cache_req (Z.add 1) s);
  eng_cache_hit s : R s (with_cache_hit (Z.add 1) s);
  eng_now_calls s : R s (with_now_calls S s);
  eng_dirs d s : R s (with_dirs (fun ds => ds ∪ list_to_set (ancestors d)) s);
  eng_metadata d m s : R s (with_metadata (insert d m) s);
  eng_trace e s : R s (with_trace (cons e) s);
  eng_put clock u j : preserves R (_cache_put_object clock u j);
  eng_get u : preserves R (_cache_get_object u)
}.

(** Every object file of [s] is still there in [s']. *)
Definition store_grows (s s' : DataTracker) : Prop :=
  forall p, is_Some (objects s !! p) -> is_Some (objects s' !! p).

(** The URI of an object: [/x/], for a path [x] that is not empty. *)
Definition object_uri (u : string) : Prop :=
  exists x, x <> "" /\ u = "/" +:+ x +:+ "/".

(** What the lookaside cache holds for an object URI is what the file of
    the object holds. *)
Definition coherent (s : DataTracker) : Prop :=
  forall u j, object_uri u -> memcache s !! u = Some j -> objects s !! obj_path u = Some j.

Definition keeps_coherent (s s' : DataTracker) : Prop := coherent s -> coherent s'.

(** * Reasoning about methods *)

Lemma bind_Ok {A B} (m : M A) (k : A -> M B) s b s' :
  bind m k s = Ok b s' -> exists a s1, m s = Ok a s1 /\ k a s1 = Ok b s'.
Proof.
  unfold bind. destruct (m s) as [a s1| | |]; try discriminate. eauto.
Qed.

Lemma bind_final {A B} (m : M A) (k : A -> M B) s s' :
  final (bind m k s) = Some s' ->
  (exists a s1, m s = Ok a s1 /\ final (k a s1) = Some s') \/
  ((forall a s1, m s <> Ok a s1) /\ final (m s) = Some s').
Proof.
  unfold bind. destruct (m s) as [a s1| s1 | e s1 |]; cbn; intros H.
  - left. eauto.
  - right. split; [discriminate|assumption].
  - right. split; [discriminate|assumption].
  - discriminate.
Qed.

(** Runs the plumbing of a method as far as its branches allow. *)
Ltac run_m :=
  cbv beta iota delta [bind gets ret raise sys_exit lift modify py_assert diverge final].

Section Preserves.

Context {R : relation DataTracker} `{!PreOrder R}.

Lemma preserves_ret {A} (a : A) : preserves R (ret a).
Proof. intros s s' [= <-]. reflexivity. Qed.

Lemma preserves_raise {A} e : preserves R (@raise A e).
Proof. intros s s' [= <-]. reflexivity. Qed.

Lemma preserves_exit {A} : preserves R (@sys_exit A).
Proof. intros s s' [= <-]. reflexivity. Qed.

Lemma preserves_diverge {A} : preserves R (@diverge A).
Proof. intros s s' [=]. Qed.

Lemma preserves_gets {A} (f : DataTracker -> A) : preserves R (gets f).
Proof. intros s s' [= <-]. reflexivity. Qed.

Lemma preserves_lift {A} (r : Res A) : preserves R (lift r).
Proof. destruct r; [apply preserves_ret|apply preserves_raise]. Qed.

Lemma preserves_assert b : preserves R (py_assert b).
Proof. destruct b; [apply preserves_ret|apply preserves_raise]. Qed.

Lemma preserves_modify f : (forall s, R s (f s)) -> preserves R (modify f).
Proof. intros H s s' [= <-]. apply H. Qed.

Lemma preserves_bind {A B} (m : M A) (k : A -> M B) :
  preserves R m -> (forall a, preserves R (k a)) -> preserves R (bind m k).
Proof.
  intros Hm Hk s s' H. apply bind_final in H as [(a & s1 & Hms & Hks)|[_ Hms]].
  - transitivity s1; [apply Hm; rewrite Hms; reflexivity|eapply Hk; eassumption].
  - apply Hm, Hms.
Qed.

Lemma preserves_for_each {A} (f : A -> M unit) l :
  (forall x, preserves R (f x)) -> preserves R (for_each f l).
Proof.
  intros Hf. induction l as [|x l IH]; cbn [for_each].
  - apply preserves_ret.
  - apply preserves_bind; [apply Hf|intros _; exact IH].
Qed.

End Preserves.

Create HintDb pres.

#[global] Hint Resolve preserves_ret preserves_raise preserves_exit preserves_diverge
  preserves_gets preserves_lift preserves_assert : pres.

Ltac frame_side :=
  first [ apply frame_http_req | apply frame_get_count | apply frame_cache_req
        | apply frame_cache_hit | apply frame_memcache_req | apply frame_memcache_hit
        | apply frame_now_calls | apply frame_memcache | apply frame_dirs
        | apply frame_objects ].

(** One step of a proof that a method keeps a relation: split a sequence,
    or case on what the method branches on. *)
Ltac pres_step :=
  match goal with
  | |- preserves _ (bind _ _) => apply preserves_bind; [|intros]
  | |- preserves _ (if ?b then _ else _) => destruct b
  | |- preserves _ (match ?x with _ => _ end) => destruct x
  | |- preserves _ (modify _) => apply preserves_modify; intros; try frame_side
  | |- preserves _ (for_each _ _) => apply preserves_for_each; intros
  | |- preserves _ _ => solve [eauto with pres typeclass_instances]
  end.
Ltac pres := repeat pres_step.

Section Frame.

Context {R : relation DataTracker} `{!FrameRel R}.

Lemma memcache_has_preserves u : preserves R (_memcache_has_object u).
Proof. unfold _memcache_has_object. pres. Qed.

#[local] Hint Resolve memcache_has_preserves : pres.

Lemma memcache_get_preserves u : preserves R (_memcache_get_object u).
Proof. unfold _memcache_get_object. pres. Qed.

#[local] Hint Resolve memcache_get_preserves : pres.

Lemma memcache_put_preserves u j : preserves R (_memcache_put_object u j).
Proof. unfold _memcache_put_object. pres. Qed.

#[local] Hint Resolve memcache_put_preserves : pres.

Lemma datetime_now_preserves clock : preserves R (datetime_now clock).
Proof. intros s s' [= <-]. apply frame_now_calls. Qed.

Lemma hints_for_preserves hints u : preserves R (hints_for hints u).
Proof. unfold hints_for. pres. Qed.

Lemma load_metadata_preserves t : preserves R (_cache_load_metadata t).
Proof. unfold _cache_load_metadata. pres. Qed.

#[local] Hint Resolve load_metadata_preserves : pres.

Lemma has_all_objects_preserves t : preserves R (_cache_has_all_objects t).
Proof. unfold _cache_has_all_objects. pres. Qed.

Lemma has_objects_preserves u t : preserves R (_cache_has_objects u t).
Proof. unfold _cache_has_objects. pres. Qed.

#[local] Hint Resolve has_all_objects_preserves : pres.

Lemma has_object_preserves u : preserves R (_cache_has_object u).
Proof.
  unfold _cache_has_object. pres.
Qed.

Lemma get_object_preserves u : preserves R (_cache_get_object u).
Proof.
  unfold _cache_get_object. pres.
Qed.

End Frame.

#[global] Hint Resolve memcache_has_preserves memcache_get_preserves memcache_put_preserves
  datetime_now_preserves hints_for_preserves load_metadata_preserves
  has_all_objects_preserves has_objects_preserves has_object_preserves
  get_object_preserves : pres.

(** * Properties *)

(** ** Network fetcher: retry with backoff *)

Section Backoff.

Context (remote : Z -> string -> list (string * Json) -> Response) (clock : nat -> Z).

Lemma rate_limit_run s :
  _rate_limit s =
    Ok tt (if ((1 + http_req s) mod 100 =? 0)%Z
           then with_trace (cons EvClose) (with_http_req (Z.add 1) s)
           else with_http_req (Z.add 1) s).
Proof.
  unfold _rate_limit, bind, modify, gets, session_close, ret. cbn [http_req with_http_req].
  destruct (_ =? _)%Z; reflexivity.
Qed.

Lemma retry_loop_500 fuel url total retry_time s :
  status_code (remote (1 + get_count s) (base_url +:+ url) []) = 500%Z ->
  retry_loop remote clock (S fuel) (JStr url) total retry_time s =
    let s1 := with_trace (cons (EvGet PageGet (1 + get_count s) (base_url +:+ url) []))
                (with_get_count (Z.add 1) s) in
    if negb (Qle_bool retry_time 60) then Exit s1
    else retry_loop remote clock fuel (JStr url) total (retry_time * 2)
           (with_trace (cons (EvSleep retry_time)) (with_trace (cons EvClose) s1)).
Proof.
  intros H. cbn [retry_loop]. unfold bind at 1. cbn [modify].
  unfold bind at 1. cbn [ret]. unfold bind at 1. unfold session_get at 1.
  cbn [get_count with_get_count]. rewrite H. cbn [Z.eqb Pos.eqb].
  destruct (negb (Qle_bool retry_time 60)); reflexivity.
Qed.

(** Seven answers of 500 in a row end the retry loop of a page. *)
Lemma retry_loop_persistent_500 fuel url total s :
  (7 <= fuel)%nat ->
  (forall n, status_code (remote n (base_url +:+ url) []) = 500%Z) ->
  exists s',
    retry_loop remote clock fuel (JStr url) total (15 # 8) s = Exit s' /\
    trace s' = rev (backoff_events (base_url +:+ url) (get_count s)) ++ trace s /\
    get_count s' = (get_count s + 7)%Z /\ http_req s' = http_req s /\
    objects s' = objects s /\ memcache s' = memcache s /\ metadata s' = metadata s.
Proof.
  intros Hfuel H500.
  do 7 (destruct fuel as [|fuel]; [lia|]).
  do 7 (rewrite retry_loop_500 by apply H500; cbn zeta;
        match goal with
        | |- context [Qle_bool ?t 60] =>
            let b := eval vm_compute in (Qle_bool t 60) in
            change (Qle_bool t 60) with b
        end; cbn [negb]).
  eexists; split; [reflexivity|].
  cbn [trace with_trace with_get_count get_count http_req objects memcache metadata
       backoff_events rev app Qmult Qnum Qden Z.mul Pos.mul].
  repeat split; try reflexivity; [|lia].
  repeat (f_equal; try lia).
Qed.

(** C3. A page that keeps answering HTTP 500 is requested seven times:
    the fetcher closes the connection and sleeps 1.875 s, 3.75 s, 7.5 s,
    15 s, 30 s and 60 s between the attempts, always asking for the same
    page, and exits as fatal when the seventh failure finds the backoff above
    60 s.  Any fuel of seven or more is enough for this outcome, and the
    object files, the lookaside cache and the metadata (what the earlier
    pages wrote) are left as they were. *)
Theorem backoff_terminates_fatal fuel url total s :
  (7 <= fuel)%nat ->
  (forall n, status_code (remote n (base_url +:+ url) []) = 500%Z) ->
  exists s',
    page_loop remote clock fuel (JStr url) total s = Exit s' /\
    rev (trace s') =
      rev (trace s) ++ rate_limit_events s ++
      backoff_events (base_url +:+ url) (get_count s) /\
    sleeps_of (rev (trace s')) =
      sleeps_of (rev (trace s)) ++ [15 # 8; 30 # 8; 60 # 8; 120 # 8; 240 # 8; 480 # 8] /\
    get_count s' = (get_count s + 7)%Z /\
    objects s' = objects s /\ memcache s' = memcache s /\ metadata s' = metadata s.
Proof.
  intros Hfuel H500.
  destruct fuel as [|fuel]; [lia|].
  cbn [page_loop]. unfold bind at 1. rewrite rate_limit_run.
  set (s1 := if (_ =? _)%Z then _ else _).
  destruct (retry_loop_persistent_500 (S fuel) url total s1 Hfuel H500)
    as (s' & Hrun & Htr & Hg & _ & Ho & Hm & Hmd).
  unfold bind. rewrite Hrun. exists s'.
  assert (Hs1 : trace s1 = rev (rate_limit_events s) ++ trace s /\
                get_count s1 = get_count s /\ objects s1 = objects s /\
                memcache s1 = memcache s /\ metadata s1 = metadata s).
  { unfold s1, rate_limit_events. destruct (_ =? _)%Z; repeat split. }
  destruct Hs1 as (Ht1 & Hg1 & Ho1 & Hm1 & Hmd1).
  assert (Hrev : rev (trace s') =
                 rev (trace s) ++ rate_limit_events s ++
                 backoff_events (base_url +:+ url) (get_count s)).
  { rewrite Htr, Ht1, Hg1, !rev_app_distr, !rev_involutive, app_assoc. reflexivity. }
  split; [reflexivity|]. split; [exact Hrev|].
  split.
  { rewrite Hrev. unfold sleeps_of. rewrite !omap_app. f_equal.
    unfold rate_limit_events. destruct (_ =? _)%Z; reflexivity. }
  repeat split; congruence.
Qed.

End Backoff.

(** The remote of [Demo.remote_500] on a fresh object. *)
Lemma backoff_terminates_fatal_witness :
  exists s',
    page_loop Demo.remote_500 Demo.clock_0 7 (JStr "/api/v1/doc/state/?limit=100") JNull init
      = Exit s' /\
    sleeps_of (rev (trace s')) = [15 # 8; 30 # 8; 60 # 8; 120 # 8; 240 # 8; 480 # 8] /\
    get_count s' = 7%Z.
Proof.
  destruct (backoff_terminates_fatal Demo.remote_500 Demo.clock_0 7
              "/api/v1/doc/state/?limit=100" JNull init)
    as (s' & Hrun & _ & Hsl & Hg & _).
  - lia.
  - intros n. reflexivity.
  - exists s'. split; [exact Hrun|]. split; [exact Hsl|exact Hg].
Defined.

(** ** The parameters a recorded query keeps *)

Lemma elem_of_dict_set {V} k (v : V) d k' v' :
  (k', v') ∈ dict_set k v d -> (k', v') = (k, v) \/ (k', v') ∈ d.
Proof.
  induction d as [|[k0 v0] d IH]; cbn [dict_set].
  - intros ->%list_elem_of_singleton. now left.
  - destruct (String.eqb k k0).
    + intros [->|H]%elem_of_cons; [now left|right; now right].
    + intros [->|H]%elem_of_cons; [right; now left|].
      destruct (IH H) as [->|?]; [now left|right; now right].
Qed.

Lemma is_time_param_false n :
  is_time_param n = false -> n <> "time__gte" /\ n <> "time__lt".
Proof.
  unfold is_time_param. intros [H1 H2]%orb_false_elim.
  now apply String.eqb_neq in H1, H2.
Qed.

Lemma copy_params_keys ps : forall acc r,
  copy_params ps acc = Val r ->
  (forall k v, (k, v) ∈ acc -> is_time_param k = false) ->
  forall k v, (k, v) ∈ r -> is_time_param k = false.
Proof.
  induction ps as [|[n v] ps IH]; cbn [copy_params]; intros acc r H Hacc.
  - injection H as <-. exact Hacc.
  - assert (Hgo : copy_params ps (if is_time_param n then acc else dict_set n v acc) = Val r)
      by (destruct v; first [discriminate|exact H]).
    eapply IH; [exact Hgo|].
    destruct (is_time_param n) eqn:Hn; [exact Hacc|].
    intros k' v' [[= -> ->]|Hin]%elem_of_dict_set; [exact Hn|eauto].
Qed.

Lemma strip_time_time_free u cu :
  strip_time u = Val cu -> PyStr.contains "?" (uri u) = false -> time_free (URI_str cu).
Proof.
  unfold strip_time, res_bind. destruct (copy_params (params u) []) as [ps|] eqn:Hps; [|discriminate].
  intros [= <-] Hq. exists (uri u), ps. split; [reflexivity|]. split; [exact Hq|].
  intros k v Hin. apply is_time_param_false.
  eapply copy_params_keys; [exact Hps| |exact Hin].
  intros ? ? []%elem_of_nil.
Qed.

(** ** The engine rewrites metadata only in the four ways *)

Section MetaWriters.

Context {R : relation DataTracker} `{!FrameRel R} `{!MetaRel R}.

Lemma save_rel s d m :
  meta_step (metadata s) (<[d := m]> (metadata s)) -> R s (with_metadata (insert d m) s).
Proof. intros H. exact (meta_rel s _ H). Qed.

Lemma create_preserves clock t : preserves R (_cache_create clock t).
Proof.
  intros s s'. unfold _cache_create, datetime_now, _cache_save_metadata. run_m.
  destruct (dir_exists s _); run_m; cbn [metadata with_dirs with_now_calls];
    destruct (metadata s !! _) eqn:Hm; run_m; intros [= <-];
    try reflexivity; try frame_side.
  - etransitivity; [apply (frame_now_calls S)|].
    apply save_rel. now apply ms_create.
  - etransitivity; [apply frame_dirs|]. etransitivity; [apply (frame_now_calls S)|].
    apply save_rel. now apply ms_create.
Qed.

Lemma record_query_preserves u t : preserves R (_cache_record_query u t).
Proof.
  intros s s'. unfold _cache_record_query, _cache_load_metadata, _cache_save_metadata. run_m.
  destruct (PyStr.contains "?" (uri u)) eqn:Hq; cbn [negb]; run_m;
    [intros [= <-]; reflexivity|].
  destruct (metadata s !! dir_path (uri t)) as [m|] eqn:Hm; run_m;
    [|intros [= <-]; reflexivity].
  destruct (partial m) eqn:Hp; run_m; [|intros [= <-]; reflexivity].
  destruct (strip_time u) as [cu|] eqn:Hcu; run_m; [|intros [= <-]; reflexivity].
  case_bool_decide as Hin; run_m; intros [= <-]; [reflexivity|].
  apply save_rel. rewrite <- Hp at 1.
  apply ms_record; eauto using strip_time_time_free.
Qed.

Lemma load_save_preserves t (g : CacheMetadata -> CacheMetadata) :
  (forall ms m, ms !! dir_path (uri t) = Some m ->
                meta_step ms (<[dir_path (uri t) := g m]> ms)) ->
  preserves R (bind (_cache_load_metadata t) (fun meta => _cache_save_metadata t (g meta))).
Proof.
  intros Hg s s'. unfold _cache_load_metadata, _cache_save_metadata. run_m.
  destruct (metadata s !! dir_path (uri t)) as [m|] eqn:Hm; run_m;
    intros [= <-]; [|reflexivity].
  apply save_rel, Hg, Hm.
Qed.

Lemma load_save_ret_preserves t (g : CacheMetadata -> CacheMetadata) :
  (forall ms m, ms !! dir_path (uri t) = Some m ->
                meta_step ms (<[dir_path (uri t) := g m]> ms)) ->
  preserves R (bind (_cache_load_metadata t)
                 (fun meta => bind (_cache_save_metadata t (g meta)) (fun _ => ret (g meta)))).
Proof.
  intros Hg s s'. unfold _cache_load_metadata, _cache_save_metadata. run_m.
  destruct (metadata s !! dir_path (uri t)) as [m|] eqn:Hm; run_m;
    intros [= <-]; [|reflexivity].
  apply save_rel, Hg, Hm.
Qed.

#[local] Hint Resolve create_preserves record_query_preserves : pres.

Lemma put_object_preserves clock u j : preserves R (_cache_put_object clock u j).
Proof. unfold _cache_put_object. pres. Qed.

#[local] Hint Resolve put_object_preserves : pres.

Section ItemTrace.

Context `{!ItemTraceRel R}.

Lemma session_close_preserves : preserves R session_close.
Proof. unfold session_close. pres. now apply item_trace_rel. Qed.

Lemma time_sleep_preserves t : preserves R (time_sleep t).
Proof. unfold time_sleep. pres. now apply item_trace_rel. Qed.

Lemma item_get_preserves remote url ps : preserves R (session_get remote ItemGet url ps).
Proof. intros s s' [= <-]. now apply item_trace_rel. Qed.

#[local] Hint Resolve session_close_preserves time_sleep_preserves item_get_preserves : pres.

Lemma rate_limit_preserves : preserves R _rate_limit.
Proof. unfold _rate_limit. pres. Qed.

#[local] Hint Resolve rate_limit_preserves : pres.

Lemma retrieve_json_preserves remote clock u : preserves R (_retrieve_json remote clock u).
Proof. unfold _retrieve_json. pres. Qed.

#[local] Hint Resolve retrieve_json_preserves : pres.

Lemma retrieve_json_of_preserves remote clock j :
  preserves R (_retrieve_json_of remote clock j).
Proof. unfold _retrieve_json_of. pres. Qed.

#[local] Hint Resolve retrieve_json_of_preserves : pres.

Lemma deref_found_preserves remote clock field v items :
  preserves R (deref_found remote clock field v items).
Proof.
  induction items as [|item rest IH]; cbn [deref_found]; pres.
Qed.

#[local] Hint Resolve deref_found_preserves : pres.

Lemma match_param_preserves remote clock hints obj k v :
  preserves R (match_param remote clock hints obj k v).
Proof. unfold match_param. pres. Qed.

#[local] Hint Resolve match_param_preserves : pres.

Lemma match_loop_preserves remote clock hints obj ps : forall res,
  preserves R (match_loop remote clock hints obj ps res).
Proof.
  induction ps as [|[k v] ps IH]; intros res; cbn [match_loop]; pres.
Qed.

#[local] Hint Resolve match_loop_preserves : pres.

Lemma obj_matches_preserves remote clock hints obj q :
  preserves R (_cache_obj_matches remote clock hints obj q).
Proof. unfold _cache_obj_matches. pres. Qed.

#[local] Hint Resolve obj_matches_preserves : pres.

Lemma scan_loop_preserves remote clock hs hints q t files : forall results,
  preserves R (scan_loop remote clock hs hints q t files results).
Proof.
  induction files as [|name files IH]; intros results; cbn [scan_loop]; pres.
Qed.

#[local] Hint Resolve scan_loop_preserves : pres.

Lemma get_objects_preserves remote clock hs q t :
  preserves R (_cache_get_objects remote clock hs q t).
Proof. unfold _cache_get_objects. pres. Qed.

End ItemTrace.

Section AnyTrace.

Context `{!TraceRel R}.

#[local] Instance trace_rel_item : ItemTraceRel R.
Proof. intros s e _. apply trace_rel. Qed.

Lemma session_get_preserves remote site url ps :
  preserves R (session_get remote site url ps).
Proof. intros s s' [= <-]. apply trace_rel. Qed.

#[local] Hint Resolve session_get_preserves session_close_preserves time_sleep_preserves
  rate_limit_preserves get_objects_preserves retrieve_json_preserves : pres.

Lemma put_fetched_preserves clock j : preserves R (put_fetched clock j).
Proof. unfold put_fetched. pres. Qed.

Lemma iter_objects_preserves j : preserves R (iter_objects j).
Proof. unfold iter_objects. pres. Qed.

#[local] Hint Resolve put_fetched_preserves iter_objects_preserves : pres.

Lemma isolate_loop_preserves remote clock split query n : forall i failed,
  preserves R (isolate_loop remote clock split query i n failed).
Proof.
  induction n as [|n IH]; intros i failed; cbn [isolate_loop]; pres.
Qed.

#[local] Hint Resolve isolate_loop_preserves : pres.

Lemma isolate_bad_request_preserves remote clock url total :
  preserves R (isolate_bad_request remote clock url total).
Proof. unfold isolate_bad_request. pres. Qed.

#[local] Hint Resolve isolate_bad_request_preserves : pres.

Lemma retry_loop_preserves remote clock fuel : forall u total rt,
  preserves R (retry_loop remote clock fuel u total rt).
Proof.
  induction fuel as [|fuel IH]; intros u total rt; cbn [retry_loop]; pres.
Qed.

#[local] Hint Resolve retry_loop_preserves : pres.

Lemma page_loop_preserves remote clock fuel : forall u total,
  preserves R (page_loop remote clock fuel u total).
Proof.
  induction fuel as [|fuel IH]; intros u total;
    destruct u; cbn [page_loop]; pres.
Qed.

#[local] Hint Resolve page_loop_preserves : pres.

Lemma put_objects_preserves remote clock fuel u t :
  preserves R (_cache_put_objects remote clock fuel u t).
Proof. unfold _cache_put_objects. pres. Qed.

#[local] Hint Resolve put_objects_preserves : pres.

Lemma cache_update_preserves remote clock hs strftime fuel t :
  preserves R (_cache_update remote clock hs strftime fuel t).
Proof.
  unfold _cache_update.
  apply preserves_bind; [pres|intros _].
  apply preserves_bind; [pres|intros now].
  apply preserves_bind; [pres|intros meta].
  apply preserves_bind.
  - destruct (_ && _); [|pres].
    apply preserves_bind; [pres|intros _].
    apply (load_save_ret_preserves t (fun m => mkCacheMetadata (created m) now false [])).
    intros ms m Hm. now apply ms_promote.
  - intros meta'. destruct (_ <? _)%Z; [|pres].
    apply preserves_bind; [pres|intros hints]. destruct (timed hints); [|pres].
    apply preserves_bind; [pres|intros _].
    apply (load_save_preserves t
             (fun m => mkCacheMetadata (created m) now (partial m) (queries m))).
    intros ms m Hm. now apply ms_refresh.
Qed.

#[local] Hint Resolve cache_update_preserves : pres.

Lemma retrieve_preserves remote clock hs strftime fuel u :
  preserves R (_retrieve remote clock hs strftime fuel u).
Proof. unfold _retrieve. pres. Qed.

Lemma retrieve_multi_preserves remote clock hs strftime fuel u :
  preserves R (_retrieve_multi remote clock hs strftime fuel u).
Proof. unfold _retrieve_multi. pres. Qed.

End AnyTrace.

End MetaWriters.

(** ** Metadata: shape invariant and promotion *)

#[global] Instance meta_evolves_frame : FrameRel meta_evolves.
Proof.
  split; try (intros f s; apply rtc_refl).
  split.
  - intros s. apply rtc_refl.
  - intros s1 s2 s3. apply rtc_trans.
Qed.

#[global] Instance meta_evolves_meta : MetaRel meta_evolves.
Proof. intros s ms' H. now apply rtc_once. Qed.

#[global] Instance meta_evolves_trace : TraceRel meta_evolves.
Proof. intros s e. apply rtc_refl. Qed.

Lemma no_fetch_refl_on s s' : trace s' = trace s -> no_fetch s s'.
Proof. intros H. exists []. now split. Qed.

#[global] Instance no_fetch_frame : FrameRel no_fetch.
Proof.
  split; try (intros f s; now apply no_fetch_refl_on).
  split.
  - intros s. now apply no_fetch_refl_on.
  - intros s1 s2 s3 (e1 & H1 & F1) (e2 & H2 & F2). exists (e2 ++ e1). split.
    + now rewrite H2, H1, app_assoc.
    + now apply Forall_app.
Qed.

#[global] Instance no_fetch_meta : MetaRel no_fetch.
Proof. intros s ms' _. now apply no_fetch_refl_on. Qed.

#[global] Instance no_fetch_item : ItemTraceRel no_fetch.
Proof. intros s e He. exists [e]. split; [reflexivity|]. now constructor. Qed.

(** A call moves the metadata files by the four rewrites only. *)
Lemma cache_step_meta_evolves hints s s' : cache_step hints s s' -> meta_evolves s s'.
Proof.
  intros [remote clock strftime fuel u s1 s2 H
         |remote clock strftime fuel u s1 s2 H
         |s1].
  - eapply retrieve_preserves; [typeclasses eauto..|exact H].
  - eapply retrieve_multi_preserves; [typeclasses eauto..|exact H].
  - apply rtc_refl.
Qed.

Lemma cache_steps_meta_evolves hints s s' :
  rtc (cache_step hints) s s' -> rtc meta_step (metadata s) (metadata s').
Proof.
  induction 1 as [|s1 s2 s3 H12 _ IH]; [apply rtc_refl|].
  eapply rtc_trans; [exact (cache_step_meta_evolves _ _ _ H12)|exact IH].
Qed.

Lemma meta_step_inv ms ms' : meta_step ms ms' -> meta_inv ms -> meta_inv ms'.
Proof.
  intros Hstep Hinv d' m'.
  destruct Hstep as [d c ms _|d m q ms Hm Hp Hq Hfree|d m now ms Hm|d m now ms Hm];
    (destruct (decide (d = d')) as [->|Hne];
     [rewrite lookup_insert_eq; intros [= <-]
     |rewrite lookup_insert_ne by exact Hne; apply Hinv]).
  - split; cbn; [discriminate|constructor|constructor].
  - destruct (Hinv _ _ Hm) as [_ Hnd Hfr]. split; cbn.
    + congruence.
    + apply NoDup_app. split; [exact Hnd|]. split; [|apply NoDup_singleton].
      intros x Hx ->%list_elem_of_singleton. contradiction.
    + apply Forall_app. split; [exact Hfr|]. now constructor.
  - split; cbn; [reflexivity|constructor|constructor].
  - destruct (Hinv _ _ Hm) as [Hfq Hnd Hfr]. split; cbn; assumption.
Qed.

Lemma meta_steps_inv ms ms' : rtc meta_step ms ms' -> meta_inv ms -> meta_inv ms'.
Proof. induction 1; eauto using meta_step_inv. Qed.

Lemma meta_step_fully_cached ms ms' d :
  meta_step ms ms' -> fully_cached ms d -> fully_cached ms' d.
Proof.
  intros Hstep (m0 & Hm0 & Hfull). unfold fully_cached.
  destruct Hstep as [d1 c ms Hnone|d1 m q ms Hm Hp Hq Hfree|d1 m now ms Hm|d1 m now ms Hm];
    (destruct (decide (d1 = d)) as [->|Hne];
     [rewrite lookup_insert_eq|rewrite lookup_insert_ne by exact Hne; eauto]).
  - congruence.
  - congruence.
  - eauto.
  - eexists. split; [reflexivity|]. cbn. congruence.
Qed.

Lemma meta_steps_fully_cached ms ms' d :
  rtc meta_step ms ms' -> fully_cached ms d -> fully_cached ms' d.
Proof. induction 1; eauto using meta_step_fully_cached. Qed.

Lemma meta_step_answerable ms ms' d q :
  meta_step ms ms' -> answerable ms d q -> answerable ms' d q.
Proof.
  intros Hstep (m0 & Hm0 & Hans). unfold answerable.
  destruct Hstep as [d1 c ms Hnone|d1 m q1 ms Hm Hp Hq Hfree|d1 m now ms Hm|d1 m now ms Hm];
    (destruct (decide (d1 = d)) as [->|Hne];
     [rewrite lookup_insert_eq|rewrite lookup_insert_ne by exact Hne; eauto]).
  - congruence.
  - eexists. split; [reflexivity|]. cbn. right.
    destruct Hans as [Hf|Hin]; [congruence|].
    apply elem_of_app. left. congruence.
  - eexists. split; [reflexivity|]. now left.
  - eexists. split; [reflexivity|]. cbn. replace m with m0 by congruence. exact Hans.
Qed.

Lemma meta_steps_answerable ms ms' d q :
  rtc meta_step ms ms' -> answerable ms d q -> answerable ms' d q.
Proof. induction 1; eauto using meta_step_answerable. Qed.



(** ** Sync coordinator: what [_cache_update] does *)

Section Update.

Context (remote : Z -> string -> list (string * Json) -> Response) (clock : nat -> Z)
  (hints : string -> option CacheHints) (strftime : Z -> string).

Lemma ensure_dir_fields d s :
  metadata (ensure_dir d s) = metadata s /\ objects (ensure_dir d s) = objects s /\
  memcache (ensure_dir d s) = memcache s /\ trace (ensure_dir d s) = trace s /\
  now_calls (ensure_dir d s) = now_calls s /\ get_count (ensure_dir d s) = get_count s /\
  http_req (ensure_dir d s) = http_req s.
Proof. unfold ensure_dir. destruct (dir_exists s d); repeat split. Qed.

Lemma create_existing t s m :
  metadata s !! dir_path (uri t) = Some m ->
  _cache_create clock t s = Ok tt (ensure_dir (dir_path (uri t)) s).
Proof.
  intros Hm. unfold _cache_create, ensure_dir. run_m.
  destruct (dir_exists s _); run_m; cbn [metadata with_dirs]; rewrite Hm; reflexivity.
Qed.

Lemma load_metadata_run t s m :
  metadata s !! dir_path (uri t) = Some m -> _cache_load_metadata t s = Ok m s.
Proof. intros Hm. unfold _cache_load_metadata. run_m. now rewrite Hm. Qed.

(** When no promotion is due, [_cache_update] reads the clock and, if the
    metadata is older than one hour, looks the type up: a timed type is
    refreshed by fetching the time range since [updated]; a type that is not
    timed is left alone. *)
Lemma cache_update_no_promotion fuel t s m :
  metadata s !! dir_path (uri t) = Some m ->
  partial m && (100 <? List.length (queries m))%nat = false ->
  let s1 := with_now_calls S (ensure_dir (dir_path (uri t)) s) in
  let now := clock (now_calls s) in
  _cache_update remote clock hints strftime fuel t s =
    if stale clock s m then
      match hints (uri t) with
      | None => Raise KeyError s1
      | Some h =>
          if timed h then
            bind (_cache_put_objects remote clock fuel (update_uri strftime t m now) t)
              (fun _ => bind (_cache_load_metadata t) (fun meta =>
                 _cache_save_metadata t
                   (mkCacheMetadata (created meta) now (partial meta) (queries meta)))) s1
          else Ok tt s1
      end
    else Ok tt s1.
Proof.
  intros Hm Hnp s1 now. unfold _cache_update.
  unfold bind at 1. rewrite (create_existing _ _ _ Hm).
  destruct (ensure_dir_fields (dir_path (uri t)) s) as (Hmd & _ & _ & _ & Hnc & _).
  unfold bind at 1. unfold datetime_now at 1. rewrite Hnc. fold now. fold s1.
  unfold bind at 1. rewrite (load_metadata_run t s1 m) by (cbn; now rewrite Hmd).
  rewrite Hnp. unfold bind at 1. cbn [ret]. unfold stale. fold now.
  destruct (hour <? now - updated m)%Z; [|reflexivity].
  unfold bind at 1, hints_for. destruct (hints (uri t)) as [h|]; [|reflexivity].
  cbn [ret]. destruct (timed h); reflexivity.
Qed.

Lemma create_run t s :
  exists s1 m, _cache_create clock t s = Ok tt s1 /\
    metadata s1 !! dir_path (uri t) = Some m /\ trace s1 = trace s /\
    (forall m0, metadata s !! dir_path (uri t) = Some m0 ->
       s1 = ensure_dir (dir_path (uri t)) s /\ m = m0).
Proof.
  destruct (metadata s !! dir_path (uri t)) as [m0|] eqn:Hm.
  - exists (ensure_dir (dir_path (uri t)) s), m0. split; [exact (create_existing _ _ _ Hm)|].
    destruct (ensure_dir_fields (dir_path (uri t)) s) as (-> & _ & _ & -> & _).
    split; [exact Hm|]. split; [reflexivity|].
    intros m1 [= <-]. now split.
  - unfold _cache_create, datetime_now, _cache_save_metadata. run_m.
    destruct (dir_exists s _); run_m; cbn [metadata with_dirs]; rewrite Hm; run_m;
      (eexists _, _; split; [reflexivity|]); cbn [metadata with_metadata trace];
      rewrite lookup_insert_eq; (split; [reflexivity|]); (split; [reflexivity|]);
      discriminate.
Qed.

(** The two branches of [_retrieve_multi], once the metadata file is in
    place: a query that is recorded, or a type that is fully cached, is
    answered after [_cache_update]; any other query is fetched, recorded and
    answered, and [_cache_update] is not called. *)
Lemma retrieve_multi_run fuel q cq s s1 m :
  let t := mkURI (uri q) [] in
  strip_time q = Val cq ->
  _cache_create clock t s = Ok tt s1 ->
  metadata s1 !! dir_path (uri q) = Some m ->
  _retrieve_multi remote clock hints strftime fuel q s =
    if bool_decide (URI_str cq ∈ queries m) || negb (partial m) then
      bind (_cache_update remote clock hints strftime fuel t)
        (fun _ => _cache_get_objects remote clock hints q t)
        (with_cache_hit (Z.add 1) (with_cache_req (Z.add 1) s1))
    else
      bind (_cache_put_objects remote clock fuel cq t)
        (fun _ => bind (_cache_record_query cq t)
           (fun _ => _cache_get_objects remote clock hints q t))
        (with_cache_req (Z.add 1) s1).
Proof.
  intros t Hcq Hcreate Hm.
  unfold _retrieve_multi, _cache_has_objects, _cache_has_all_objects, _cache_load_metadata.
  fold t. rewrite Hcq. run_m. rewrite Hcreate.
  cbn [metadata with_cache_req uri t]. rewrite Hm.
  case_bool_decide; cbn [orb]; [reflexivity|].
  cbn [metadata with_cache_req uri t]. rewrite Hm.
  destruct (partial m); reflexivity.
Qed.

End Update.

(** ** Methods that never enter the pagination loop need no fuel *)

Section Total.

Lemma total_ret {A} (a : A) : total (ret a).
Proof. intros s. discriminate. Qed.

Lemma total_raise {A} e : total (@raise A e).
Proof. intros s. discriminate. Qed.

Lemma total_exit {A} : total (@sys_exit A).
Proof. intros s. discriminate. Qed.

Lemma total_gets {A} (f : DataTracker -> A) : total (gets f).
Proof. intros s. discriminate. Qed.

Lemma total_modify f : total (modify f).
Proof. intros s. discriminate. Qed.

Lemma total_lift {A} (r : Res A) : total (lift r).
Proof. destruct r; [apply total_ret|apply total_raise]. Qed.

Lemma total_assert b : total (py_assert b).
Proof. destruct b; [apply total_ret|apply total_raise]. Qed.

Lemma total_bind {A B} (m : M A) (k : A -> M B) :
  total m -> (forall a, total (k a)) -> total (bind m k).
Proof.
  intros Hm Hk s. unfold bind. specialize (Hm s).
  destruct (m s); try discriminate; [apply Hk|contradiction].
Qed.

Lemma total_session_get remote site url ps : total (session_get remote site url ps).
Proof. intros s. discriminate. Qed.

Lemma total_datetime_now clock : total (datetime_now clock).
Proof. intros s. discriminate. Qed.

End Total.

Create HintDb tot.

#[global] Hint Resolve total_ret total_raise total_exit total_gets total_modify total_lift
  total_assert total_session_get total_datetime_now : tot.

Ltac tot_step :=
  match goal with
  | |- total (bind _ _) => apply total_bind; [|intros]
  | |- total (if ?b then _ else _) => destruct b
  | |- total (match ?x with _ => _ end) => destruct x
  | |- total _ => solve [eauto with tot]
  end.
Ltac tot := repeat tot_step.

Lemma total_load_metadata t : total (_cache_load_metadata t).
Proof. unfold _cache_load_metadata. tot. Qed.
#[global] Hint Resolve total_load_metadata : tot.

Lemma total_save_metadata t m : total (_cache_save_metadata t m).
Proof. unfold _cache_save_metadata. tot. Qed.
#[global] Hint Resolve total_save_metadata : tot.

Lemma total_create clock t : total (_cache_create clock t).
Proof. unfold _cache_create. tot. Qed.
#[global] Hint Resolve total_create : tot.

Lemma total_record_query u t : total (_cache_record_query u t).
Proof. unfold _cache_record_query. tot. Qed.
#[global] Hint Resolve total_record_query : tot.

Lemma total_has_object u : total (_cache_has_object u).
Proof.
  unfold _cache_has_object, _cache_has_all_objects, _memcache_has_object. tot.
Qed.
#[global] Hint Resolve total_has_object : tot.

Lemma total_get_object u : total (_cache_get_object u).
Proof.
  unfold _cache_get_object, _memcache_has_object, _memcache_get_object,
    _memcache_put_object. tot.
Qed.
#[global] Hint Resolve total_get_object : tot.

Lemma total_put_object clock u j : total (_cache_put_object clock u j).
Proof. unfold _cache_put_object, _memcache_put_object. tot. Qed.
#[global] Hint Resolve total_put_object : tot.

Lemma total_rate_limit : total _rate_limit.
Proof. unfold _rate_limit, session_close. tot. Qed.
#[global] Hint Resolve total_rate_limit : tot.

Lemma total_retrieve_json remote clock u : total (_retrieve_json remote clock u).
Proof. unfold _retrieve_json. tot. Qed.
#[global] Hint Resolve total_retrieve_json : tot.

Lemma total_retrieve_json_of remote clock j : total (_retrieve_json_of remote clock j).
Proof. unfold _retrieve_json_of. tot. Qed.
#[global] Hint Resolve total_retrieve_json_of : tot.

Lemma total_deref_found remote clock field v items :
  total (deref_found remote clock field v items).
Proof. induction items as [|item rest IH]; cbn [deref_found]; tot. Qed.
#[global] Hint Resolve total_deref_found : tot.

Lemma total_match_param remote clock hints obj k v :
  total (match_param remote clock hints obj k v).
Proof. unfold match_param. tot. Qed.
#[global] Hint Resolve total_match_param : tot.

Lemma total_match_loop remote clock hints obj ps : forall res,
  total (match_loop remote clock hints obj ps res).
Proof. induction ps as [|[k v] ps IH]; intros res; cbn [match_loop]; tot. Qed.
#[global] Hint Resolve total_match_loop : tot.

Lemma total_obj_matches remote clock hs obj q :
  total (_cache_obj_matches remote clock hs obj q).
Proof. unfold _cache_obj_matches, hints_for. tot. Qed.
#[global] Hint Resolve total_obj_matches : tot.

Lemma total_scan_loop remote clock hs hints q t files : forall results,
  total (scan_loop remote clock hs hints q t files results).
Proof.
  induction files as [|name files IH]; intros results; cbn [scan_loop]; tot.
Qed.
#[global] Hint Resolve total_scan_loop : tot.

Lemma total_get_objects remote clock hs q t :
  total (_cache_get_objects remote clock hs q t).
Proof. unfold _cache_get_objects, hints_for. tot. Qed.
#[global] Hint Resolve total_get_objects : tot.

(** ** Promotion and freshness *)

Section Coordinator.

Context (remote : Z -> string -> list (string * Json) -> Response) (clock : nat -> Z)
  (hints : string -> option CacheHints) (strftime : Z -> string).

(** A query on a fully cached type whose refresh is not due is answered
    without fuel, and adds no collection fetch to the events. *)
Lemma full_cache_answers_from_disk fuel q s m :
  metadata s !! dir_path (uri q) = Some m ->
  partial m = false ->
  (stale clock s m = false \/ forall h, hints (uri q) = Some h -> timed h = false) ->
  _retrieve_multi remote clock hints strftime fuel q s <> Diverge /\
  forall s', final (_retrieve_multi remote clock hints strftime fuel q s) = Some s' ->
             no_fetch s s'.
Proof.
  intros Hm Hfull Hidle.
  destruct (strip_time q) as [cq|e] eqn:Hcq.
  2:{ unfold _retrieve_multi. rewrite Hcq. run_m. split; [discriminate|].
      intros s' [= <-]. reflexivity. }
  set (t := mkURI (uri q) []).
  pose proof (create_existing clock t s m Hm) as Hcreate.
  destruct (ensure_dir_fields (dir_path (uri q)) s) as (Hmd & _ & _ & Htr & Hnc & _).
  change (uri t) with (uri q) in Hcreate.
  rewrite (retrieve_multi_run remote clock hints strftime fuel q cq s _ m Hcq Hcreate)
    by (rewrite Hmd; exact Hm).
  rewrite Hfull, orb_true_r. cbn [negb].
  set (s1 := with_cache_hit _ _).
  assert (Hm1 : metadata s1 !! dir_path (uri t) = Some m) by (cbn; rewrite Hmd; exact Hm).
  assert (Hst : stale clock s1 m = stale clock s m) by (unfold stale; cbn; now rewrite Hnc).
  fold t. unfold bind.
  rewrite (cache_update_no_promotion remote clock hints strftime fuel t s1 m Hm1)
    by (now rewrite Hfull). cbn zeta. rewrite Hst.
  set (s2 := with_now_calls S _).
  assert (Hs2 : no_fetch s s2).
  { apply no_fetch_refl_on. unfold s2. cbn [trace with_now_calls].
    match goal with
    | |- context [ensure_dir ?d s1] =>
        destruct (ensure_dir_fields d s1) as (_ & _ & _ & -> & _)
    end.
    exact Htr. }
  assert (Hanswer :
    _cache_get_objects remote clock hints q t s2 <> Diverge /\
    forall s', final (_cache_get_objects remote clock hints q t s2) = Some s' ->
               no_fetch s s').
  { split; [apply total_get_objects|]. intros s' H. etransitivity; [exact Hs2|].
    eapply get_objects_preserves; [typeclasses eauto..|exact H]. }
  assert (Hraise :
    @Raise (list Json) KeyError s2 <> Diverge /\
    forall s', final (@Raise (list Json) KeyError s2) = Some s' -> no_fetch s s').
  { split; [discriminate|]. now intros s' [= <-]. }
  destruct (stale clock s m); [|exact Hanswer].
  destruct Hidle as [?|Hnt]; [discriminate|].
  cbn [uri t]. destruct (hints (uri q)) as [h|]; [|exact Hraise].
  rewrite (Hnt h eq_refl). exact Hanswer.
Qed.

(** A refresh that returns leaves [updated] at the time it read. *)
Lemma refresh_advances_updated t now s s' :
  bind (_cache_load_metadata t) (fun meta =>
    _cache_save_metadata t
      (mkCacheMetadata (created meta) now (partial meta) (queries meta))) s = Ok tt s' ->
  exists m', metadata s' !! dir_path (uri t) = Some m' /\ updated m' = now.
Proof.
  unfold _cache_load_metadata, _cache_save_metadata. run_m.
  destruct (metadata s !! dir_path (uri t)) as [m|]; run_m; [|discriminate].
  intros [= <-]. eexists. cbn. rewrite lookup_insert_eq. split; reflexivity.
Qed.

End Coordinator.




(** C8 (amended). Once the metadata file of the type is in place,
    [_retrieve_multi] takes one of two branches.  A query that is recorded,
    or any query on a fully cached type, is answered from disk after
    [_cache_update] has run; any other query is fetched from the network,
    recorded and answered, and [_cache_update] does not run.  In
    [_cache_update], when no promotion is due and more than one hour has
    passed since [updated]: a timed type is refreshed by fetching the range
    from [updated] to now, after which [updated] is now; a type that is not
    timed is left as it is, and nothing is fetched. *)
Theorem freshness_on_disk_branch remote clock hints strftime fuel q cq s s1 m :
  let t := mkURI (uri q) [] in
  strip_time q = Val cq ->
  _cache_create clock t s = Ok tt s1 ->
  metadata s1 !! dir_path (uri q) = Some m ->
  (_retrieve_multi remote clock hints strftime fuel q s =
     if bool_decide (URI_str cq ∈ queries m) || negb (partial m) then
       bind (_cache_update remote clock hints strftime fuel t)
         (fun _ => _cache_get_objects remote clock hints q t)
         (with_cache_hit (Z.add 1) (with_cache_req (Z.add 1) s1))
     else
       bind (_cache_put_objects remote clock fuel cq t)
         (fun _ => bind (_cache_record_query cq t)
            (fun _ => _cache_get_objects remote clock hints q t))
         (with_cache_req (Z.add 1) s1)) /\
  (forall s2 m2,
     metadata s2 !! dir_path (uri q) = Some m2 ->
     partial m2 && (100 <? List.length (queries m2))%nat = false ->
     let s3 := with_now_calls S (ensure_dir (dir_path (uri q)) s2) in
     let now := clock (now_calls s2) in
     (_cache_update remote clock hints strftime fuel t s2 =
        if stale clock s2 m2 then
          match hints (uri q) with
          | None => Raise KeyError s3
          | Some h =>
              if timed h then
                bind (_cache_put_objects remote clock fuel (update_uri strftime t m2 now) t)
                  (fun _ => bind (_cache_load_metadata t) (fun meta =>
                     _cache_save_metadata t
                       (mkCacheMetadata (created meta) now (partial meta) (queries meta))))
                  s3
              else Ok tt s3
          end
        else Ok tt s3) /\
     (forall h s4,
        stale clock s2 m2 = true -> hints (uri q) = Some h -> timed h = true ->
        _cache_update remote clock hints strftime fuel t s2 = Ok tt s4 ->
        exists m4, metadata s4 !! dir_path (uri q) = Some m4 /\ updated m4 = now) /\
     (forall h,
        hints (uri q) = Some h -> timed h = false ->
        _cache_update remote clock hints strftime fuel t s2 = Ok tt s3 /\
        metadata s3 = metadata s2 /\ trace s3 = trace s2)).
Proof.
  intros t Hcq Hcreate Hm. split.
  { exact (retrieve_multi_run remote clock hints strftime fuel q cq s s1 m Hcq Hcreate Hm). }
  intros s2 m2 Hm2 Hnp s3 now.
  pose proof (cache_update_no_promotion remote clock hints strftime fuel t s2 m2 Hm2 Hnp)
    as Hrun. cbn zeta in Hrun. cbn [uri t] in Hrun. fold s3 now in Hrun.
  split; [exact Hrun|]. split.
  - intros h s4 Hst Hh Htimed Hok. rewrite Hrun, Hst, Hh, Htimed in Hok.
    apply bind_Ok in Hok as ([] & s' & _ & Hok).
    exact (refresh_advances_updated t now s' s4 Hok).
  - intros h Hh Hnt. rewrite Hrun, Hh, Hnt.
    split; [now destruct (stale clock s2 m2)|].
    unfold s3. destruct (ensure_dir_fields (dir_path (uri q)) s2) as (Hmd & _ & _ & Htr & _).
    cbn. now split.
Qed.

(** The two halves at work: a first query on the person type, and the
    refresh of the person type two hours later. *)
Lemma freshness_on_disk_branch_witness :
  exists s4 m4,
    _cache_update Demo.remote_empty Demo.clock_2h registry_hints Demo.strftime 5
      (mkURI Demo.person_uri []) Demo.person_partial = Ok tt s4 /\
    metadata s4 !! Demo.person_dir = Some m4 /\ updated m4 = (2 * hour)%Z.
Proof.
  destruct (freshness_on_disk_branch Demo.remote_empty Demo.clock_2h registry_hints
              Demo.strftime 5 Demo.person_query Demo.person_query Demo.person_partial
              Demo.person_partial (mkCacheMetadata 0 0 true []))
    as [_ H]; [reflexivity|vm_compute; reflexivity|vm_compute; reflexivity|].
  destruct (H Demo.person_partial (mkCacheMetadata 0 0 true []))
    as (_ & Hadv & _); [vm_compute; reflexivity|reflexivity|].
  eexists.
  destruct (Hadv (mkCacheHints [] [] ["id"] false true)
              ltac:(let r := eval vm_compute in
                      (match _cache_update Demo.remote_empty Demo.clock_2h registry_hints
                               Demo.strftime 5 (mkURI Demo.person_uri []) Demo.person_partial
                       with Ok _ s => s | _ => init end) in exact r))
    as (m4 & Hm4 & Hup); [reflexivity|vm_compute; reflexivity|reflexivity|vm_compute; reflexivity|].
  exists m4. split; [vm_compute; reflexivity|]. split; [exact Hm4|exact Hup].
Defined.

(** C8 as stated fails: a query that is not recorded is fetched and answered
    without the freshness step.  On the timed person type, with metadata two
    hours old, the call reads no clock, asks the remote for the query alone,
    and leaves [updated] where it was. *)
Lemma freshness_skipped_counterexample :
  stale Demo.clock_2h Demo.person_partial (mkCacheMetadata 0 0 true []) = true /\
  (exists h, registry_hints Demo.person_uri = Some h /\ timed h = true) /\
  exists rs s',
    _retrieve_multi Demo.remote_empty Demo.clock_2h registry_hints Demo.strftime 5
      Demo.person_query Demo.person_partial = Ok rs s' /\
    metadata s' !! Demo.person_dir =
      Some (mkCacheMetadata 0 0 true ["/api/v1/person/person/?name=x"]) /\
    now_calls s' = 0%nat /\
    trace s' =
      [EvGet PageGet 1 "https://datatracker.ietf.org/api/v1/person/person/?limit=100&name=x" []].
Proof.
  split; [reflexivity|]. split.
  - eexists. split; [vm_compute; reflexivity|reflexivity].
  - eexists _, _. split; [vm_compute; reflexivity|].
    split; [vm_compute; reflexivity|]. split; reflexivity.
Qed.

(** ** Single-object fetch *)

Section ItemFetch.

Context (remote : Z -> string -> list (string * Json) -> Response) (clock : nat -> Z).

Lemma has_object_false u s s0 :
  _cache_has_object u s = Ok false s0 ->
  s0 = s /\ memcache s !! uri u = None /\ objects s !! obj_path (uri u) = None /\
  exists m, metadata s !! dir_path (uri (_parent_uri u)) = Some m /\ partial m = true.
Proof.
  unfold _cache_has_object, _memcache_has_object, _cache_has_all_objects,
    _cache_load_metadata. run_m.
  destruct (memcache s !! uri u) as [j|] eqn:Hmem.
  { rewrite bool_decide_eq_true_2 by eauto. discriminate. }
  rewrite bool_decide_eq_false_2 by (intros [? [=]]).
  destruct (objects s !! obj_path (uri u)) as [j|] eqn:Hobj.
  { rewrite bool_decide_eq_true_2 by eauto. discriminate. }
  rewrite bool_decide_eq_false_2 by (intros [? [=]]).
  destruct (metadata s !! dir_path (uri (_parent_uri u))) as [m|] eqn:Hm; [|discriminate].
  destruct (partial m) eqn:Hp; cbn [negb]; [|discriminate].
  intros [= <-]. eauto 10.
Qed.

Lemma has_object_false_frame u s s2 :
  memcache s2 = memcache s -> objects s2 = objects s -> metadata s2 = metadata s ->
  _cache_has_object u s = Ok false s ->
  _cache_has_object u s2 = Ok false s2.
Proof.
  intros Hmem Hobj Hmd (_ & H1 & H2 & m & H3 & H4)%has_object_false.
  unfold _cache_has_object, _memcache_has_object, _cache_has_all_objects,
    _cache_load_metadata. run_m.
  rewrite Hmem, H1, bool_decide_eq_false_2 by (intros [? [=]]). run_m.
  rewrite Hobj, H2, bool_decide_eq_false_2 by (intros [? [=]]). run_m.
  rewrite Hmd, H3. run_m. rewrite H4. reflexivity.
Qed.

(** C9. For an object that is not in the cache, a 404 from the remote makes
    the item fetch return [None]: nothing raises, and the object files, the
    lookaside cache, the metadata and the directories are untouched.  A 200
    on a well-formed object URI stores the object under its URI, on disk and
    in the lookaside cache, and the query (without its time range) is among
    the recorded queries of the type when the object is returned. *)
Theorem not_found_is_absent u s :
  _cache_has_object u s = Ok false s ->
  let r := remote (1 + get_count s) (base_url +:+ uri u) (params u) in
  (status_code r = 404%Z ->
   exists s',
     _retrieve_json remote clock u s = Ok None s' /\
     objects s' = objects s /\ memcache s' = memcache s /\
     metadata s' = metadata s /\ dirs s' = dirs s) /\
  (status_code r = 200%Z ->
   PyStr.startswith "/" (uri u) = true -> PyStr.endswith "/" (uri u) = true ->
   PyStr.contains "?" (uri u) = false ->
   forall cu, strip_time u = Val cu ->
   exists s' m',
     _retrieve_json remote clock u s = Ok (Some (json r)) s' /\
     objects s' !! obj_path (uri u) = Some (json r) /\
     memcache s' !! uri u = Some (json r) /\
     metadata s' !! dir_path (uri (_parent_uri u)) = Some m' /\
     URI_str cu ∈ queries m').
Proof.
  intros Hmiss r.
  pose proof (has_object_false_frame u s (with_cache_req (Z.add 1) s)
                eq_refl eq_refl eq_refl Hmiss) as Hmiss1.
  apply has_object_false in Hmiss as (_ & Hmem & Hobj & m & Hm & Hp).
  set (s1 := if ((1 + http_req (with_cache_req (Z.add 1) s)) mod 100 =? 0)%Z
             then with_trace (cons EvClose)
                    (with_http_req (Z.add 1) (with_cache_req (Z.add 1) s))
             else with_http_req (Z.add 1) (with_cache_req (Z.add 1) s)).
  set (s2 := with_trace (cons (EvGet ItemGet (1 + get_count s) (base_url +:+ uri u)
                                 (params u)))
               (with_get_count (Z.add 1) s1)).
  assert (Hs1 : get_count s1 = get_count s /\ objects s1 = objects s /\
                memcache s1 = memcache s /\ metadata s1 = metadata s /\ dirs s1 = dirs s).
  { unfold s1. destruct (_ =? _)%Z; repeat split. }
  destruct Hs1 as (Hg1 & Ho1 & Hmem1 & Hmd1 & Hd1).
  assert (Hrun : _retrieve_json remote clock u s =
    (if (status_code r =? 200)%Z then
       bind (_cache_put_object clock u (json r)) (fun _ =>
         bind (_cache_record_query u (_parent_uri u)) (fun _ => ret (Some (json r))))
     else if (status_code r =? 404)%Z then ret None else sys_exit) s2).
  { unfold _retrieve_json. unfold bind at 1. cbn [modify]. unfold bind at 1.
    rewrite Hmiss1. cbn [negb]. unfold bind at 1. rewrite rate_limit_run. fold s1.
    unfold bind at 1. cbn [modify]. unfold bind at 1. unfold session_get.
    cbn [get_count with_get_count]. rewrite Hg1. reflexivity. }
  rewrite Hrun. clear Hrun Hmiss1.
  split.
  - intros H404. rewrite H404. cbn [Z.eqb Pos.eqb]. eexists. split; [reflexivity|].
    cbn. auto.
  - intros H200 Hstart Hend Hq cu Hcu. rewrite H200. cbn [Z.eqb Pos.eqb].
    assert (Hput : exists s3,
      _cache_put_object clock u (json r) s2 = Ok tt s3 /\
      objects s3 = <[obj_path (uri u) := json r]> (objects s) /\
      memcache s3 = <[uri u := json r]> (memcache s) /\
      metadata s3 = metadata s).
    { unfold _cache_put_object, _memcache_put_object. rewrite Hstart, Hend. run_m.
      destruct (dir_exists s2 _); run_m.
      - eexists. split; [reflexivity|]. cbn. rewrite Ho1, Hmem1, Hmd1. auto.
      - rewrite (create_existing clock (_parent_uri u) s2 m)
          by (cbn; rewrite Hmd1; exact Hm).
        destruct (ensure_dir_fields (dir_path (uri (_parent_uri u))) s2)
          as (E1 & E2 & E3 & _).
        eexists. split; [reflexivity|].
        cbn [objects memcache metadata with_memcache with_objects].
        rewrite E1, E2, E3. unfold s2.
        cbn [objects memcache metadata with_trace with_get_count].
        rewrite Ho1, Hmem1, Hmd1. auto. }
    destruct Hput as (s3 & Hput & Ho3 & Hmem3 & Hmd3).
    unfold bind at 1. rewrite Hput.
    unfold bind at 1. unfold _cache_record_query, _cache_load_metadata, _cache_save_metadata.
    rewrite Hq, Hcu. run_m.
    cbn [negb]. run_m. rewrite Hmd3, Hm. run_m. rewrite Hp. run_m.
    case_bool_decide as Hin; run_m.
    + eexists s3, m. split; [reflexivity|]. rewrite Ho3, Hmem3, Hmd3.
      rewrite !lookup_insert_eq. auto.
    + eexists _, _. split; [reflexivity|]. cbn. rewrite Ho3, Hmem3.
      rewrite !lookup_insert_eq. repeat split.
      cbn. apply elem_of_app. right. now apply list_elem_of_singleton.
Qed.

End ItemFetch.

(** The states of [Demo2]: state 9 does not exist, state 3 does. *)
Lemma not_found_is_absent_witness :
  (exists s',
     _retrieve_json Demo2.remote Demo.clock_0 (mkURI "/api/v1/doc/state/9/" [])
       Demo2.after_draft_query = Ok None s' /\
     objects s' = objects Demo2.after_draft_query) /\
  (exists s' m',
     _retrieve_json Demo2.remote Demo.clock_0 (mkURI "/api/v1/doc/state/3/" [])
       Demo2.after_draft_query = Ok (Some (Demo2.state_obj 3 "approved" "charter")) s' /\
     metadata s' !! Demo2.state_dir = Some m' /\
     "/api/v1/doc/state/3/" ∈ queries m').
Proof.
  split.
  - destruct (not_found_is_absent Demo2.remote Demo.clock_0
                (mkURI "/api/v1/doc/state/9/" []) Demo2.after_draft_query)
      as [H404 _]; [vm_compute; reflexivity|].
    destruct H404 as (s' & Hrun & Hobj & _); [vm_compute; reflexivity|].
    exists s'. split; assumption.
  - destruct (not_found_is_absent Demo2.remote Demo.clock_0
                (mkURI "/api/v1/doc/state/3/" []) Demo2.after_draft_query)
      as [_ H200]; [vm_compute; reflexivity|].
    destruct (H200 ltac:(vm_compute; reflexivity) eq_refl eq_refl eq_refl
                (mkURI "/api/v1/doc/state/3/" []) eq_refl)
      as (s' & m' & Hrun & _ & _ & Hm' & Hin).
    exists s', m'. split; [exact Hrun|]. split; [exact Hm'|exact Hin].
Defined.

(** ** Rate limiter *)

(** The rate limiter adds one to the request counter and closes the
    connection exactly when the new count is a multiple of 100. *)
Lemma rate_limit_closes_on_hundreds s :
  exists s',
    _rate_limit s = Ok tt s' /\
    http_req s' = (http_req s + 1)%Z /\
    trace s' = (if (http_req s' mod 100 =? 0)%Z then [EvClose] else []) ++ trace s.
Proof.
  rewrite rate_limit_run. eexists. split; [reflexivity|].
  replace (http_req s + 1)%Z with (1 + http_req s)%Z by lia.
  destruct ((1 + http_req s) mod 100 =? 0)%Z eqn:H; cbn; rewrite H; auto.
Qed.

(** C4 at a remote that fails once.  The page is requested twice, and the
    rate limiter has run once: the retry after the 500 is a GET that the
    rate limiter does not precede, and the request counter is one behind
    the number of GETs.  When the hundredth GET is issued the counter
    stands at 99, and the rate limiter has not rotated the connection. *)
Theorem retry_bypasses_rate_limit :
  (exists s',
     _cache_put_objects Demo3.remote_flaky Demo.clock_0 3
       Demo3.state_collection Demo3.state_collection init = Ok tt s' /\
     get_count s' = 2%Z /\ http_req s' = 1%Z /\
     rev (trace s') =
       [EvGet PageGet 1 "https://datatracker.ietf.org/api/v1/doc/state/?limit=100" [];
        EvClose; EvSleep (15 # 8);
        EvGet PageGet 2 "https://datatracker.ietf.org/api/v1/doc/state/?limit=100" []]) /\
  (exists s',
     _cache_put_objects Demo3.remote_flaky_pages Demo.clock_0 200
       Demo3.state_collection Demo3.state_collection init = Ok tt s' /\
     get_count s' = 100%Z /\ http_req s' = 99%Z).
Proof.
  split; eexists; (split; [vm_compute; reflexivity|]); repeat split.
Qed.

(** ** Recovery from a bad page *)

(** C2 at a collection of 150 records whose record at offset 120 is
    corrupt.  The page at offset 100 answers 400 and the fetcher isolates
    the range: it asks for 100 single items, offsets 100 to 199, although
    the collection ends at 150; every answer of 200 is written under the
    path of the collection itself, one on top of the other, so that the only
    trace of the range on disk is the envelope of the last answer, and none
    of the 49 good records of the range is stored under its own URI.  The
    fetch then resumes at offset 200. *)
Theorem isolation_overwrites_collection_file :
  exists s',
    _cache_put_objects Demo3.remote_corrupt Demo.clock_0 10
      Demo3.state_collection Demo3.state_collection init = Ok tt s' /\
    Demo3.count_site IsolateGet (trace s') = 100%nat /\
    size (objects s') = 101%nat /\
    objects s' !! obj_path "/api/v1/doc/state/100/" =
      Some (Demo2.state_obj 100 "s" "draft") /\
    objects s' !! obj_path "/api/v1/doc/state/101/" = None /\
    objects s' !! obj_path "/api/v1/doc/state/" = Some (Demo.page [] JNull 150) /\
    hd_error (trace s') =
      Some (EvGet PageGet 103
              "https://datatracker.ietf.org/api/v1/doc/state/?limit=100&offset=200" []).
Proof.
  assert (H :
    match _cache_put_objects Demo3.remote_corrupt Demo.clock_0 10
            Demo3.state_collection Demo3.state_collection init with
    | Ok _ s' =>
        Some (Demo3.count_site IsolateGet (trace s'), size (objects s'),
              objects s' !! obj_path "/api/v1/doc/state/100/",
              objects s' !! obj_path "/api/v1/doc/state/101/",
              objects s' !! obj_path "/api/v1/doc/state/",
              hd_error (trace s'))
    | _ => None
    end =
    Some (100%nat, 101%nat, Some (Demo2.state_obj 100 "s" "draft"), None,
          Some (Demo.page [] JNull 150),
          Some (EvGet PageGet 103
                  "https://datatracker.ietf.org/api/v1/doc/state/?limit=100&offset=200" [])))
    by (vm_compute; reflexivity).
  destruct (_cache_put_objects Demo3.remote_corrupt Demo.clock_0 10
              Demo3.state_collection Demo3.state_collection init) as [[] s'|s'|e s'|];
    try discriminate H.
  exists s'. injection H as H1 H2 H3 H4 H5 H6. auto 10.
Qed.

(** ** Saving the metadata file *)

Lemma length_append (s t : string) :
  String.length (s +:+ t) = (String.length s + String.length t)%nat.
Proof.
  induction s as [|c s IH]; [reflexivity|].
  change (S (String.length (s +:+ t)) = S (String.length s + String.length t)).
  now rewrite IH.
Qed.

Section SaveMetadata.

Import MetaFile.

Context (isoformat : Z -> string).

(** The protocol of the specification never shows a reader anything but the
    old file or the new record. *)
Lemma atomic_save_never_partial t meta disk :
  never_partial (metadata_path t) (atomic_save_ops isoformat t meta) disk
    (metadata_json isoformat meta).
Proof.
  unfold never_partial, atomic_save_ops.
  set (p := metadata_path t). set (new := metadata_json isoformat meta).
  assert (Hne : p +:+ ".tmp" <> p).
  { intros H. apply (f_equal String.length) in H.
    rewrite length_append in H. cbn in H. lia. }
  assert (Htmp : alter (fun c => c ++ [new]) (p +:+ ".tmp") (<[p +:+ ".tmp" := []]> disk)
                  !! (p +:+ ".tmp") = Some [new]).
  { now rewrite lookup_alter_eq, lookup_insert_eq. }
  cbn [observe apply]. rewrite Htmp.
  repeat (apply List.Forall_cons); [| | | |apply List.Forall_nil].
  - left. now rewrite lookup_insert_ne.
  - left. rewrite lookup_alter_ne by exact Hne. now rewrite lookup_insert_ne.
  - left. rewrite lookup_alter_ne by exact Hne. now rewrite lookup_insert_ne.
  - right. now rewrite lookup_insert_eq.
Qed.


End SaveMetadata.


(** ** Local predicate evaluator *)

Lemma cmp_Z_negate op m n : Py.cmp_Z (Py.negate op) m n = negb (Py.cmp_Z op m n).
Proof.
  destruct op; cbn [Py.negate Py.cmp_Z];
    rewrite ?Z.geb_leb, ?Z.gtb_ltb, ?Z.leb_antisym, ?Z.ltb_antisym, ?negb_involutive;
    reflexivity.
Qed.

Lemma cmp_str_negate op s t : Py.cmp_str (Py.negate op) s t = negb (Py.cmp_str op s t).
Proof. unfold Py.cmp_str. destruct op, (String.compare s t); reflexivity. Qed.

Lemma cmp_negate op a : forall b,
  Py.cmp (Py.negate op) a b =
    match Py.cmp op a b with Val c => Val (negb c) | Err e => Err e end.
Proof.
  induction a as [|x|n|s|l IH|d _] using Json_nested_ind; intros b;
    destruct b as [|y|m|t|l'|d']; cbn [Py.cmp Py.num];
    rewrite ?cmp_Z_negate, ?cmp_str_negate; try reflexivity.
  revert l'. induction IH as [|x l Hx _ IHl]; intros l'.
  - destruct l'; unfold Py.cmp_nat; now rewrite cmp_Z_negate.
  - destruct l' as [|y l']; [unfold Py.cmp_nat; now rewrite cmp_Z_negate|].
    destruct (Py.eq x y); [apply IHl|apply Hx].
Qed.

Section Evaluator.

Context (remote : Z -> string -> list (string * Json) -> Response) (clock : nat -> Z).

Lemma trim_found_any v items s :
  lift (trim_found v items) s = any_of (id_suffix_is v) items s.
Proof.
  induction items as [|item rest IH]; cbn [trim_found any_of]; [reflexivity|].
  destruct item as [| | |ref| |]; try reflexivity.
  unfold id_suffix_is. run_m. destruct (id_tail ref) as [tail|e]; cbn [res_bind]; run_m;
    [|reflexivity].
  destruct (String.eqb (Py.str v) tail); [reflexivity|exact IH].
Qed.

Lemma deref_found_any field v items : forall s,
  deref_found remote clock field v items s =
    any_of (remote_field_is remote clock field v) items s.
Proof.
  induction items as [|item rest IH]; intros s; cbn [deref_found any_of]; [reflexivity|].
  unfold remote_field_is. run_m.
  destruct (_retrieve_json_of remote clock item s) as [[target|] s1|s1|e s1|]; try reflexivity.
  - destruct (Py.getitem target field) as [y|e]; run_m; [|reflexivity].
    destruct (Py.eq v y); [reflexivity|apply IH].
  - apply IH.
Qed.

Lemma regular_name_parse hints k :
  regular_name hints k = true -> in_trim hints k = false ->
  Py.lookup_key k (deref hints) = None ->
  parse_filter k = source_filter k.
Proof.
  unfold regular_name. intros H Ht Hd. rewrite Ht, Hd in H. cbn [orb] in H.
  destruct (parse_filter k) as [b1 o1], (source_filter k) as [b2 o2].
  apply andb_prop in H as [Hb Ho]. apply String.eqb_eq in Hb. subst b2.
  destruct o1, o2; first [reflexivity|discriminate].
Qed.

(** On a regular name and a value that is not [None], the turn of the
    loop of the source decides the clause of the specification. *)
Lemma match_param_clause hints obj k v s :
  is_none v = false -> regular_name hints k = true ->
  match_param remote clock hints obj k v s = clause_holds remote clock hints obj k v s.
Proof.
  intros Hv Hreg.
  assert (Hrun : match_param remote clock hints obj k v s =
    (if bool_decide (k ∈ trim hints) then
       bind (lift (Py.getitem obj k)) (fun x =>
         match x with
         | JNull => ret false
         | JList items => lift (trim_found v items)
         | JStr ref => bind (lift (id_tail ref)) (fun tail => ret (String.eqb (Py.str v) tail))
         | _ => sys_exit
         end)
     else
       match Py.lookup_key k (deref hints) with
       | Some field =>
           bind (lift (Py.getitem obj k)) (fun x =>
             match x with
             | JNull => ret false
             | JList items => deref_found remote clock field v items
             | JStr ref =>
                 bind (_retrieve_json remote clock (mkURI ref [])) (fun deref_obj =>
                   match deref_obj with
                   | None => ret false
                   | Some o => bind (lift (Py.getitem o field)) (fun y => ret (Py.eq v y))
                   end)
             | _ => sys_exit
             end)
       | None =>
           match source_filter k with
           | (base, FContains) =>
               bind (lift (Py.getitem obj base)) (fun x => lift (Py.contains v x))
           | (base, FGte) =>
               bind (lift (Py.getitem obj base)) (fun x =>
                 bind (lift (Py.cmp Py.Lt x v)) (fun b => ret (negb b)))
           | (base, FGt) =>
               bind (lift (Py.getitem obj base)) (fun x =>
                 bind (lift (Py.cmp Py.Le x v)) (fun b => ret (negb b)))
           | (base, FLte) =>
               bind (lift (Py.getitem obj base)) (fun x =>
                 bind (lift (Py.cmp Py.Gt x v)) (fun b => ret (negb b)))
           | (base, FLt) =>
               bind (lift (Py.getitem obj base)) (fun x =>
                 bind (lift (Py.cmp Py.Ge x v)) (fun b => ret (negb b)))
           | (base, FEq) =>
               bind (lift (Py.getitem obj base)) (fun x => ret (Py.eq x v))
           end
       end) s).
  { unfold match_param, source_filter, relational_suffixes. cbn [List.find fst String.length].
    destruct v; try discriminate;
      destruct (bool_decide (k ∈ trim hints)); try reflexivity;
      destruct (Py.lookup_key k (deref hints)); try reflexivity;
      destruct (PyStr.contains "__contains" k); try reflexivity;
      destruct (PyStr.contains "__gte" k); try reflexivity;
      destruct (PyStr.contains "__gt" k); try reflexivity;
      destruct (PyStr.contains "__lte" k); try reflexivity;
      destruct (PyStr.contains "__lt" k); reflexivity. }
  rewrite Hrun. clear Hrun. unfold clause_holds, in_trim.
  pose proof (regular_name_parse hints k Hreg) as Hparse. unfold in_trim in Hparse.
  destruct (bool_decide (k ∈ trim hints)).
  - run_m. destruct (Py.getitem obj k) as [x|e]; [|reflexivity].
    destruct x as [| | |ref|items|]; try reflexivity. unfold on_reference.
    apply (trim_found_any v items s).
  - destruct (Py.lookup_key k (deref hints)) as [field|].
    + run_m. destruct (Py.getitem obj k) as [x|e]; [|reflexivity].
      destruct x as [| | |ref|items|]; try reflexivity; unfold on_reference.
      apply deref_found_any.
    + rewrite (Hparse eq_refl eq_refl).
      destruct (source_filter k) as [base op]. run_m.
      destruct (Py.getitem obj base) as [x|e]; [|destruct op; reflexivity].
      destruct op; cbn [apply_filter]; try reflexivity.
      * change Py.Ge with (Py.negate Py.Lt). rewrite cmp_negate.
        destruct (Py.cmp Py.Lt x v); reflexivity.
      * change Py.Gt with (Py.negate Py.Le). rewrite cmp_negate.
        destruct (Py.cmp Py.Le x v); reflexivity.
      * change Py.Le with (Py.negate Py.Gt). rewrite cmp_negate.
        destruct (Py.cmp Py.Gt x v); reflexivity.
      * change Py.Lt with (Py.negate Py.Ge). rewrite cmp_negate.
        destruct (Py.cmp Py.Ge x v); reflexivity.
Qed.

Lemma match_loop_clauses hints obj ps : forall res s,
  forallb (fun kv => regular_name hints (fst kv)) (non_none ps) = true ->
  match_loop remote clock hints obj ps res s =
    bind (eval_clauses remote clock hints obj (non_none ps))
      (fun bs => ret (res && forallb id bs)) s.
Proof.
  induction ps as [|[k v] ps IH]; intros res s Hreg.
  - cbn. unfold bind, ret. cbn. now rewrite andb_true_r.
  - cbn [match_loop non_none List.filter snd] in *.
    destruct (is_none v) eqn:Hv; cbn [negb] in *.
    + destruct v; try discriminate. unfold match_param. unfold bind at 1. cbn [ret].
      apply IH, Hreg.
    + cbn [forallb fst] in Hreg. apply andb_prop in Hreg as [Hk Hrest].
      cbn [eval_clauses]. run_m. rewrite (match_param_clause _ _ _ _ _ Hv Hk).
      destruct (clause_holds remote clock hints obj k v s) as [ok s1|s1|e s1|];
        try reflexivity.
      rewrite (IH _ s1 Hrest). run_m. unfold non_none.
      destruct (eval_clauses remote clock hints obj
                  (List.filter (fun kv => negb (is_none kv.2)) ps) s1) as [bs s2|s2|e s2|];
        try reflexivity.
      f_equal. cbn [forallb]. unfold id at 1. now destruct ok, res.
Qed.

(** On regular queries the evaluator of the source is the conjunction of
    the clauses, outcome for outcome. *)
Lemma obj_matches_is_spec hs obj q s :
  (forall hints, hs (uri q) = Some hints -> regular_query hints q = true) ->
  _cache_obj_matches remote clock hs obj q s = matches_spec remote clock hs obj q s.
Proof.
  intros Hreg. unfold _cache_obj_matches, matches_spec, hints_for.
  destruct (hs (uri q)) as [hints|]; [|reflexivity].
  unfold bind at 1 3. cbn [ret].
  rewrite match_loop_clauses by (apply Hreg; reflexivity). reflexivity.
Qed.

End Evaluator.



Example matches_time_lt_fails :
  _cache_obj_matches Demo2.remote Demo.clock_0 registry_hints Demo6.document
    Demo6.group_before_2019 init = Ok false init.
Proof. vm_compute. reflexivity. Qed.


(** The names the public methods of the module use are regular, with the
    hints of any type that lists none of them as a reference. *)
Example api_names_regular :
  forallb (regular_name (mkCacheHints [] [] ["id"] false false))
    ["time__gte"; "time__lt"; "name__contains"; "ascii__contains"; "address__contains";
     "completed_on__gt"; "completed_on__lt"; "assigned_on__gt"; "assigned_on__lt";
     "history_date__gt"; "history_date__lt"; "name"; "slug"; "id"; "group__parent"] = true.
Proof. vm_compute. reflexivity. Qed.

(** A name that contains a suffix without ending in it is read by the source
    as a comparison on the name less its last characters. *)
Example irregular_name :
  regular_name (mkCacheHints [] [] ["id"] false false) "a__gtx" = false /\
  source_filter "a__gtx" = ("a_", FGt) /\ parse_filter "a__gtx" = ("a__gtx", FEq).
Proof. vm_compute. auto. Qed.

(** ** Replaying a query *)

(** *** Stripping the time range is idempotent *)

Lemma dict_set_fresh {V} k (v : V) d :
  k ∉ List.map fst d -> dict_set k v d = d ++ [(k, v)].
Proof.
  induction d as [|[k0 v0] d IH]; cbn [dict_set List.map fst]; intros Hk; [reflexivity|].
  apply not_elem_of_cons in Hk as [Hne Hk].
  destruct (String.eqb_spec k k0); [contradiction|]. cbn. f_equal. now apply IH.
Qed.

Lemma dict_set_keys {V} k (v : V) d :
  List.map fst (dict_set k v d) =
    if bool_decide (k ∈ List.map fst d) then List.map fst d else List.map fst d ++ [k].
Proof.
  induction d as [|[k0 v0] d IH]; cbn [dict_set List.map fst].
  - rewrite bool_decide_eq_false_2 by apply not_elem_of_nil. reflexivity.
  - destruct (String.eqb_spec k k0) as [->|Hne].
    + rewrite bool_decide_eq_true_2 by (now left). reflexivity.
    + cbn [List.map fst]. rewrite IH. case_bool_decide as Hin.
      * rewrite bool_decide_eq_true_2 by (now right). reflexivity.
      * rewrite bool_decide_eq_false_2; [reflexivity|].
        intros [?|?]%elem_of_cons; contradiction.
Qed.

Lemma dict_set_clean k v d :
  clean_params d -> is_none v = false -> is_time_param k = false ->
  clean_params (dict_set k v d).
Proof.
  intros [Hnd Hall] Hv Hk. split.
  - rewrite dict_set_keys. case_bool_decide as Hin; [exact Hnd|].
    apply NoDup_app. split; [exact Hnd|]. split; [|apply NoDup_singleton].
    intros x Hx ->%list_elem_of_singleton. contradiction.
  - intros k' v' [[= -> ->]|Hin]%elem_of_dict_set; [now split|now apply Hall].
Qed.

Lemma copy_params_clean ps : forall acc r,
  copy_params ps acc = Val r -> clean_params acc -> clean_params r.
Proof.
  induction ps as [|[n v] ps IH]; cbn [copy_params]; intros acc r H Hacc.
  - now injection H as <-.
  - destruct (is_none v) eqn:Hv; [destruct v; discriminate|].
    assert (Hgo : copy_params ps (if is_time_param n then acc else dict_set n v acc) = Val r)
      by (destruct v; first [discriminate|exact H]).
    eapply IH; [exact Hgo|].
    destruct (is_time_param n) eqn:Hn; [exact Hacc|now apply dict_set_clean].
Qed.

Lemma copy_params_of_clean l : forall acc,
  clean_params (acc ++ l) -> copy_params l acc = Val (acc ++ l).
Proof.
  induction l as [|[k v] l IH]; intros acc Hclean; cbn [copy_params].
  - now rewrite app_nil_r.
  - destruct Hclean as [Hnd Hall].
    destruct (Hall k v) as [Hv Hk]; [apply elem_of_app; right; now left|].
    rewrite Hk.
    assert (Hfresh : k ∉ List.map fst acc).
    { rewrite map_app in Hnd. apply NoDup_app in Hnd as (_ & Hdisj & _).
      intros Hin. apply (Hdisj k Hin). cbn. now left. }
    rewrite (dict_set_fresh k v acc Hfresh).
    replace (acc ++ (k, v) :: l) with ((acc ++ [(k, v)]) ++ l) in * by now rewrite <- app_assoc.
    rewrite <- IH by (now split). now destruct v.
Qed.

Lemma strip_time_idem q cq : strip_time q = Val cq -> strip_time cq = Val cq.
Proof.
  unfold strip_time, res_bind.
  destruct (copy_params (params q) []) as [ps|] eqn:Hps; [|discriminate].
  intros [= <-]. cbn [params uri].
  rewrite (copy_params_of_clean ps []); [reflexivity|].
  cbn [app]. eapply copy_params_clean; [exact Hps|].
  split; [constructor|]. intros ? ? []%elem_of_nil.
Qed.

(** *** Matching without references is a function of the object *)

Lemma is_pure_ret {A} (a : A) : is_pure (ret a).
Proof. now exists (PVal a). Qed.

Lemma is_pure_raise {A} e : is_pure (@raise A e).
Proof. now exists (PErr e). Qed.

Lemma is_pure_exit {A} : is_pure (@sys_exit A).
Proof. now exists PExit. Qed.

Lemma is_pure_lift {A} (r : Res A) : is_pure (lift r).
Proof. destruct r; [apply is_pure_ret|apply is_pure_raise]. Qed.

Lemma is_pure_bind {A B} (m : M A) (k : A -> M B) :
  is_pure m -> (forall a, is_pure (k a)) -> is_pure (bind m k).
Proof.
  intros [[a| |e] Hm] Hk.
  - destruct (Hk a) as [r Hr]. exists r. intros s. unfold bind. rewrite Hm. apply Hr.
  - exists PExit. intros s. unfold bind. now rewrite Hm.
  - exists (PErr e). intros s. unfold bind. now rewrite Hm.
Qed.

Lemma bind_run {A B} (m : M A) (k : A -> M B) s a s' :
  m s = Ok a s' -> bind m k s = k a s'.
Proof. intros H. unfold bind. now rewrite H. Qed.

Lemma bind_pure {A B} (m : M A) (k : A -> M B) r :
  (forall s, m s = embed r s) ->
  forall s, bind m k s =
    match r with PVal a => k a s | PExit => Exit s | PErr e => Raise e s end.
Proof. intros H s. unfold bind. rewrite H. now destruct r. Qed.

Ltac pure_step :=
  match goal with
  | |- is_pure (bind _ _) => apply is_pure_bind; [|intros]
  | |- is_pure (ret _) => apply is_pure_ret
  | |- is_pure (raise _) => apply is_pure_raise
  | |- is_pure sys_exit => apply is_pure_exit
  | |- is_pure (lift _) => apply is_pure_lift
  | |- is_pure (if ?b then _ else _) => destruct b
  | |- is_pure (match ?x with _ => _ end) => destruct x
  end.

Section Replay.

Context (remote : Z -> string -> list (string * Json) -> Response) (clock : nat -> Z)
  (hs : string -> option CacheHints).

Lemma match_param_pure hints obj k v :
  is_none v = true \/
  in_trim hints k || match Py.lookup_key k (deref hints) with
                     | Some _ => false
                     | None => true
                     end = true ->
  is_pure (match_param remote clock hints obj k v).
Proof.
  intros H. unfold match_param, in_trim in *.
  destruct v; try apply is_pure_ret; (destruct H as [H|H]; [discriminate|]);
    (destruct (bool_decide (k ∈ trim hints)); cbn [orb] in H;
     [|destruct (Py.lookup_key k (deref hints)); [discriminate|]]);
    repeat pure_step.
Qed.

Lemma match_loop_pure hints obj ps : forall res,
  forallb (fun kv => in_trim hints (fst kv) ||
                     match Py.lookup_key (fst kv) (deref hints) with
                     | Some _ => false
                     | None => true
                     end) (non_none ps) = true ->
  is_pure (match_loop remote clock hints obj ps res).
Proof.
  induction ps as [|[k v] ps IH]; intros res Hnd; cbn [match_loop]; [apply is_pure_ret|].
  cbn [non_none List.filter snd] in Hnd. fold (non_none ps) in Hnd.
  apply is_pure_bind.
  - apply match_param_pure. destruct (is_none v); [now left|right].
    cbn [negb forallb fst] in Hnd. now apply andb_prop in Hnd as [? _].
  - intros ok. apply IH. destruct (is_none v); [exact Hnd|].
    cbn [negb forallb] in Hnd. now apply andb_prop in Hnd as [_ ?].
Qed.

Lemma obj_matches_pure obj q :
  (forall hints, hs (uri q) = Some hints -> no_deref hints q = true) ->
  is_pure (_cache_obj_matches remote clock hs obj q).
Proof.
  intros Hnd. unfold _cache_obj_matches, hints_for.
  destruct (hs (uri q)) as [hints|].
  - destruct (match_loop_pure hints obj (params q) true (Hnd hints eq_refl)) as [r Hr].
    exists r. intros s. unfold bind. cbn [ret]. apply Hr.
  - exists (PErr KeyError). reflexivity.
Qed.

Lemma quiet_refl s : quiet s s.
Proof. repeat split. Qed.

Lemma quiet_trans s1 s2 s3 : quiet s1 s2 -> quiet s2 s3 -> quiet s1 s3.
Proof.
  intros (A1 & A2 & A3 & A4 & A5) (B1 & B2 & B3 & B4 & B5).
  repeat split; first [congruence | intros u; now rewrite B5, A5].
Qed.

(** A lookup returns what the view shows and does not change the view. *)
Lemma get_object_view u s :
  exists s', _cache_get_object u s = Ok (cache_view s (uri u)) s' /\ quiet s s'.
Proof.
  unfold _cache_get_object, _memcache_has_object, _memcache_get_object,
    _memcache_put_object, cache_view. run_m. cbn [memcache with_memcache_req objects].
  destruct (memcache s !! uri u) as [j|] eqn:Hmem.
  - rewrite bool_decide_eq_true_2 by eauto. cbn [memcache with_memcache_hit with_memcache_req].
    rewrite Hmem. eexists. split; [reflexivity|]. repeat split.
  - rewrite bool_decide_eq_false_2 by (intros [? [=]]).
    cbn [objects with_memcache_req].
    destruct (objects s !! obj_path (uri u)) as [j|] eqn:Hobj.
    + eexists. split; [reflexivity|]. repeat split. intros u'. unfold cache_view. cbn.
      destruct (decide (uri u = u')) as [<-|Hne].
      * now rewrite lookup_insert_eq, Hmem, Hobj.
      * now rewrite lookup_insert_ne.
    + eexists. split; [reflexivity|]. repeat split.
Qed.

(** Two scans of the same files through the same view give the same
    results, and neither changes what it looks at. *)
Lemma scan_loop_replay hints q t files : forall results s s2,
  (forall h, hs (uri q) = Some h -> no_deref h q = true) ->
  (forall u, cache_view s u = cache_view s2 u) ->
  exists r s' s2',
    scan_loop remote clock hs hints q t files results s = embed r s' /\
    scan_loop remote clock hs hints q t files results s2 = embed r s2' /\
    quiet s s' /\ quiet s2 s2'.
Proof.
  intros results s s2 Hnd. revert results s s2.
  induction files as [|name files IH]; intros results s s2 Hview; cbn [scan_loop].
  - exists (PVal results), s, s2. auto using quiet_refl.
  - destruct (String.eqb name "_cache_info.json"); [now apply IH|].
    set (u := mkURI _ []).
    destruct (get_object_view u s) as (sa & Hga & Hqa).
    destruct (get_object_view u s2) as (sb & Hgb & Hqb).
    assert (Hview' : forall u', cache_view sa u' = cache_view sb u').
    { intros u'. destruct Hqa as (_ & _ & _ & _ & ->), Hqb as (_ & _ & _ & _ & ->).
      apply Hview. }
    rewrite (bind_run _ _ _ _ _ Hga), (bind_run _ _ _ _ _ Hgb), <- (Hview (uri u)).
    destruct (cache_view s (uri u)) as [obj_json|].
    2:{ exists (PErr AssertionError), sa, sb. auto. }
    destruct (obj_matches_pure obj_json q Hnd) as [rm Hrm].
    rewrite !(bind_pure _ _ rm Hrm).
    destruct rm as [[|]| |e]; cbn [embed].
    + destruct (sort_key_loop obj_json (sort_by hints) "") as [sort_key|e].
      * run_m.
        destruct (IH (results ++ [(sort_key, obj_json)]) sa sb Hview')
          as (r & s' & s2' & H1 & H2 & Q1 & Q2).
        exists r, s', s2'. split; [exact H1|]. split; [exact H2|].
        split; eapply quiet_trans; eassumption.
      * exists (PErr e), sa, sb. auto.
    + destruct (IH results sa sb Hview') as (r & s' & s2' & H1 & H2 & Q1 & Q2).
      exists r, s', s2'. split; [exact H1|]. split; [exact H2|].
        split; eapply quiet_trans; eassumption.
    + exists PExit, sa, sb. auto.
    + exists (PErr e), sa, sb. auto.
Qed.

Lemma get_objects_replay q t s s2 :
  (forall h, hs (uri q) = Some h -> no_deref h q = true) ->
  objects s = objects s2 ->
  (forall u, cache_view s u = cache_view s2 u) ->
  exists r s' s2',
    _cache_get_objects remote clock hs q t s = embed r s' /\
    _cache_get_objects remote clock hs q t s2 = embed r s2' /\
    quiet s s' /\ quiet s2 s2'.
Proof.
  intros Hnd Hobj Hview. unfold _cache_get_objects, hints_for.
  destruct (hs (uri t)) as [hints|].
  2:{ exists (PErr KeyError), s, s2. auto using quiet_refl. }
  unfold bind at 1 4. cbn [ret]. unfold bind at 1 3, gets, listdir. rewrite Hobj.
  destruct (scan_loop_replay hints q t
              (omap (fun kv => file_in_dir (dir_path (uri t)) kv.1) (map_to_list (objects s2)))
              [] s s2 Hnd Hview) as (r & s' & s2' & H1 & H2 & Q1 & Q2).
  unfold bind. rewrite H1, H2.
  destruct r as [results| |e].
  - exists (PVal (List.map snd (py_sort (reverse hints) results))), s', s2'. auto.
  - exists PExit, s', s2'. auto.
  - exists (PErr e), s', s2'. auto.
Qed.

End Replay.

Section ReplayTheorem.

Context (clock : nat -> Z) (hs : string -> option CacheHints) (strftime : Z -> string).

Lemma record_query_answerable cq t s s' :
  strip_time cq = Val cq ->
  _cache_record_query cq t s = Ok tt s' ->
  answerable (metadata s') (dir_path (uri t)) (URI_str cq).
Proof.
  intros Hcq. unfold _cache_record_query, _cache_load_metadata, _cache_save_metadata.
  rewrite Hcq. run_m.
  destruct (negb (PyStr.contains "?" (uri cq))); run_m; [|discriminate].
  destruct (metadata s !! dir_path (uri t)) as [m|] eqn:Hm; run_m; [|discriminate].
  destruct (partial m) eqn:Hp; run_m.
  - case_bool_decide as Hin; run_m; intros [= <-].
    + exists m. split; [exact Hm|now right].
    + eexists. cbn. rewrite lookup_insert_eq. split; [reflexivity|]. right. cbn.
      apply elem_of_app. right. now apply list_elem_of_singleton.
  - intros [= <-]. exists m. split; [exact Hm|now left].
Qed.

Lemma get_objects_Ok_hints remote q t s rs s' :
  _cache_get_objects remote clock hs q t s = Ok rs s' -> exists h, hs (uri t) = Some h.
Proof.
  unfold _cache_get_objects, hints_for. destruct (hs (uri t)) as [h|]; [eauto|].
  unfold bind. cbn. discriminate.
Qed.


End ReplayTheorem.


(** ** Paths below the cache directory *)

Lemma append_cons (x : ascii) (a b : string) : String x a +:+ b = String x (a +:+ b).
Proof. reflexivity. Qed.

Lemma append_nil_l (b : string) : "" +:+ b = b.
Proof. reflexivity. Qed.

Lemma append_assoc (a b c : string) : (a +:+ b) +:+ c = a +:+ b +:+ c.
Proof.
  induction a as [|x a IH]; [reflexivity|]. now rewrite !append_cons, IH.
Qed.

Lemma append_nil_r (a : string) : a +:+ "" = a.
Proof. induction a as [|x a IH]; [reflexivity|]. now rewrite append_cons, IH. Qed.

Lemma substring_0_append (a b : string) :
  String.substring 0 (String.length a) (a +:+ b) = a.
Proof.
  induction a as [|x a IH].
  - rewrite append_nil_l. now destruct b.
  - rewrite append_cons. cbn [String.length String.substring]. now rewrite IH.
Qed.

Lemma substring_all (b : string) : String.substring 0 (String.length b) b = b.
Proof. rewrite <- (append_nil_r b) at 2. rewrite substring_0_append. reflexivity. Qed.

Lemma substring_skip_append (a b : string) :
  String.substring (String.length a) (String.length b) (a +:+ b) = b.
Proof.
  induction a as [|x a IH].
  - rewrite append_nil_l. apply substring_all.
  - rewrite append_cons. cbn [String.length String.substring]. exact IH.
Qed.

Lemma drop_last_append (a b : string) :
  PyStr.drop_last (String.length b) (a +:+ b) = a.
Proof.
  unfold PyStr.drop_last. rewrite length_append.
  replace (String.length a + String.length b - String.length b)%nat
    with (String.length a) by lia.
  apply substring_0_append.
Qed.

Lemma strip_ends_slashes (a : string) : PyStr.strip_ends ("/" +:+ a +:+ "/") = a.
Proof.
  unfold PyStr.strip_ends. rewrite append_cons, append_nil_l.
  cbn [String.length String.substring]. rewrite length_append. cbn [String.length].
  replace (S (String.length a + 1) - 2)%nat with (String.length a) by lia.
  apply substring_0_append.
Qed.

Lemma prefix_append (a b : string) : String.prefix a (a +:+ b) = true.
Proof.
  induction a as [|x a IH]; [now destruct b|].
  rewrite append_cons. cbn [String.prefix].
  destruct (ascii_dec x x); [exact IH|contradiction].
Qed.

(** [sep not in s] *)
Lemma contains_char_cons (c x : ascii) (s : string) :
  PyStr.contains (String c "") (String x s) =
    if Ascii.eqb x c then true else PyStr.contains (String c "") s.
Proof.
  unfold PyStr.contains. cbn [String.index String.prefix].
  destruct (ascii_dec c x) as [<-|Hne].
  - rewrite Ascii.eqb_refl. now destruct s.
  - destruct (Ascii.eqb_spec x c) as [->|_]; [contradiction|].
    now destruct (String.index 0 (String c "") s).
Qed.

Lemma contains_char_append (c : ascii) (a b : string) :
  PyStr.contains (String c "") (a +:+ b) =
    PyStr.contains (String c "") a || PyStr.contains (String c "") b.
Proof.
  induction a as [|x a IH].
  - reflexivity.
  - rewrite append_cons, !contains_char_cons, IH. now destruct (Ascii.eqb x c).
Qed.

Lemma rfind_succ_absent (c : ascii) (s : string) :
  PyStr.contains (String c "") s = false -> PyStr.rfind_succ c s = 0%nat.
Proof.
  induction s as [|x s IH]; [reflexivity|].
  rewrite contains_char_cons. cbn [PyStr.rfind_succ].
  destruct (Ascii.eqb x c); [discriminate|]. intros H. now rewrite (IH H).
Qed.

(** The last separator of [a + sep + b] is the one written out, when [b]
    has none. *)
Lemma rfind_succ_last (c : ascii) (a b : string) :
  PyStr.contains (String c "") b = false ->
  PyStr.rfind_succ c (a +:+ String c b) = S (String.length a).
Proof.
  intros Hb. induction a as [|x a IH].
  - rewrite append_nil_l. cbn [PyStr.rfind_succ String.length].
    rewrite (rfind_succ_absent c b Hb). now rewrite Ascii.eqb_refl.
  - rewrite append_cons. cbn [PyStr.rfind_succ String.length]. now rewrite IH.
Qed.

Lemma rev_app_append (a b c : string) :
  String.rev_app (a +:+ b) c = String.rev_app b (String.rev_app a c).
Proof.
  revert c. induction a as [|x a IH]; intros c; [reflexivity|].
  rewrite append_cons. cbn [String.rev_app]. apply IH.
Qed.

Lemma rev_app_acc (x y z : string) :
  String.rev_app x (y +:+ z) = String.rev_app x y +:+ z.
Proof.
  revert y. induction x as [|k x IH]; intros y; [reflexivity|].
  cbn [String.rev_app]. now rewrite <- IH, append_cons.
Qed.

Lemma endswith_append (a b : string) : PyStr.endswith b (a +:+ b) = true.
Proof.
  unfold PyStr.endswith, String.rev. rewrite rev_app_append.
  rewrite <- (append_nil_l (String.rev_app a "")), rev_app_acc.
  apply prefix_append.
Qed.

(** X1. The parent of an object URI is the URI of its collection: for a
    collection URI that ends in a slash and a name without a slash,
    [_parent_uri] of [collection + name + "/"] is the collection, and the
    parameters of the object URI are dropped. *)
Theorem parent_uri_of_member (c name : string) (ps : list (string * Json)) :
  PyStr.contains "/" name = false ->
  _parent_uri (mkURI (c +:+ "/" +:+ name +:+ "/") ps) = mkURI (c +:+ "/") [].
Proof.
  intros Hname. unfold _parent_uri. cbn [uri]. f_equal.
  replace (c +:+ "/" +:+ name +:+ "/") with ((c +:+ "/" +:+ name) +:+ "/")
    by now rewrite !append_assoc.
  pose proof (drop_last_append (c +:+ "/" +:+ name) "/") as Hdrop.
  cbn [String.length] in Hdrop. rewrite Hdrop. clear Hdrop.
  change ("/" +:+ name) with (String "/" name).
  rewrite (rfind_succ_last "/" c name Hname).
  replace (S (String.length c)) with (String.length (c +:+ "/"))
    by (rewrite length_append; cbn; lia).
  change (String "/" name) with ("/" +:+ name).
  rewrite <- !append_assoc. rewrite (append_assoc (c +:+ "/") name "/").
  apply substring_0_append.
Qed.

Lemma parent_uri_of_member_witness :
  _parent_uri (mkURI ("/api/v1/person/person" +:+ "/" +:+ "20209" +:+ "/") [("format", JStr "json")])
    = mkURI ("/api/v1/person/person" +:+ "/") [].
Proof. apply parent_uri_of_member. reflexivity. Defined.

(** ** The cache key of a query *)

Lemma copy_params_run ps : forall acc,
  NoDup (List.map fst acc ++ List.map fst ps) ->
  copy_params ps acc =
    if existsb (fun kv => is_none (snd kv)) ps then Err AssertionError
    else Val (acc ++ List.filter (fun kv => negb (is_time_param (fst kv))) ps).
Proof.
  induction ps as [|[k v] ps IH]; intros acc Hnd; cbn [copy_params existsb List.filter fst snd].
  - now rewrite app_nil_r.
  - destruct (is_none v) eqn:Hv; cbn [orb]; [now destruct v|].
    assert (Hgo : copy_params ((k, v) :: ps) acc =
                  copy_params ps (if is_time_param k then acc else dict_set k v acc))
      by (cbn [copy_params]; now destruct v).
    cbn [copy_params] in Hgo. rewrite Hgo. clear Hgo.
    cbn [List.map fst] in Hnd.
    destruct (is_time_param k); cbn [negb].
    + apply IH. apply NoDup_app in Hnd as (H1 & H2 & H3).
      apply NoDup_app. split; [exact H1|]. split.
      * intros x Hx Hin. apply (H2 x Hx). now right.
      * now apply NoDup_cons in H3 as [_ ?].
    + assert (Hfresh : k ∉ List.map fst acc).
      { apply NoDup_app in Hnd as (_ & H2 & _). intros Hin. apply (H2 k Hin). now left. }
      rewrite (dict_set_fresh k v acc Hfresh), IH.
      * now rewrite <- app_assoc.
      * rewrite map_app. cbn [List.map fst]. rewrite <- app_assoc. exact Hnd.
Qed.

(** X2. The cache key of a query is the query without its time range: on
    parameters with distinct names, [strip_time] (the loop at the head of
    [_retrieve_multi] and inside [_cache_record_query]) keeps every
    parameter but [time__gte] and [time__lt], in order, and fails with
    [AssertionError] as soon as one value (of any parameter, the time range
    included) is [None]. *)
Theorem strip_time_drops_time_range (u : string) (ps : list (string * Json)) :
  NoDup (List.map fst ps) ->
  strip_time (mkURI u ps) =
    if existsb (fun kv => is_none (snd kv)) ps then Err AssertionError
    else Val (mkURI u (List.filter (fun kv => negb (is_time_param (fst kv))) ps)).
Proof.
  intros Hnd. unfold strip_time. cbn [params uri].
  rewrite (copy_params_run ps []) by exact Hnd.
  now destruct (existsb _ ps).
Qed.

Lemma strip_time_drops_time_range_witness :
  strip_time (mkURI "/api/v1/person/person/"
                [("time__gte", JStr "1970-01-01T00:00:00"); ("time__lt", JStr "2038-01-19T03:14:07");
                 ("name__contains", JStr "Perkins")]) =
    Val (mkURI "/api/v1/person/person/" [("name__contains", JStr "Perkins")]).
Proof.
  apply (strip_time_drops_time_range "/api/v1/person/person/"
           [("time__gte", JStr "1970-01-01T00:00:00"); ("time__lt", JStr "2038-01-19T03:14:07");
            ("name__contains", JStr "Perkins")]).
  refine (bool_decide_unpack _ _). vm_compute. exact I.
Defined.

(** ** Object store *)

Section Store.

Context (clock : nat -> Z).

(** [_cache_create] touches the directories, and writes the metadata file
    when there is none. *)
Lemma create_fields t s :
  exists s1,
    _cache_create clock t s = Ok tt s1 /\
    objects s1 = objects s /\ memcache s1 = memcache s /\
    same_wire s s1 /\ keeps_metadata s s1 /\
    (metadata s !! dir_path (uri t) = None ->
     metadata s1 !! dir_path (uri t) =
       Some (mkCacheMetadata (clock (now_calls s)) (clock (now_calls s)) true [])).
Proof.
  unfold _cache_create, _cache_save_metadata, datetime_now, keeps_metadata, same_wire.
  run_m.
  destruct (dir_exists s (dir_path (uri t))); run_m; cbn [metadata with_dirs];
    destruct (metadata s !! dir_path (uri t)) as [m|] eqn:Hm; run_m;
    (eexists; split; [reflexivity|]);
    cbn [objects memcache metadata trace get_count http_req now_calls
         with_metadata with_now_calls with_dirs].
  - repeat split; auto. intros [=].
  - repeat split; auto.
    + intros d m' Hd. rewrite lookup_insert_ne; [exact Hd|congruence].
    + intros _. apply lookup_insert_eq.
  - repeat split; auto. intros [=].
  - repeat split; auto.
    + intros d m' Hd. rewrite lookup_insert_ne; [exact Hd|congruence].
    + intros _. apply lookup_insert_eq.
Qed.

(** What [_cache_put_object] does on a URI that passes its two assertions. *)
Lemma put_object_run u j s :
  PyStr.startswith "/" (uri u) = true -> PyStr.endswith "/" (uri u) = true ->
  exists s',
    _cache_put_object clock u j s = Ok tt s' /\
    objects s' = <[obj_path (uri u) := j]> (objects s) /\
    memcache s' = <[uri u := j]> (memcache s) /\
    same_wire s s' /\
    keeps_metadata s s' /\
    (dir_exists s (path_parent (obj_path (uri u))) = false ->
     metadata s !! dir_path (uri (_parent_uri u)) = None ->
     metadata s' !! dir_path (uri (_parent_uri u)) =
       Some (mkCacheMetadata (clock (now_calls s)) (clock (now_calls s)) true [])).
Proof.
  intros Hs He. unfold _cache_put_object, _memcache_put_object. rewrite Hs, He. run_m.
  destruct (dir_exists s (path_parent (obj_path (uri u)))) eqn:Hparent; run_m.
  { eexists. split; [reflexivity|]. cbn [objects memcache with_memcache with_objects].
    split; [reflexivity|]. split; [reflexivity|]. split; [repeat split|].
    split; [unfold keeps_metadata; intros d m H; exact H|]. intros [=]. }
  destruct (create_fields (_parent_uri u) s) as (s1 & Hrun & Ho & Hm & Hw & Hk & Hnew).
  rewrite Hrun. eexists. split; [reflexivity|].
  cbn [objects memcache with_memcache with_objects]. rewrite Ho, Hm.
  split; [reflexivity|]. split; [reflexivity|]. split; [exact Hw|].
  split; [exact Hk|]. intros _ Hnone. exact (Hnew Hnone).
Qed.

Lemma put_object_fails u j s :
  PyStr.startswith "/" (uri u) && PyStr.endswith "/" (uri u) = false ->
  _cache_put_object clock u j s = Raise AssertionError s.
Proof.
  unfold _cache_put_object. run_m.
  destruct (PyStr.startswith "/" (uri u)); [|reflexivity].
  destruct (PyStr.endswith "/" (uri u)); [discriminate|reflexivity].
Qed.

Lemma put_object_Ok u j s s' :
  _cache_put_object clock u j s = Ok tt s' ->
  objects s' = <[obj_path (uri u) := j]> (objects s) /\
  memcache s' = <[uri u := j]> (memcache s) /\ same_wire s s' /\ keeps_metadata s s'.
Proof.
  intros H.
  destruct (PyStr.startswith "/" (uri u) && PyStr.endswith "/" (uri u)) eqn:Hok.
  - apply andb_prop in Hok as [Hs He].
    destruct (put_object_run u j s Hs He) as (s1 & Hrun & H1 & H2 & H3 & H4 & _).
    rewrite Hrun in H. injection H as <-. auto.
  - rewrite (put_object_fails u j s Hok) in H. discriminate.
Qed.


(** X4. What is put is got: after [_cache_put_object] returned, a lookup of
    the same URI returns the object from the lookaside cache and counts a
    hit, [_cache_has_object] answers true, and a new process on the same
    directory reads the object back from its file. *)
Theorem put_then_get u j s s1 :
  _cache_put_object clock u j s = Ok tt s1 ->
  (exists s2, _cache_get_object u s1 = Ok (Some j) s2 /\
              objects s2 = objects s1 /\ memcache s2 = memcache s1 /\
              memcache_hit s2 = (memcache_hit s1 + 1)%Z) /\
  _cache_has_object u s1 = Ok true s1 /\
  (exists s3, _cache_get_object u (restart s1) = Ok (Some j) s3 /\
              memcache s3 !! uri u = Some j /\ memcache_hit s3 = 0%Z).
Proof.
  intros (Hobj & Hmem & _)%put_object_Ok.
  assert (Hm : memcache s1 !! uri u = Some j) by (rewrite Hmem; apply lookup_insert_eq).
  assert (Ho : objects s1 !! obj_path (uri u) = Some j) by (rewrite Hobj; apply lookup_insert_eq).
  split; [|split].
  - unfold _cache_get_object, _memcache_has_object, _memcache_get_object. run_m.
    cbn [memcache with_memcache_req]. rewrite bool_decide_eq_true_2 by eauto.
    cbn [memcache with_memcache_req with_memcache_hit]. rewrite Hm.
    eexists. split; [reflexivity|]. cbn. repeat split. lia.
  - unfold _cache_has_object, _memcache_has_object. run_m.
    now rewrite bool_decide_eq_true_2 by eauto.
  - unfold _cache_get_object, _memcache_has_object, _memcache_put_object, restart. run_m.
    cbn [memcache with_memcache_req objects].
    rewrite bool_decide_eq_false_2 by (rewrite lookup_empty; intros [? [=]]).
    cbn [objects with_memcache_req]. rewrite Ho. eexists. split; [reflexivity|]. cbn. split; [|reflexivity].
    apply lookup_insert_eq.
Qed.

End Store.


Lemma put_then_get_witness :
  let u := mkURI "/api/v1/doc/state/1/" [] in
  let j := Demo2.state_obj 1 "active" "draft" in
  let s1 := match final (_cache_put_object Demo.clock_0 u j init) with
            | Some s => s
            | None => init
            end in
  _cache_put_object Demo.clock_0 u j init = Ok tt s1 /\
  _cache_has_object u s1 = Ok true s1.
Proof.
  intros u j s1.
  assert (Hput : _cache_put_object Demo.clock_0 u j init = Ok tt s1)
    by (vm_compute; reflexivity).
  split; [exact Hput|].
  apply (put_then_get Demo.clock_0 u j init s1 Hput).
Defined.

(** ** Single-object fetch: hits, known absences, and the wire *)

#[global] Instance same_wire_preorder : PreOrder same_wire.
Proof.
  split.
  - intros s. repeat split.
  - intros s1 s2 s3 (A1 & A2 & A3) (B1 & B2 & B3). repeat split; congruence.
Qed.

Create HintDb wire.

(** One step of a proof that a method sends nothing over the wire. *)
Ltac wire_step :=
  match goal with
  | |- preserves _ (bind _ _) => apply preserves_bind; [|intros]
  | |- preserves _ (if ?b then _ else _) => destruct b
  | |- preserves _ (match ?x with _ => _ end) => destruct x
  | |- preserves _ (modify _) => apply preserves_modify; intros; repeat split
  | |- preserves _ _ => solve [eauto with pres wire typeclass_instances]
  end.
Ltac wire := repeat wire_step.

Section Wire.

Context (clock : nat -> Z).

Lemma datetime_now_wire : preserves same_wire (datetime_now clock).
Proof. intros s s' [= <-]. repeat split. Qed.
#[local] Hint Resolve datetime_now_wire : wire.

Lemma load_metadata_wire t : preserves same_wire (_cache_load_metadata t).
Proof. unfold _cache_load_metadata. wire. Qed.
#[local] Hint Resolve load_metadata_wire : wire.

Lemma create_wire t : preserves same_wire (_cache_create clock t).
Proof. unfold _cache_create, _cache_save_metadata. wire. Qed.
#[local] Hint Resolve create_wire : wire.

Lemma record_query_wire u t : preserves same_wire (_cache_record_query u t).
Proof. unfold _cache_record_query, _cache_save_metadata. wire. Qed.

Lemma put_object_wire u j : preserves same_wire (_cache_put_object clock u j).
Proof. unfold _cache_put_object, _memcache_put_object. wire. Qed.

Lemma has_object_wire u : preserves same_wire (_cache_has_object u).
Proof.
  unfold _cache_has_object, _memcache_has_object, _cache_has_all_objects. wire.
Qed.

Lemma get_object_wire u : preserves same_wire (_cache_get_object u).
Proof.
  unfold _cache_get_object, _memcache_has_object, _memcache_get_object,
    _memcache_put_object. wire.
Qed.

End Wire.

#[global] Hint Resolve datetime_now_wire load_metadata_wire create_wire record_query_wire
  put_object_wire has_object_wire get_object_wire : wire.

Section Item.

Context (remote : Z -> string -> list (string * Json) -> Response) (clock : nat -> Z).

(** What follows the GET of [_retrieve_json] sends nothing more. *)
Lemma after_item_get_wire u (r : Response) :
  preserves same_wire
    (if (status_code r =? 200)%Z then
       bind (_cache_put_object clock u (json r)) (fun _ =>
         bind (_cache_record_query u (_parent_uri u)) (fun _ => ret (Some (json r))))
     else if (status_code r =? 404)%Z then ret None
     else sys_exit).
Proof. wire. Qed.

(** X5. A single-object lookup sends at most one GET, and the rate limiter
    runs before it: however [_retrieve_json] ends, either nothing went over
    the wire, or both request counters advanced by one and the events added
    are those of the rate limiter followed by one GET of the object URL with
    the parameters of the URI. *)
Theorem retrieve_json_one_get u s s' :
  final (_retrieve_json remote clock u s) = Some s' ->
  same_wire s s' \/
  (trace s' = EvGet ItemGet (1 + get_count s) (base_url +:+ uri u) (params u)
                :: rate_limit_events s ++ trace s /\
   get_count s' = (1 + get_count s)%Z /\ http_req s' = (1 + http_req s)%Z).
Proof.
  unfold _retrieve_json. intros H.
  apply bind_final in H as [(x0 & s0 & E0 & H0)|[Hno _]];
    [|exfalso; eapply Hno; reflexivity].
  injection E0 as <- <-.
  set (s0 := with_cache_req (Z.add 1) s) in *.
  assert (Hw0 : same_wire s s0) by (repeat split).
  apply bind_final in H0 as [(cached & s1 & Hhas & H1)|[_ H1]].
  2:{ left. etransitivity; [exact Hw0|]. now apply (has_object_wire u s0 s'). }
  destruct cached; cbn [negb] in H1.
  - (* hit *)
    left. etransitivity; [exact Hw0|].
    etransitivity; [apply (has_object_wire u s0 s1); now rewrite Hhas|].
    apply bind_final in H1 as [(x2 & s2 & E2 & H2)|[Hno _]];
      [|exfalso; eapply Hno; reflexivity].
    injection E2 as <- <-.
    etransitivity; [|apply (get_object_wire u _ s' H2)]. repeat split.
  - (* miss *)
    right. apply has_object_false in Hhas as (-> & _).
    apply bind_final in H1 as [(x2 & s2 & Hrl & H2)|[Hno _]];
      [|exfalso; eapply Hno; apply rate_limit_run].
    rewrite rate_limit_run in Hrl. injection Hrl as <- <-.
    apply bind_final in H2 as [(x3 & s3 & E3 & H3)|[Hno _]];
      [|exfalso; eapply Hno; reflexivity].
    injection E3 as <- <-.
    apply bind_final in H3 as [(r & s4 & E4 & H4)|[Hno _]];
      [|exfalso; eapply Hno; reflexivity].
    injection E4 as <- <-.
    apply (after_item_get_wire u) in H4 as (Ht & Hg & Hh).
    rewrite Ht, Hg, Hh. unfold rate_limit_events, s0.
    cbn [http_req get_count with_cache_req].
    destruct ((1 + http_req s) mod 100 =? 0)%Z; cbn; repeat split.
Qed.

(** What [_retrieve_json] returned is what a lookup now sees. *)
Lemma retrieve_json_Some_view u j s s1 :
  _retrieve_json remote clock u s = Ok (Some j) s1 -> cache_view s1 (uri u) = Some j.
Proof.
  unfold _retrieve_json. intros H.
  apply bind_Ok in H as (_ & s0 & _ & H).
  apply bind_Ok in H as (cached & sa & _ & H).
  destruct cached; cbn [negb] in H.
  - apply bind_Ok in H as (_ & sb & _ & H).
    destruct (get_object_view u sb) as (sc & Hget & Hq).
    rewrite Hget in H. injection H as Hv <-.
    destruct Hq as (_ & _ & _ & _ & ->). exact Hv.
  - apply bind_Ok in H as (_ & sb & _ & H).
    apply bind_Ok in H as (_ & sc & _ & H).
    apply bind_Ok in H as (r & sd & _ & H).
    destruct (status_code r =? 200)%Z.
    + apply bind_Ok in H as ([] & se & Hput & H).
      apply bind_Ok in H as ([] & sf & Hrec & [= Hj Hs]). subst j sf.
      apply put_object_Ok in Hput as (_ & Hmem & _).
      assert (Hkeep : memcache s1 = memcache se).
      { revert Hrec. unfold _cache_record_query, _cache_load_metadata, _cache_save_metadata.
        run_m. destruct (negb (PyStr.contains "?" (uri u))); run_m; [|discriminate].
        destruct (metadata se !! _) as [m|]; run_m; [|discriminate].
        destruct (partial m); run_m; [|now intros [= <-]].
        destruct (strip_time u); run_m; [|discriminate].
        destruct (bool_decide _); run_m; now intros [= <-]. }
      unfold cache_view. rewrite Hkeep, Hmem, lookup_insert_eq. reflexivity.
    + destruct (status_code r =? 404)%Z; discriminate.
Qed.

(** A lookup of what the cache holds is a hit that changes counters only. *)
Lemma retrieve_json_hit u j s :
  cache_view s (uri u) = Some j ->
  exists s', _retrieve_json remote clock u s = Ok (Some j) s' /\ quiet s s' /\
             same_wire s s' /\ cache_hit s' = (1 + cache_hit s)%Z.
Proof.
  intros Hview.
  set (s0 := with_cache_hit (Z.add 1) (with_cache_req (Z.add 1) s)).
  destruct (get_object_view u s0) as (s' & Hget & Hq).
  exists s'. replace (cache_view s0 (uri u)) with (Some j) in Hget by (now rewrite <- Hview).
  assert (Hhas : _cache_has_object u (with_cache_req (Z.add 1) s) =
                 Ok true (with_cache_req (Z.add 1) s)).
  { unfold _cache_has_object, _memcache_has_object. run_m.
    cbn [memcache objects with_cache_req]. unfold cache_view in Hview.
    destruct (memcache s !! uri u) as [j'|].
    - now rewrite bool_decide_eq_true_2 by eauto.
    - rewrite bool_decide_eq_false_2 by (intros [? [=]]).
      now rewrite bool_decide_eq_true_2 by eauto. }
  split; [|split; [|split]].
  - unfold _retrieve_json. run_m. rewrite Hhas. cbn [negb]. fold s0. exact Hget.
  - destruct Hq as (H1 & H2 & H3 & H4 & H5). repeat split; auto.
  - transitivity s0; [repeat split|]. apply (get_object_wire u s0 s'). now rewrite Hget.
  - assert (Hc : cache_hit s' = cache_hit s0).
    { revert Hget. unfold _cache_get_object, _memcache_has_object, _memcache_get_object,
        _memcache_put_object. run_m.
      destruct (bool_decide _); run_m.
      - destruct (memcache _ !! _); run_m; [|discriminate]. now intros [= _ <-].
      - destruct (objects _ !! _); run_m; now intros [= _ <-]. }
    rewrite Hc. reflexivity.
Qed.

(** X6. An object that [_retrieve_json] returned is served from the cache
    from then on: the same lookup repeated returns the same object, sends
    nothing over the wire, counts a cache hit, and leaves the object files,
    the metadata and what every lookup sees as they were. *)
Theorem retrieve_json_again u j s s1 :
  _retrieve_json remote clock u s = Ok (Some j) s1 ->
  exists s2,
    _retrieve_json remote clock u s1 = Ok (Some j) s2 /\
    quiet s1 s2 /\ same_wire s1 s2 /\ cache_hit s2 = (1 + cache_hit s1)%Z.
Proof.
  intros H. apply retrieve_json_hit. exact (retrieve_json_Some_view u j s s1 H).
Qed.

Lemma get_object_miss u s :
  memcache s !! uri u = None -> objects s !! obj_path (uri u) = None ->
  _cache_get_object u s = Ok None (with_memcache_req (Z.add 1) s).
Proof.
  intros Hmem Hobj. unfold _cache_get_object, _memcache_has_object. run_m.
  cbn [memcache with_memcache_req]. rewrite Hmem.
  rewrite bool_decide_eq_false_2 by (intros [? [=]]).
  cbn [objects with_memcache_req]. now rewrite Hobj.
Qed.

Lemma has_object_known_absent u m s :
  memcache s !! uri u = None -> objects s !! obj_path (uri u) = None ->
  metadata s !! dir_path (uri (_parent_uri u)) = Some m ->
  _cache_has_object u s = Ok (negb (partial m)) s.
Proof.
  intros Hmem Hobj Hm.
  unfold _cache_has_object, _memcache_has_object, _cache_has_all_objects,
    _cache_load_metadata. run_m.
  rewrite Hmem, bool_decide_eq_false_2 by (intros [? [=]]).
  rewrite Hobj, bool_decide_eq_false_2 by (intros [? [=]]).
  rewrite Hm. now destruct (partial m).
Qed.

(** X7. An object that is neither in the lookaside cache nor on disk, of a
    type that is fully cached, is known not to exist: [_retrieve_json]
    returns [None] without asking the remote, and counts a cache hit. *)
Theorem absent_in_full_cache u m s :
  memcache s !! uri u = None ->
  objects s !! obj_path (uri u) = None ->
  metadata s !! dir_path (uri (_parent_uri u)) = Some m ->
  partial m = false ->
  exists s',
    _retrieve_json remote clock u s = Ok None s' /\
    same_wire s s' /\ objects s' = objects s /\ memcache s' = memcache s /\
    metadata s' = metadata s /\ cache_hit s' = (1 + cache_hit s)%Z.
Proof.
  intros Hmem Hobj Hm Hp.
  pose proof (has_object_known_absent u m (with_cache_req (Z.add 1) s) Hmem Hobj Hm) as Hhas.
  rewrite Hp in Hhas. cbn [negb] in Hhas.
  unfold _retrieve_json. run_m. rewrite Hhas. cbn [negb].
  rewrite get_object_miss by assumption.
  eexists. split; [reflexivity|]. repeat split.
Qed.

End Item.

Lemma retrieve_json_one_get_witness :
  let u := mkURI "/api/v1/doc/state/3/" [] in
  let s := Demo2.after_draft_query in
  let s' := match final (_retrieve_json Demo2.remote Demo.clock_0 u s) with
            | Some x => x
            | None => s
            end in
  same_wire s s' \/
  (trace s' = EvGet ItemGet (1 + get_count s) (base_url +:+ uri u) (params u)
                :: rate_limit_events s ++ trace s /\
   get_count s' = (1 + get_count s)%Z /\ http_req s' = (1 + http_req s)%Z).
Proof.
  intros u s s'.
  apply (retrieve_json_one_get Demo2.remote Demo.clock_0 u s s').
  vm_compute. reflexivity.
Defined.

Lemma retrieve_json_again_witness :
  let u := mkURI "/api/v1/doc/state/3/" [] in
  let s1 := match final (_retrieve_json Demo2.remote Demo.clock_0 u Demo2.after_draft_query) with
            | Some s => s
            | None => init
            end in
  exists s2,
    _retrieve_json Demo2.remote Demo.clock_0 u s1 =
      Ok (Some (Demo2.state_obj 3 "approved" "charter")) s2 /\
    quiet s1 s2 /\ same_wire s1 s2 /\ cache_hit s2 = (1 + cache_hit s1)%Z.
Proof.
  intros u s1.
  apply (retrieve_json_again Demo2.remote Demo.clock_0 u _ Demo2.after_draft_query s1).
  vm_compute. reflexivity.
Defined.

Lemma absent_in_full_cache_witness :
  exists s',
    _retrieve_json Demo2.remote Demo.clock_0 (mkURI "/api/v1/person/person/1/" [])
      Demo.person_full = Ok None s' /\
    trace s' = [].
Proof.
  destruct (absent_in_full_cache Demo2.remote Demo.clock_0
              (mkURI "/api/v1/person/person/1/" []) (mkCacheMetadata 0 0 false [])
              Demo.person_full) as (s' & Hrun & (Ht & _) & _);
    try reflexivity.
  exists s'. split; [exact Hrun|exact Ht].
Defined.

(** ** Network fetcher: errors, transient failures, and what a page stores *)

Section Fetcher.

Context (remote : Z -> string -> list (string * Json) -> Response) (clock : nat -> Z).

Lemma put_objects_first fuel u t s :
  _cache_put_objects remote clock fuel u t s =
    page_loop remote clock fuel (JStr (first_page u)) JNull s.
Proof. unfold _cache_put_objects, first_page. now destruct (params u). Qed.

(** The request of a page, up to the test of the status. *)
Lemma retry_loop_get fuel url total rt s :
  retry_loop remote clock (S fuel) (JStr url) total rt s =
    let r := remote (1 + get_count s) (base_url +:+ url) [] in
    let s1 := with_trace (cons (EvGet PageGet (1 + get_count s) (base_url +:+ url) []))
                (with_get_count (Z.add 1) s) in
    (if (status_code r =? 200)%Z then
       bind (lift (Py.getitem (json r) "meta")) (fun meta =>
       bind (lift (Py.getitem (json r) "objects")) (fun objs =>
       bind (lift (Py.getitem meta "next")) (fun next =>
       bind (iter_objects objs) (fun l =>
       bind (for_each (put_fetched clock) l) (fun _ =>
       bind (lift (Py.getitem meta "total_count")) (fun total' =>
       ret (next, total')))))))
     else if (status_code r =? 500)%Z then
       if negb (Qle_bool rt 60) then sys_exit
       else bind session_close (fun _ => bind (time_sleep rt) (fun _ =>
              retry_loop remote clock fuel (JStr url) total (rt * 2)))
     else if (status_code r =? 400)%Z && negb (is_none total) then
       bind (isolate_bad_request remote clock (base_url +:+ url) total)
         (fun next => ret (next, total))
     else sys_exit) s1.
Proof.
  cbn [retry_loop]. unfold bind at 1. cbn [modify].
  unfold bind at 1. cbn [ret]. unfold bind at 1. unfold session_get at 1.
  cbn [get_count with_get_count]. reflexivity.
Qed.

(** X8. An answer to the first page of a collection fetch that is neither
    200 nor 500 ends the process: 400 included, since no total is known yet
    and the isolation of a bad request is not attempted.  One GET was sent,
    after the rate limiter, and no object or metadata file was written. *)
Theorem first_page_error_is_fatal fuel u t s :
  let url := base_url +:+ first_page u in
  let r := remote (1 + get_count s) url [] in
  status_code r <> 200%Z -> status_code r <> 500%Z ->
  exists s',
    _cache_put_objects remote clock (S fuel) u t s = Exit s' /\
    trace s' = EvGet PageGet (1 + get_count s) url [] :: rate_limit_events s ++ trace s /\
    get_count s' = (1 + get_count s)%Z /\
    objects s' = objects s /\ metadata s' = metadata s.
Proof.
  intros url r H200 H500. rewrite put_objects_first. cbn [page_loop].
  unfold bind at 1. rewrite rate_limit_run.
  unfold bind at 1. rewrite retry_loop_get. cbn zeta.
  assert (Hg : forall s0, get_count s0 = get_count s ->
            remote (1 + get_count s0) (base_url +:+ first_page u) [] = r)
    by (intros s0 ->; reflexivity).
  unfold rate_limit_events.
  destruct ((1 + http_req s) mod 100 =? 0)%Z; rewrite Hg by reflexivity;
    rewrite (proj2 (Z.eqb_neq _ _) H200), (proj2 (Z.eqb_neq _ _) H500);
    cbn [is_none negb]; rewrite andb_false_r;
    (eexists; split; [reflexivity|]); repeat split.
Qed.

Lemma after_failures_fields url k : forall rt s,
  get_count (after_failures url k rt s) = (Z.of_nat k + get_count s)%Z /\
  objects (after_failures url k rt s) = objects s /\
  metadata (after_failures url k rt s) = metadata s /\
  http_req (after_failures url k rt s) = http_req s.
Proof.
  induction k as [|k IH]; intros rt s; cbn [after_failures].
  - repeat split; lia.
  - destruct (IH (rt * 2)%Q
                (with_trace (cons (EvSleep rt))
                   (with_trace (cons EvClose)
                      (with_trace (cons (EvGet PageGet (1 + get_count s) url []))
                         (with_get_count (Z.add 1) s))))) as (H1 & H2 & H3 & H4).
    rewrite H1, H2, H3, H4. cbn [get_count objects metadata http_req with_trace with_get_count].
    repeat split; lia.
Qed.

(** The loop on one page absorbs answers of 500 as long as the retry time
    has not passed one minute. *)
Lemma retry_loop_absorbs k : forall fuel url total rt s,
  (forall i, (i < k)%nat ->
     status_code (remote (1 + Z.of_nat i + get_count s) (base_url +:+ url) []) = 500%Z) ->
  (forall i, (i < k)%nat -> Qle_bool (doubled i rt) 60 = true) ->
  retry_loop remote clock (k + fuel) (JStr url) total rt s =
    retry_loop remote clock fuel (JStr url) total (doubled k rt)
      (after_failures (base_url +:+ url) k rt s).
Proof.
  induction k as [|k IH]; intros fuel url total rt s H500 Hrt; [reflexivity|].
  cbn [Nat.add after_failures doubled]. rewrite retry_loop_500.
  2:{ exact (H500 0%nat ltac:(lia)). }
  cbn zeta. pose proof (Hrt 0%nat ltac:(lia)) as Hrt0. cbn [doubled] in Hrt0.
  rewrite Hrt0. cbn [negb].
  apply IH.
  - intros i Hi. cbn [get_count with_trace with_get_count].
    replace (1 + Z.of_nat i + (1 + get_count s))%Z
      with (1 + Z.of_nat (S i) + get_count s)%Z by lia.
    apply H500. lia.
  - intros i Hi. exact (Hrt (S i) ltac:(lia)).
Qed.

(** X9. Up to six answers of 500 in a row are survived: when the first [k]
    requests of a page are answered 500, [k] at most six, the loop on the
    page goes on with the next request exactly as a fresh loop would,
    [k] requests later, after closing the connection and sleeping after
    each failure; the retry time started at 1.875 seconds and doubled each
    time, and nothing was written to the cache. *)
Theorem retry_survives_500s k fuel url total s :
  (k <= 6)%nat ->
  (forall i, (i < k)%nat ->
     status_code (remote (1 + Z.of_nat i + get_count s) (base_url +:+ url) []) = 500%Z) ->
  let s' := after_failures (base_url +:+ url) k (15 # 8) s in
  retry_loop remote clock (k + fuel) (JStr url) total (15 # 8) s =
    retry_loop remote clock fuel (JStr url) total (doubled k (15 # 8)) s' /\
  get_count s' = (Z.of_nat k + get_count s)%Z /\
  sleeps_of (trace s') =
    List.rev (firstn k [15 # 8; 30 # 8; 60 # 8; 120 # 8; 240 # 8; 480 # 8]) ++
    sleeps_of (trace s) /\
  objects s' = objects s /\ metadata s' = metadata s.
Proof.
  intros Hk H500 s'.
  destruct (after_failures_fields (base_url +:+ url) k (15 # 8) s) as (H1 & H2 & H3 & _).
  split; [|split; [exact H1|split; [|split; [exact H2|exact H3]]]].
  - apply retry_loop_absorbs; [exact H500|].
    intros i Hi.
    destruct i as [|[|[|[|[|[|i]]]]]]; try reflexivity. lia.
  - unfold s'. clear -Hk.
    destruct k as [|[|[|[|[|[|[|k]]]]]]]; try reflexivity. lia.
Qed.

Lemma page_loop_done fuel total : page_loop remote clock fuel JNull total = ret tt.
Proof. now destruct fuel. Qed.

(** The loop that stores the objects of a page. *)
Lemma for_each_put_fetched l rs :
  Forall2 storable l rs -> NoDup (List.map obj_path rs) ->
  forall s, exists s',
    for_each (put_fetched clock) l s = Ok tt s' /\ same_wire s s' /\
    Forall2 (fun o r => objects s' !! obj_path r = Some o /\ memcache s' !! r = Some o) l rs /\
    (forall p, p ∉ List.map obj_path rs -> objects s' !! p = objects s !! p) /\
    (forall k, k ∉ rs -> memcache s' !! k = memcache s !! k) /\
    keeps_metadata s s'.
Proof.
  induction 1 as [|o r l rs (Hr & Hs & He) Hrest IH]; intros Hnd s.
  - exists s. split; [reflexivity|]. split; [reflexivity|]. split; [constructor|].
    split; [reflexivity|]. split; [reflexivity|]. intros d m Hd. exact Hd.
  - cbn [List.map] in Hnd. apply NoDup_cons in Hnd as [Hfresh Hnd].
    assert (Hget : Py.getitem o "resource_uri" = Val (JStr r)).
    { unfold resource_uri_of in Hr.
      destruct (Py.getitem o "resource_uri") as [[| | |x| |]|]; try discriminate.
      now injection Hr as ->. }
    destruct (put_object_run clock (mkURI r []) o s Hs He)
      as (s1 & Hput & Ho1 & Hm1 & Hw1 & Hk1 & _).
    cbn [uri] in Ho1, Hm1.
    destruct (IH Hnd s1) as (s' & Hrun & Hw & Hall & Hfo & Hfm & Hk).
    exists s'. split; [|split; [|split; [|split; [|split]]]].
    + cbn [for_each].
      assert (Hone : put_fetched clock o s = Ok tt s1).
      { unfold put_fetched. run_m. rewrite Hget. exact Hput. }
      unfold bind. rewrite Hone. exact Hrun.
    + etransitivity; eassumption.
    + constructor; [|exact Hall]. split.
      * rewrite (Hfo _ Hfresh), Ho1. apply lookup_insert_eq.
      * rewrite Hfm, Hm1; [apply lookup_insert_eq|].
        intros Hin. apply Hfresh. apply list_elem_of_In, in_map, list_elem_of_In, Hin.
    + intros p Hp. apply not_elem_of_cons in Hp as [Hne Hp].
      rewrite (Hfo _ Hp), Ho1. now apply lookup_insert_ne.
    + intros k Hk'. apply not_elem_of_cons in Hk' as [Hne Hk'].
      rewrite (Hfm _ Hk'), Hm1. now apply lookup_insert_ne.
    + intros d m Hd. apply Hk, Hk1, Hd.
Qed.

(** X10. The objects of a page are stored each under its own URI.  When
    the first page of a collection fetch answers 200 and is the last one
    ([next] is null), and its objects carry resource URIs that begin and
    end with a slash and name distinct cache files, the fetch returns after
    this one GET, every object of the page is in its own file and in the
    lookaside cache under its [resource_uri], and no other object file has
    changed. *)
Theorem last_page_is_stored fuel u t s meta l total rs :
  let url := base_url +:+ first_page u in
  let r := remote (1 + get_count s) url [] in
  status_code r = 200%Z ->
  Py.getitem (json r) "meta" = Val meta ->
  Py.getitem (json r) "objects" = Val (JList l) ->
  Py.getitem meta "next" = Val JNull ->
  Py.getitem meta "total_count" = Val total ->
  Forall2 storable l rs ->
  NoDup (List.map obj_path rs) ->
  exists s',
    _cache_put_objects remote clock (S fuel) u t s = Ok tt s' /\
    trace s' = EvGet PageGet (1 + get_count s) url [] :: rate_limit_events s ++ trace s /\
    get_count s' = (1 + get_count s)%Z /\
    Forall2 (fun o r => objects s' !! obj_path r = Some o /\ memcache s' !! r = Some o) l rs /\
    (forall p, p ∉ List.map obj_path rs -> objects s' !! p = objects s !! p).
Proof.
  intros url r H200 Hmeta Hobjs Hnext Htotal Hst Hnd.
  rewrite put_objects_first. cbn [page_loop].
  unfold bind at 1. rewrite rate_limit_run.
  set (s0 := if ((1 + http_req s) mod 100 =? 0)%Z
             then with_trace (cons EvClose) (with_http_req (Z.add 1) s)
             else with_http_req (Z.add 1) s).
  assert (Hs0 : get_count s0 = get_count s /\ objects s0 = objects s /\
                trace s0 = rate_limit_events s ++ trace s).
  { unfold s0, rate_limit_events. destruct ((1 + http_req s) mod 100 =? 0)%Z; repeat split. }
  destruct Hs0 as (Hg0 & Ho0 & Ht0).
  unfold bind at 1. rewrite retry_loop_get. cbn zeta. rewrite Hg0. fold url r.
  rewrite H200. cbn [Z.eqb Pos.eqb].
  set (s1 := with_trace (cons (EvGet PageGet (1 + get_count s) url []))
               (with_get_count (Z.add 1) s0)).
  destruct (for_each_put_fetched l rs Hst Hnd s1) as (s' & Hrun & Hw & Hall & Hfo & _ & _).
  exists s'. split; [|split; [|split; [|split]]].
  - unfold bind at 1. rewrite Hmeta. cbn [lift ret].
    unfold bind at 1. rewrite Hobjs. cbn [lift ret].
    unfold bind at 1. rewrite Hnext. cbn [lift ret].
    unfold bind at 1. cbn [iter_objects ret].
    unfold bind at 1. rewrite Hrun.
    unfold bind at 1. rewrite Htotal. cbn [lift ret].
    now rewrite page_loop_done.
  - destruct Hw as (-> & _). unfold s1. cbn [trace with_trace with_get_count].
    now rewrite Ht0.
  - destruct Hw as (_ & -> & _). unfold s1. cbn [get_count with_trace with_get_count].
    now rewrite Hg0.
  - exact Hall.
  - intros p Hp. rewrite (Hfo p Hp). unfold s1.
    cbn [objects with_trace with_get_count]. now rewrite Ho0.
Qed.

End Fetcher.

Lemma first_page_error_is_fatal_witness :
  exists s',
    _cache_put_objects Demo3.remote_corrupt Demo.clock_0 1
      (mkURI "/api/v1/doc/state/" [("offset", JInt 100)]) Demo3.state_collection init = Exit s' /\
    get_count s' = 1%Z /\ objects s' = ∅.
Proof.
  destruct (first_page_error_is_fatal Demo3.remote_corrupt Demo.clock_0 0
              (mkURI "/api/v1/doc/state/" [("offset", JInt 100)]) Demo3.state_collection init)
    as (s' & Hrun & _ & Hg & Ho & _).
  - vm_compute. discriminate.
  - vm_compute. discriminate.
  - exists s'. split; [exact Hrun|]. split; [exact Hg|exact Ho].
Defined.

Lemma retry_survives_500s_witness :
  retry_loop Demo3.remote_flaky Demo.clock_0 (1 + 1) (JStr "/api/v1/doc/state/?limit=100")
    JNull (15 # 8) init =
  retry_loop Demo3.remote_flaky Demo.clock_0 1 (JStr "/api/v1/doc/state/?limit=100") JNull
    (doubled 1 (15 # 8))
    (after_failures "https://datatracker.ietf.org/api/v1/doc/state/?limit=100" 1 (15 # 8) init).
Proof.
  refine (proj1 (retry_survives_500s Demo3.remote_flaky Demo.clock_0 1 1
                   "/api/v1/doc/state/?limit=100" JNull init _ _)).
  - lia.
  - intros i Hi. assert (i = 0%nat) as -> by lia. reflexivity.
Defined.

Lemma last_page_is_stored_witness :
  exists s',
    _cache_put_objects Demo2.remote Demo.clock_0 1 Demo2.draft_query
      (mkURI Demo2.state_uri []) init = Ok tt s' /\
    objects s' !! "api/v1/doc/state/1.json" = Some (Demo2.state_obj 1 "active" "draft") /\
    objects s' !! "api/v1/doc/state/2.json" = Some (Demo2.state_obj 2 "expired" "draft").
Proof.
  destruct (last_page_is_stored Demo2.remote Demo.clock_0 0 Demo2.draft_query
              (mkURI Demo2.state_uri []) init
              (JDict [("next", JNull); ("total_count", JInt 2)])
              [Demo2.state_obj 2 "expired" "draft"; Demo2.state_obj 1 "active" "draft"]
              (JInt 2) ["/api/v1/doc/state/2/"; "/api/v1/doc/state/1/"])
    as (s' & Hrun & _ & _ & Hall & _); try reflexivity.
  - repeat constructor.
  - refine (bool_decide_unpack _ _). vm_compute. exact I.
  - exists s'. split; [exact Hrun|].
    apply Forall2_cons_1 in Hall as [[H2 _] Hall].
    apply Forall2_cons_1 in Hall as [[H1 _] _].
    split; [exact H1|exact H2].
Defined.

(** ** The metadata files over the life of a cache directory *)

Lemma meta_step_created ms ms' d m :
  meta_step ms ms' -> ms !! d = Some m ->
  exists m', ms' !! d = Some m' /\ created m' = created m.
Proof.
  intros Hstep Hm.
  destruct Hstep as [d0 c ms H0|d0 m0 q ms H0 _ _ _|d0 m0 now ms H0|d0 m0 now ms H0];
    (destruct (decide (d0 = d)) as [->|Hne];
     [rewrite lookup_insert_eq|rewrite lookup_insert_ne by exact Hne; eauto]).
  - congruence.
  - rewrite Hm in H0. injection H0 as <-. eauto.
  - rewrite Hm in H0. injection H0 as <-. eauto.
  - rewrite Hm in H0. injection H0 as <-. eauto.
Qed.

Lemma meta_steps_created ms ms' d m :
  rtc meta_step ms ms' -> ms !! d = Some m ->
  exists m', ms' !! d = Some m' /\ created m' = created m.
Proof.
  intros Hsteps. revert m. induction Hsteps as [|ms1 ms2 ms3 H12 _ IH]; intros m Hm; [eauto|].
  destruct (meta_step_created _ _ _ _ H12 Hm) as (m2 & Hm2 & Hc2).
  destruct (IH m2 Hm2) as (m3 & Hm3 & Hc3). exists m3. split; [exact Hm3|congruence].
Qed.



Section Refresh.

Context (remote : Z -> string -> list (string * Json) -> Response) (clock : nat -> Z)
  (hints : string -> option CacheHints) (strftime : Z -> string).

(** X12. [_cache_update] on metadata that is less than an hour old, for a
    type that is fully cached or has at most 100 recorded queries, reads the
    clock once and does nothing else: it needs no fuel, sends nothing, and
    leaves the metadata and the object files as they are.  With exactly 100
    recorded queries the type is not yet promoted. *)
Theorem update_fresh_is_idle fuel t s m :
  metadata s !! dir_path (uri t) = Some m ->
  partial m = false \/ (List.length (queries m) <= 100)%nat ->
  stale clock s m = false ->
  exists s',
    _cache_update remote clock hints strftime fuel t s = Ok tt s' /\
    same_wire s s' /\ metadata s' = metadata s /\ objects s' = objects s /\
    memcache s' = memcache s /\ now_calls s' = S (now_calls s).
Proof.
  intros Hm Hsmall Hfresh.
  assert (Hnp : partial m && (100 <? List.length (queries m))%nat = false).
  { destruct Hsmall as [->|Hle]; [reflexivity|].
    apply andb_false_intro2. now apply Nat.ltb_ge. }
  rewrite (cache_update_no_promotion remote clock hints strftime fuel t s m Hm Hnp).
  cbn zeta. rewrite Hfresh.
  destruct (ensure_dir_fields (dir_path (uri t)) s) as (E1 & E2 & E3 & E4 & E5 & E6 & E7).
  eexists. split; [reflexivity|].
  cbn [trace get_count http_req metadata objects memcache now_calls with_now_calls].
  unfold same_wire. cbn [trace get_count http_req with_now_calls].
  rewrite E1, E2, E3, E4, E5, E6, E7. repeat split.
Qed.


End Refresh.

Lemma update_fresh_is_idle_witness :
  exists s',
    _cache_update Demo.remote_500 Demo.clock_0 registry_hints Demo.strftime 0
      (mkURI Demo.person_uri []) Demo.person_partial = Ok tt s' /\
    trace s' = [].
Proof.
  destruct (update_fresh_is_idle Demo.remote_500 Demo.clock_0 registry_hints Demo.strftime 0
              (mkURI Demo.person_uri []) Demo.person_partial (mkCacheMetadata 0 0 true []))
    as (s' & Hrun & (Ht & _) & _).
  - reflexivity.
  - right. cbn. lia.
  - reflexivity.
  - exists s'. split; [exact Hrun|exact Ht].
Defined.


(** ** Answering a query from disk: which objects, in which order *)

Lemma ltb_leb a b : String.ltb a b = true -> String.leb a b = true.
Proof. unfold String.ltb, String.leb. now destruct (String.compare a b). Qed.

Lemma not_ltb_leb a b : String.ltb a b = false -> String.leb b a = true.
Proof.
  unfold String.ltb, String.leb. rewrite (String.compare_antisym a b).
  now destruct (String.compare b a).
Qed.

Lemma insert_by_key_perm {A} (x : string * A) l : insert_by_key x l ≡ₚ x :: l.
Proof.
  induction l as [|y l IH]; [reflexivity|]. cbn [insert_by_key].
  destruct (String.ltb y.1 x.1); [|reflexivity].
  rewrite IH. apply perm_swap.
Qed.

Lemma insert_by_key_desc_perm {A} (x : string * A) l : insert_by_key_desc x l ≡ₚ x :: l.
Proof.
  induction l as [|y l IH]; [reflexivity|]. cbn [insert_by_key_desc].
  destruct (String.ltb x.1 y.1); [|reflexivity].
  rewrite IH. apply perm_swap.
Qed.

Lemma py_sort_perm {A} rev (l : list (string * A)) : py_sort rev l ≡ₚ l.
Proof.
  unfold py_sort, sort_by_key. destruct rev; induction l as [|x l IH]; try reflexivity;
    cbn [fold_right].
  - rewrite insert_by_key_desc_perm. now constructor.
  - rewrite insert_by_key_perm. now constructor.
Qed.

Lemma in_order_cons rev k l :
  in_order rev (k :: l) =
    match l with
    | [] => true
    | k2 :: _ => (if rev then String.leb k2 k else String.leb k k2) && in_order rev l
    end.
Proof. now destruct l. Qed.

Lemma insert_by_key_order {A} (x : string * A) l :
  in_order false (List.map fst l) = true ->
  in_order false (List.map fst (insert_by_key x l)) = true.
Proof.
  induction l as [|y l IH]; [reflexivity|]. intros Hl. cbn [insert_by_key].
  destruct (String.ltb y.1 x.1) eqn:Hyx.
  - cbn [List.map] in *. rewrite in_order_cons in Hl. rewrite in_order_cons.
    destruct l as [|z l].
    + cbn [insert_by_key List.map]. cbn [in_order andb]. now rewrite (ltb_leb _ _ Hyx).
    + cbn [List.map] in Hl. apply andb_prop in Hl as [Hyz Hl].
      specialize (IH Hl). cbn [insert_by_key] in *.
      destruct (String.ltb z.1 x.1); cbn [List.map] in *.
      * now rewrite Hyz, IH.
      * now rewrite (ltb_leb _ _ Hyx), IH.
  - cbn [List.map] in *. rewrite in_order_cons. cbn [List.map].
    now rewrite (not_ltb_leb _ _ Hyx), Hl.
Qed.

Lemma insert_by_key_desc_order {A} (x : string * A) l :
  in_order true (List.map fst l) = true ->
  in_order true (List.map fst (insert_by_key_desc x l)) = true.
Proof.
  induction l as [|y l IH]; [reflexivity|]. intros Hl. cbn [insert_by_key_desc].
  destruct (String.ltb x.1 y.1) eqn:Hxy.
  - cbn [List.map] in *. rewrite in_order_cons in Hl. rewrite in_order_cons.
    destruct l as [|z l].
    + cbn [insert_by_key_desc List.map]. cbn [in_order andb]. now rewrite (ltb_leb _ _ Hxy).
    + cbn [List.map] in Hl. apply andb_prop in Hl as [Hyz Hl].
      specialize (IH Hl). cbn [insert_by_key_desc] in *.
      destruct (String.ltb x.1 z.1); cbn [List.map] in *.
      * now rewrite Hyz, IH.
      * now rewrite (ltb_leb _ _ Hxy), IH.
  - cbn [List.map] in *. rewrite in_order_cons. cbn [List.map].
    now rewrite (not_ltb_leb _ _ Hxy), Hl.
Qed.

Lemma py_sort_order {A} rev (l : list (string * A)) :
  in_order rev (List.map fst (py_sort rev l)) = true.
Proof.
  unfold py_sort, sort_by_key. destruct rev; induction l as [|x l IH]; try reflexivity;
    cbn [fold_right].
  - now apply insert_by_key_desc_order.
  - now apply insert_by_key_order.
Qed.

Section Scan.

Context (remote : Z -> string -> list (string * Json) -> Response) (clock : nat -> Z)
  (hs : string -> option CacheHints).

(** The scan keeps, with each object, the key computed from it. *)
Lemma scan_loop_keys hints q t files : forall results s res s',
  Forall (fun ko => sort_key_loop ko.2 (sort_by hints) "" = Val ko.1) results ->
  scan_loop remote clock hs hints q t files results s = Ok res s' ->
  Forall (fun ko => sort_key_loop ko.2 (sort_by hints) "" = Val ko.1) res.
Proof.
  induction files as [|name files IH]; intros results s res s' Hres H; cbn [scan_loop] in H.
  - now injection H as <- <-.
  - destruct (String.eqb name "_cache_info.json"); [exact (IH _ _ _ _ Hres H)|].
    apply bind_Ok in H as ([o|] & s1 & _ & H); [|discriminate].
    apply bind_Ok in H as (m & s2 & _ & H). destruct m; [|exact (IH _ _ _ _ Hres H)].
    apply bind_Ok in H as (k & s3 & Hk & H).
    destruct (sort_key_loop o (sort_by hints) "") as [k'|] eqn:Hkey; [|discriminate].
    injection Hk as <- <-.
    apply (IH _ _ _ _) in H; [exact H|].
    apply Forall_app. split; [exact Hres|]. now repeat constructor.
Qed.

(** X14. The answer of [_cache_get_objects] is in the order of the sort
    keys: each object returned has a sort key, built from its [sort_by]
    fields, and the keys of the objects as returned are ascending, or
    descending for a type whose hints say [reverse]. *)
Theorem get_objects_in_key_order q t h s rs s' :
  hs (uri t) = Some h ->
  _cache_get_objects remote clock hs q t s = Ok rs s' ->
  exists keys,
    Forall2 (fun o k => sort_key_loop o (sort_by h) "" = Val k) rs keys /\
    in_order (reverse h) keys = true.
Proof.
  intros Hh H. unfold _cache_get_objects, hints_for in H. rewrite Hh in H.
  apply bind_Ok in H as (h' & s0 & [= <- <-] & H).
  apply bind_Ok in H as (files & s1 & _ & H).
  apply bind_Ok in H as (res & s2 & Hscan & [= <- <-]).
  apply scan_loop_keys in Hscan; [|constructor].
  exists (List.map fst (py_sort (reverse h) res)). split; [|apply py_sort_order].
  assert (Hall : Forall (fun ko => sort_key_loop ko.2 (sort_by h) "" = Val ko.1)
                   (py_sort (reverse h) res)).
  { eapply Permutation_Forall; [|exact Hscan]. symmetry. apply py_sort_perm. }
  induction Hall as [|ko l Hko _ IH]; constructor; assumption.
Qed.

(** The scan reads each file through the same view, and keeps the objects
    that answer the query. *)
Lemma scan_loop_exact hints q t s files : forall results s0 res s',
  (forall h, hs (uri q) = Some h -> no_deref h q = true) ->
  (forall u, cache_view s0 u = cache_view s u) ->
  scan_loop remote clock hs hints q t files results s0 = Ok res s' ->
  List.map snd res = List.map snd results ++ omap (scanned remote clock hs q t s) files.
Proof.
  induction files as [|name files IH]; intros results s0 res s' Hnd Hview H;
    cbn [scan_loop] in H.
  - injection H as <- <-. cbn. now rewrite app_nil_r.
  - cbn [omap list_omap]. unfold scanned at 1.
    destruct (String.eqb name "_cache_info.json"); [exact (IH _ _ _ _ Hnd Hview H)|].
    destruct (get_object_view (mkURI (uri t +:+ PyStr.drop_last 5 name +:+ "/") []) s0)
      as (sa & Hget & Hq).
    rewrite (bind_run _ _ _ _ _ Hget) in H. cbn [uri] in H.
    rewrite <- (Hview (uri t +:+ PyStr.drop_last 5 name +:+ "/")).
    destruct (cache_view s0 (uri t +:+ PyStr.drop_last 5 name +:+ "/")) as [o|];
      [|discriminate].
    destruct (obj_matches_pure remote clock hs o q Hnd) as [rm Hrm].
    rewrite (bind_pure _ _ rm Hrm) in H. rewrite (Hrm s).
    assert (Hview' : forall u', cache_view sa u' = cache_view s u').
    { intros u'. destruct Hq as (_ & _ & _ & _ & ->). apply Hview. }
    destruct rm as [[|]| |e]; cbn [embed]; try discriminate.
    + apply bind_Ok in H as (k & sb & Hk & H).
      destruct (sort_key_loop o (sort_by hints) "") as [k'|]; [|discriminate].
      injection Hk as <- <-.
      rewrite (IH _ _ _ _ Hnd Hview' H), map_app, <- app_assoc. reflexivity.
    + exact (IH _ _ _ _ Hnd Hview' H).
Qed.

(** X15. The answer of [_cache_get_objects] is exactly the stored objects
    of the type that answer the query: for a query that is matched locally
    (no [deref] parameter), the objects returned are, up to their order,
    those read from the files of the directory of the type, the metadata
    file apart, on which [_cache_obj_matches] returns true; each is returned
    once for each file that holds it. *)
Theorem get_objects_exact q t s rs s' :
  (forall h, hs (uri q) = Some h -> no_deref h q = true) ->
  _cache_get_objects remote clock hs q t s = Ok rs s' ->
  rs ≡ₚ omap (scanned remote clock hs q t s) (listdir s (dir_path (uri t))).
Proof.
  intros Hnd H. unfold _cache_get_objects in H.
  apply bind_Ok in H as (h & s0 & Hh & H).
  assert (s0 = s) as ->.
  { unfold hints_for in Hh. destruct (hs (uri t)); [now injection Hh|discriminate]. }
  apply bind_Ok in H as (files & s1 & [= <- <-] & H).
  apply bind_Ok in H as (res & s2 & Hscan & [= <- <-]).
  apply (scan_loop_exact h q t s _ [] s res s2 Hnd (fun _ => eq_refl)) in Hscan.
  cbn [List.map app] in Hscan. rewrite <- Hscan.
  apply Permutation_map, py_sort_perm.
Qed.

End Scan.

Lemma get_objects_in_key_order_witness :
  exists keys,
    Forall2 (fun o k => sort_key_loop o ["order"; "id"; "slug"] "" = Val k)
      [Demo2.state_obj 1 "active" "draft"; Demo2.state_obj 2 "expired" "draft"] keys /\
    in_order false keys = true.
Proof.
  apply (get_objects_in_key_order Demo2.remote Demo.clock_0 registry_hints
           Demo2.draft_query (mkURI Demo2.state_uri [])
           (mkCacheHints [] ["type"] ["order"; "id"; "slug"] false false)
           Demo2.after_draft_query _
           (match final (_cache_get_objects Demo2.remote Demo.clock_0 registry_hints
                           Demo2.draft_query (mkURI Demo2.state_uri [])
                           Demo2.after_draft_query) with
            | Some x => x
            | None => init
            end)).
  - reflexivity.
  - vm_compute. reflexivity.
Defined.

Lemma get_objects_exact_witness :
  [Demo2.state_obj 1 "active" "draft"; Demo2.state_obj 2 "expired" "draft"] ≡ₚ
  omap (scanned Demo2.remote Demo.clock_0 registry_hints Demo2.draft_query
          (mkURI Demo2.state_uri []) Demo2.after_draft_query)
    (listdir Demo2.after_draft_query (dir_path Demo2.state_uri)).
Proof.
  apply (get_objects_exact Demo2.remote Demo.clock_0 registry_hints
           Demo2.draft_query (mkURI Demo2.state_uri []) Demo2.after_draft_query _
           (match final (_cache_get_objects Demo2.remote Demo.clock_0 registry_hints
                           Demo2.draft_query (mkURI Demo2.state_uri [])
                           Demo2.after_draft_query) with
            | Some x => x
            | None => init
            end)).
  - intros h. vm_compute. intros [= <-]. reflexivity.
  - vm_compute. reflexivity.
Defined.

(** ** Listings: what goes over the wire, and the parameter that is never
    optional *)

#[global] Instance trace_extends_frame : FrameRel trace_extends.
Proof.
  split; try (intros f s; now exists []).
  split.
  - intros s. now exists [].
  - intros s1 s2 s3 [e1 H1] [e2 H2]. exists (e2 ++ e1). now rewrite H2, H1, app_assoc.
Qed.

#[global] Instance trace_extends_meta : MetaRel trace_extends.
Proof. intros s ms' _. now exists []. Qed.

#[global] Instance trace_extends_trace : TraceRel trace_extends.
Proof. intros s e. now exists [e]. Qed.

#[global] Instance trace_extends_item : ItemTraceRel trace_extends.
Proof. intros s e _. now exists [e]. Qed.

Create HintDb fetch.

#[global] Hint Resolve session_get_preserves session_close_preserves time_sleep_preserves
  rate_limit_preserves put_fetched_preserves iter_objects_preserves
  isolate_bad_request_preserves retry_loop_preserves page_loop_preserves
  put_objects_preserves record_query_preserves get_objects_preserves : fetch.

(** One step of a proof that a piece of the collection fetch keeps a
    relation. *)
Ltac fetch_step :=
  match goal with
  | |- preserves _ (bind _ _) => apply preserves_bind; [|intros]
  | |- preserves _ (if ?b then _ else _) => destruct b
  | |- preserves _ (match ?x with _ => _ end) => destruct x
  | |- preserves _ (for_each _ _) => apply preserves_for_each; intros
  | |- preserves _ _ => solve [eauto with pres fetch typeclass_instances]
  end.
Ltac fetch := repeat fetch_step.

Lemma bind_assoc_run {A B C} (m : M A) (k1 : A -> M B) (k2 : B -> M C) s :
  bind (bind m k1) k2 s = bind m (fun a => bind (k1 a) k2) s.
Proof. unfold bind. now destruct (m s). Qed.

Lemma bind_from {A B} (m m' : M A) (k : A -> M B) s s1 :
  m s = m' s1 -> bind m k s = bind m' k s1.
Proof. intros H. unfold bind. now rewrite H. Qed.

Lemma copy_params_none ps : forall acc,
  existsb (fun kv => is_none (snd kv)) ps = true -> copy_params ps acc = Err AssertionError.
Proof.
  induction ps as [|[k v] ps IH]; intros acc H; [discriminate|].
  cbn [existsb snd] in H. cbn [copy_params].
  destruct v; try reflexivity; cbn [is_none orb] in H; apply IH, H.
Qed.

Lemma dict_set_none {V} k (v : V) (f : V -> bool) d :
  f v = true -> existsb (fun kv => f (snd kv)) (dict_set k v d) = true.
Proof.
  intros Hv. induction d as [|[k' v'] d IH]; cbn [dict_set existsb snd].
  - now rewrite Hv.
  - destruct (String.eqb k k'); cbn [existsb snd]; [now rewrite Hv|].
    rewrite IH. apply orb_true_r.
Qed.

Section Listings.

Context (remote : Z -> string -> list (string * Json) -> Response) (clock : nat -> Z)
  (hs : string -> option CacheHints) (strftime : Z -> string).

(** X16. [document_events] called without an event type fails: the
    parameter [type] is assigned even when it is [None], and the first
    thing [_retrieve_multi] does with the parameters is to assert that none
    is [None].  Whatever the other arguments, the result raises
    [AssertionError] when it is consumed, and the object, its cache
    directory and the remote have seen nothing. *)
Theorem document_events_needs_type fuel since until doc by_ s :
  document_events remote clock hs strftime fuel since until doc by_ None s =
    Raise AssertionError s.
Proof.
  unfold document_events, DocumentEventURI. run_m.
  change (PyStr.startswith "/api/v1/doc/docevent/" "/api/v1/doc/docevent/") with true.
  cbv iota beta. unfold _retrieve_multi, strip_time.
  rewrite copy_params_none; [reflexivity|].
  unfold set_param at 1. cbn [params]. now apply dict_set_none.
Qed.

(** What a query on a type that was never cached sends first. *)
Lemma retrieve_multi_first_get fuel q cq s s' :
  strip_time q = Val cq ->
  metadata s !! dir_path (uri q) = None ->
  final (_retrieve_multi remote clock hs strftime (S fuel) q s) = Some s' ->
  exists evs,
    trace s' = evs ++ EvGet PageGet (1 + get_count s) (base_url +:+ first_page cq) []
                        :: rate_limit_events s ++ trace s.
Proof.
  intros Hcq Hnone H.
  set (t := mkURI (uri q) []).
  destruct (create_fields clock t s) as (s1 & Hcreate & _ & _ & (Ht1 & Hg1 & Hh1) & _ & Hnew).
  specialize (Hnew Hnone).
  rewrite (retrieve_multi_run remote clock hs strftime (S fuel) q cq s s1 _ Hcq Hcreate Hnew)
    in H.
  rewrite bool_decide_eq_false_2 in H by (cbn [queries]; apply not_elem_of_nil).
  cbn [partial negb orb] in H. fold t in H.
  set (s2 := with_cache_req (Z.add 1) s1) in H.
  set (s3 := if ((1 + http_req s2) mod 100 =? 0)%Z
             then with_trace (cons EvClose) (with_http_req (Z.add 1) s2)
             else with_http_req (Z.add 1) s2).
  set (s4 := with_trace (cons (EvGet PageGet (1 + get_count s3)
                                 (base_url +:+ first_page cq) []))
               (with_get_count (Z.add 1) s3)).
  assert (Hfetch : _cache_put_objects remote clock (S fuel) cq t s2 =
            bind (retry_loop remote clock (S fuel) (JStr (first_page cq)) JNull (15 # 8))
              (fun nt => page_loop remote clock fuel nt.1 nt.2) s3).
  { rewrite put_objects_first. cbn [page_loop]. unfold bind at 1.
    rewrite rate_limit_run. fold s3. unfold bind.
    now destruct (retry_loop _ _ _ _ _ _ s3) as [[n tot] sx| | |]. }
  rewrite (bind_from _ _ _ _ _ Hfetch), bind_assoc_run in H.
  pose proof (retry_loop_get remote clock fuel (first_page cq) JNull (15 # 8) s3) as Hget.
  cbn zeta in Hget. fold s4 in Hget.
  rewrite (bind_from _ _ _ _ _ Hget) in H. clear Hget Hfetch.
  assert (Hext : trace_extends s4 s').
  { revert H. generalize (remote (1 + get_count s3) (base_url +:+ first_page cq) []).
    intros r H.
    eapply (preserves_bind (R := trace_extends)); [| |exact H].
    - fetch.
    - intros [n tot]. cbn [fst snd]. fetch. }
  destruct Hext as [evs Hevs]. exists evs. rewrite Hevs. unfold s4.
  cbn [trace with_trace with_get_count]. f_equal.
  assert (Hs3 : get_count s3 = get_count s /\ trace s3 = rate_limit_events s ++ trace s).
  { unfold s3, s2, rate_limit_events. cbn [http_req with_cache_req]. rewrite Hh1.
    destruct ((1 + http_req s) mod 100 =? 0)%Z;
      cbn [get_count trace with_trace with_http_req with_cache_req app];
      now rewrite Hg1, Ht1. }
  destruct Hs3 as [-> ->]. reflexivity.
Qed.

(** X17. A listing of people fetches without its time window.  On a cache
    directory that has nothing of the person type, the first request that
    [people] sends is for the whole collection, filtered by the name
    filters alone: neither [since] nor [until] goes over the wire, and they
    are applied to the stored objects afterwards.  The request follows the
    rate limiter, and every other event of the call comes after it. *)
Theorem people_fetch_ignores_window fuel since until name_contains ascii_contains s s' :
  metadata s !! "api/v1/person/person" = None ->
  final (people remote clock hs strftime (S fuel) since until name_contains ascii_contains s)
    = Some s' ->
  exists evs,
    trace s' =
      evs ++ EvGet PageGet (1 + get_count s)
               (base_url +:+ first_page (people_filters name_contains ascii_contains)) []
             :: rate_limit_events s ++ trace s.
Proof.
  intros Hnone H. unfold people, PersonURI in H. revert H. run_m.
  change (PyStr.startswith "/api/v1/person/person/" "/api/v1/person/person/") with true.
  cbv iota beta. cbn [orb]. intros H.
  destruct name_contains as [n|], ascii_contains as [a|];
    match type of H with
    | context [_retrieve_multi _ _ _ _ _ ?q s] =>
        eapply (retrieve_multi_first_get fuel q _ s s'); [reflexivity|exact Hnone|exact H]
    end.
Qed.

End Listings.

Lemma people_fetch_ignores_window_witness :
  let s' := match final (people Demo.remote_empty Demo.clock_0 registry_hints Demo.strftime 1
                           "2019-01-01T00:00:00" "2020-01-01T00:00:00" (Some "Perkins") None
                           init) with
            | Some x => x
            | None => init
            end in
  exists evs,
    trace s' =
      evs ++ [EvGet PageGet 1
                "https://datatracker.ietf.org/api/v1/person/person/?limit=100&name__contains=Perkins"
                []].
Proof.
  intros s'.
  apply (people_fetch_ignores_window Demo.remote_empty Demo.clock_0 registry_hints
           Demo.strftime 0 "2019-01-01T00:00:00" "2020-01-01T00:00:00" (Some "Perkins") None
           init s').
  - reflexivity.
  - vm_compute. reflexivity.
Defined.

(** ** From the object file back to the URI *)

Lemma file_in_dir_member (c name : string) :
  c <> "" -> PyStr.contains "/" name = false ->
  file_in_dir c ((c +:+ "/" +:+ name) +:+ ".json") = Some (name +:+ ".json").
Proof.
  intros Hc Hname. unfold file_in_dir.
  assert (Hpre : match c with EmptyString => EmptyString | _ => c +:+ "/" end = c +:+ "/")
    by (destruct c; [contradiction|reflexivity]).
  rewrite Hpre.
  replace ((c +:+ "/" +:+ name) +:+ ".json") with ((c +:+ "/") +:+ name +:+ ".json")
    by now rewrite !append_assoc.
  rewrite prefix_append.
  replace (String.length ((c +:+ "/") +:+ name +:+ ".json") - String.length (c +:+ "/"))%nat
    with (String.length (name +:+ ".json")) by (rewrite (length_append (c +:+ "/")); lia).
  rewrite substring_skip_append.
  change "/" with (String "/"%char "") at 1.
  rewrite contains_char_append.
  change (String "/"%char "") with "/". rewrite Hname. cbn [orb negb andb].
  change (PyStr.contains "/" ".json") with false. cbn [negb andb].
  now rewrite endswith_append.
Qed.

Section Listed.

Context (clock : nat -> Z).

(** X18. An object stored under [/<type>/<name>/] is found again by the
    scan of its type: after [_cache_put_object] returned, the directory of
    the type lists the file [<name>.json], the URI the scan rebuilds from
    that file name is the URI the object was stored under, and a lookup of
    that URI sees the object. *)
Theorem stored_object_is_listed (c name : string) (j : Json) (s s' : DataTracker) :
  c <> "" -> PyStr.contains "/" name = false ->
  let t := "/" +:+ c +:+ "/" in
  let u := t +:+ name +:+ "/" in
  _cache_put_object clock (mkURI u []) j s = Ok tt s' ->
  (name +:+ ".json") ∈ listdir s' (dir_path t) /\
  t +:+ PyStr.drop_last 5 (name +:+ ".json") +:+ "/" = u /\
  cache_view s' u = Some j.
Proof.
  intros Hc Hname t u Hput.
  apply put_object_Ok in Hput as (Hobj & Hmem & _). cbn [uri] in *.
  assert (Hdir : dir_path t = c) by apply strip_ends_slashes.
  assert (Hpath : obj_path u = (c +:+ "/" +:+ name) +:+ ".json").
  { unfold obj_path, u, t. f_equal.
    replace (("/" +:+ c +:+ "/") +:+ name +:+ "/") with ("/" +:+ (c +:+ "/" +:+ name) +:+ "/")
      by (now rewrite !append_assoc).
    apply strip_ends_slashes. }
  split; [|split].
  - unfold listdir. apply list_elem_of_omap. exists (obj_path u, j). split.
    + apply elem_of_map_to_list. rewrite Hobj. apply lookup_insert_eq.
    + cbn [fst]. rewrite Hdir, Hpath. now apply file_in_dir_member.
  - pose proof (drop_last_append name ".json") as Hdrop. cbn [String.length] in Hdrop.
    now rewrite Hdrop.
  - unfold cache_view. now rewrite Hmem, lookup_insert_eq.
Qed.

End Listed.

Lemma stored_object_is_listed_witness :
  let s' := match final (_cache_put_object Demo.clock_0 (mkURI "/api/v1/doc/state/1/" [])
                           (Demo2.state_obj 1 "active" "draft") init) with
            | Some x => x
            | None => init
            end in
  ("1" +:+ ".json") ∈ listdir s' (dir_path ("/" +:+ "api/v1/doc/state" +:+ "/")) /\
  ("/" +:+ "api/v1/doc/state" +:+ "/") +:+ PyStr.drop_last 5 ("1" +:+ ".json") +:+ "/" =
    ("/" +:+ "api/v1/doc/state" +:+ "/") +:+ "1" +:+ "/" /\
  cache_view s' (("/" +:+ "api/v1/doc/state" +:+ "/") +:+ "1" +:+ "/") =
    Some (Demo2.state_obj 1 "active" "draft").
Proof.
  intros s'.
  apply (stored_object_is_listed Demo.clock_0 "api/v1/doc/state" "1"
           (Demo2.state_obj 1 "active" "draft") init s').
  - discriminate.
  - reflexivity.
  - vm_compute. reflexivity.
Defined.

(** ** Recording a query, and looking up without metadata *)

(** X19. Recording is idempotent: a query that [_cache_record_query] has
    just recorded, or found recorded, or did not record because the type is
    fully cached, is not recorded again; the second call returns and leaves
    the state as it is. *)
Theorem record_query_is_idempotent u t s s1 :
  _cache_record_query u t s = Ok tt s1 ->
  _cache_record_query u t s1 = Ok tt s1.
Proof.
  unfold _cache_record_query, _cache_load_metadata, _cache_save_metadata. run_m.
  destruct (negb (PyStr.contains "?" (uri u))); run_m; [|discriminate].
  destruct (metadata s !! dir_path (uri t)) as [m|] eqn:Hm; run_m; [|discriminate].
  destruct (partial m) eqn:Hp; run_m.
  - destruct (strip_time u) as [cu|]; run_m; [|discriminate].
    case_bool_decide as Hin; run_m; intros [= <-].
    + rewrite Hm. run_m. rewrite Hp. run_m. now rewrite bool_decide_eq_true_2.
    + cbn [metadata with_metadata]. rewrite lookup_insert_eq. run_m. cbn [partial queries].
      rewrite ?Hp. run_m. rewrite bool_decide_eq_true_2; [reflexivity|].
      apply elem_of_app. right. now apply list_elem_of_singleton.
  - intros [= <-]. rewrite Hm. run_m. now rewrite Hp.
Qed.

Lemma record_query_is_idempotent_witness :
  let u := Demo2.draft_query in
  let t := mkURI Demo2.state_uri [] in
  let s1 := match final (_cache_record_query u t Demo2.after_draft_query) with
            | Some x => x
            | None => init
            end in
  _cache_record_query u t s1 = Ok tt s1.
Proof.
  intros u t s1.
  apply (record_query_is_idempotent u t Demo2.after_draft_query s1).
  vm_compute. reflexivity.
Defined.

Section NoMetadata.

Context (remote : Z -> string -> list (string * Json) -> Response) (clock : nat -> Z).

(** X20. [_retrieve_json] relies on the metadata of the parent type: for
    an object that is neither in the lookaside cache nor on disk, when the
    directory of the parent type has no metadata file, the lookup raises
    [FileNotFoundError] before any request is prepared; only the count of
    cache requests has moved. *)
Theorem retrieve_json_needs_metadata u s :
  memcache s !! uri u = None ->
  objects s !! obj_path (uri u) = None ->
  metadata s !! dir_path (uri (_parent_uri u)) = None ->
  _retrieve_json remote clock u s = Raise FileNotFoundError (with_cache_req (Z.add 1) s).
Proof.
  intros Hmem Hobj Hm.
  assert (Hhas : forall s0, memcache s0 = memcache s -> objects s0 = objects s ->
                            metadata s0 = metadata s ->
                            _cache_has_object u s0 = Raise FileNotFoundError s0).
  { intros s0 E1 E2 E3.
    unfold _cache_has_object, _memcache_has_object, _cache_has_all_objects,
      _cache_load_metadata. run_m.
    rewrite E1, Hmem, bool_decide_eq_false_2 by (intros [? [=]]).
    rewrite E2, Hobj, bool_decide_eq_false_2 by (intros [? [=]]).
    now rewrite E3, Hm. }
  unfold _retrieve_json. run_m. now rewrite Hhas.
Qed.

(** X21. In the isolation loop every single-item GET goes through the rate
    limiter: however the loop ends, the count of rate-limited requests and
    the count of GETs have advanced by the same amount, which is at most the
    length of the range. *)
Theorem isolate_loop_is_rate_limited split query n : forall i failed s s',
  final (isolate_loop remote clock split query i n failed s) = Some s' ->
  (http_req s' - http_req s = get_count s' - get_count s)%Z /\
  (get_count s <= get_count s' <= get_count s + Z.of_nat n)%Z.
Proof.
  induction n as [|n IH]; intros i failed s s' H; cbn [isolate_loop] in H.
  - injection H as <-. lia.
  - apply bind_final in H as [(x0 & s0 & E0 & H0)|[Hno _]];
      [|exfalso; eapply Hno; reflexivity].
    injection E0 as <- <-.
    apply bind_final in H0 as [(x1 & s1 & E1 & H1)|[Hno _]];
      [|exfalso; eapply Hno; apply rate_limit_run].
    rewrite rate_limit_run in E1. injection E1 as <- <-.
    apply bind_final in H1 as [(r & s2 & E2 & H2)|[Hno _]];
      [|exfalso; eapply Hno; reflexivity].
    injection E2 as <- <-. revert H2.
    match goal with
    | |- final (_ ?sx) = _ -> _ => set (sx0 := sx)
    end.
    assert (Hsx : http_req sx0 = (1 + http_req s)%Z /\ get_count sx0 = (1 + get_count s)%Z).
    { unfold sx0.
      match goal with |- context [if ?c then _ else _] => destruct c end;
        split; reflexivity. }
    destruct Hsx as [Hh Hg]. clearbody sx0.
    match goal with
    | |- context [(status_code ?x =? 200)%Z] => generalize x
    end.
    intros r H2.
    destruct (status_code r =? 200)%Z.
    + apply bind_final in H2 as [(x3 & s3 & E3 & H3)|[_ H3]].
      * assert (Hw : same_wire sx0 s3)
          by (apply (put_object_wire clock (mkURI (Url.path split) []) (json r));
              now rewrite E3).
        destruct Hw as (_ & Hg3 & Hh3).
        apply IH in H3. lia.
      * apply (put_object_wire clock (mkURI (Url.path split) []) (json r)) in H3
          as (_ & Hg3 & Hh3). lia.
    + destruct (status_code r =? 400)%Z.
      * apply IH in H2. lia.
      * injection H2 as <-. lia.
Qed.

End NoMetadata.

Lemma retrieve_json_needs_metadata_witness :
  _retrieve_json Demo2.remote Demo.clock_0 (mkURI "/api/v1/doc/state/3/" []) init =
    Raise FileNotFoundError (with_cache_req (Z.add 1) init).
Proof.
  apply (retrieve_json_needs_metadata Demo2.remote Demo.clock_0
           (mkURI "/api/v1/doc/state/3/" []) init); reflexivity.
Defined.

Lemma isolate_loop_is_rate_limited_witness :
  let sp := Url.urlsplit "https://datatracker.ietf.org/api/v1/doc/state/?limit=100&offset=100" in
  let s' := match final (isolate_loop Demo3.remote_corrupt Demo.clock_0 sp
                           (Url.parse_qs (Url.query sp)) 100 100 true init) with
            | Some x => x
            | None => init
            end in
  (http_req s' - http_req init = get_count s' - get_count init)%Z /\
  (get_count init <= get_count s' <= get_count init + Z.of_nat 100)%Z.
Proof.
  intros sp s'.
  apply (isolate_loop_is_rate_limited Demo3.remote_corrupt Demo.clock_0 sp
           (Url.parse_qs (Url.query sp)) 100 100 true init s').
  vm_compute. reflexivity.
Defined.

(** ** What every call keeps *)

Create HintDb eng.

#[global] Hint Resolve preserves_ret preserves_raise preserves_exit preserves_diverge
  preserves_gets preserves_lift preserves_assert : eng.

Ltac eng_side :=
  first [ apply eng_http_req | apply eng_get_count | apply eng_cache_req
        | apply eng_cache_hit | apply eng_now_calls | apply eng_dirs
        | apply eng_metadata | apply eng_trace ].

(** One step of a proof that a method keeps a relation of the engine. *)
Ltac eng_step :=
  match goal with
  | |- preserves _ (bind _ _) => apply preserves_bind; [|intros]
  | |- preserves _ (if ?b then _ else _) => destruct b
  | |- preserves _ (match ?x with _ => _ end) => destruct x
  | |- preserves _ (modify _) => apply preserves_modify; intros; eng_side
  | |- preserves _ (for_each _ _) => apply preserves_for_each; intros
  | |- preserves _ _ => solve [eauto with eng typeclass_instances]
  end.
Ltac eng := repeat eng_step.

Section EngineKeeps.

Context {R : relation DataTracker} `{!EngineRel R}.

Lemma eng_put_object clock u j : preserves R (_cache_put_object clock u j).
Proof. apply eng_put. Qed.

Lemma eng_get_object u : preserves R (_cache_get_object u).
Proof. apply eng_get. Qed.

#[local] Hint Resolve eng_put_object eng_get_object : eng.

Lemma eng_memcache_has u : preserves R (_memcache_has_object u).
Proof. unfold _memcache_has_object. eng. Qed.

Lemma eng_datetime_now clock : preserves R (datetime_now clock).
Proof. intros s s' [= <-]. apply eng_now_calls. Qed.

Lemma eng_session_get remote site url ps : preserves R (session_get remote site url ps).
Proof. intros s s' [= <-]. apply eng_trace. Qed.

Lemma eng_session_close : preserves R session_close.
Proof. unfold session_close. eng. Qed.

Lemma eng_time_sleep t : preserves R (time_sleep t).
Proof. unfold time_sleep. eng. Qed.

Lemma eng_hints_for hints u : preserves R (hints_for hints u).
Proof. unfold hints_for. eng. Qed.

Lemma eng_load_metadata t : preserves R (_cache_load_metadata t).
Proof. unfold _cache_load_metadata. eng. Qed.

Lemma eng_save_metadata t m : preserves R (_cache_save_metadata t m).
Proof. unfold _cache_save_metadata. eng. Qed.

#[local] Hint Resolve eng_memcache_has eng_datetime_now eng_session_get eng_session_close
  eng_time_sleep eng_hints_for eng_load_metadata eng_save_metadata : eng.

Lemma eng_create clock t : preserves R (_cache_create clock t).
Proof. unfold _cache_create. eng. Qed.

Lemma eng_record_query u t : preserves R (_cache_record_query u t).
Proof. unfold _cache_record_query. eng. Qed.

Lemma eng_has_all_objects t : preserves R (_cache_has_all_objects t).
Proof. unfold _cache_has_all_objects. eng. Qed.

Lemma eng_has_objects u t : preserves R (_cache_has_objects u t).
Proof. unfold _cache_has_objects. eng. Qed.

#[local] Hint Resolve eng_create eng_record_query eng_has_all_objects eng_has_objects : eng.

Lemma eng_has_object u : preserves R (_cache_has_object u).
Proof. unfold _cache_has_object. eng. Qed.

Lemma eng_rate_limit : preserves R _rate_limit.
Proof. unfold _rate_limit. eng. Qed.

#[local] Hint Resolve eng_has_object eng_rate_limit : eng.

Lemma eng_retrieve_json remote clock u : preserves R (_retrieve_json remote clock u).
Proof. unfold _retrieve_json. eng. Qed.

#[local] Hint Resolve eng_retrieve_json : eng.

Lemma eng_retrieve_json_of remote clock j : preserves R (_retrieve_json_of remote clock j).
Proof. unfold _retrieve_json_of. eng. Qed.

#[local] Hint Resolve eng_retrieve_json_of : eng.

Lemma eng_deref_found remote clock field v items :
  preserves R (deref_found remote clock field v items).
Proof. induction items as [|item rest IH]; cbn [deref_found]; eng. Qed.

#[local] Hint Resolve eng_deref_found : eng.

Lemma eng_match_param remote clock hints obj k v :
  preserves R (match_param remote clock hints obj k v).
Proof. unfold match_param. eng. Qed.

#[local] Hint Resolve eng_match_param : eng.

Lemma eng_match_loop remote clock hints obj ps : forall res,
  preserves R (match_loop remote clock hints obj ps res).
Proof. induction ps as [|[k v] ps IH]; intros res; cbn [match_loop]; eng. Qed.

#[local] Hint Resolve eng_match_loop : eng.

Lemma eng_obj_matches remote clock hs obj q :
  preserves R (_cache_obj_matches remote clock hs obj q).
Proof. unfold _cache_obj_matches. eng. Qed.

#[local] Hint Resolve eng_obj_matches : eng.

Lemma eng_scan_loop remote clock hs hints q t files : forall results,
  preserves R (scan_loop remote clock hs hints q t files results).
Proof. induction files as [|name files IH]; intros results; cbn [scan_loop]; eng. Qed.

#[local] Hint Resolve eng_scan_loop : eng.

Lemma eng_get_objects remote clock hs q t :
  preserves R (_cache_get_objects remote clock hs q t).
Proof. unfold _cache_get_objects. eng. Qed.

Lemma eng_put_fetched clock j : preserves R (put_fetched clock j).
Proof. unfold put_fetched. eng. Qed.

Lemma eng_iter_objects j : preserves R (iter_objects j).
Proof. unfold iter_objects. eng. Qed.

#[local] Hint Resolve eng_get_objects eng_put_fetched eng_iter_objects : eng.

Lemma eng_isolate_loop remote clock split query n : forall i failed,
  preserves R (isolate_loop remote clock split query i n failed).
Proof. induction n as [|n IH]; intros i failed; cbn [isolate_loop]; eng. Qed.

#[local] Hint Resolve eng_isolate_loop : eng.

Lemma eng_isolate_bad_request remote clock url total :
  preserves R (isolate_bad_request remote clock url total).
Proof. unfold isolate_bad_request. eng. Qed.

#[local] Hint Resolve eng_isolate_bad_request : eng.

Lemma eng_retry_loop remote clock fuel : forall u total rt,
  preserves R (retry_loop remote clock fuel u total rt).
Proof. induction fuel as [|fuel IH]; intros u total rt; cbn [retry_loop]; eng. Qed.

#[local] Hint Resolve eng_retry_loop : eng.

Lemma eng_page_loop remote clock fuel : forall u total,
  preserves R (page_loop remote clock fuel u total).
Proof.
  induction fuel as [|fuel IH]; intros u total; destruct u; cbn [page_loop]; eng.
Qed.

#[local] Hint Resolve eng_page_loop : eng.

Lemma eng_put_objects remote clock fuel u t :
  preserves R (_cache_put_objects remote clock fuel u t).
Proof. unfold _cache_put_objects. eng. Qed.

#[local] Hint Resolve eng_put_objects : eng.

Lemma eng_cache_update remote clock hs strftime fuel t :
  preserves R (_cache_update remote clock hs strftime fuel t).
Proof. unfold _cache_update. eng. Qed.

#[local] Hint Resolve eng_cache_update : eng.

Lemma eng_retrieve remote clock hs strftime fuel u :
  preserves R (_retrieve remote clock hs strftime fuel u).
Proof. unfold _retrieve. eng. Qed.

Lemma eng_retrieve_multi remote clock hs strftime fuel u :
  preserves R (_retrieve_multi remote clock hs strftime fuel u).
Proof. unfold _retrieve_multi. eng. Qed.

End EngineKeeps.

(** ** The object store over the life of a cache directory *)

Lemma append_inj_r (a b c : string) : a +:+ c = b +:+ c -> a = b.
Proof.
  revert b. induction a as [|x a IH]; intros [|y b] H.
  - reflexivity.
  - apply (f_equal String.length) in H. rewrite append_cons in H. cbn [String.length] in H.
    rewrite append_nil_l, length_append in H. lia.
  - apply (f_equal String.length) in H. rewrite append_cons in H. cbn [String.length] in H.
    rewrite append_nil_l, length_append in H. lia.
  - rewrite !append_cons in H. injection H as -> H. f_equal. now apply IH.
Qed.

Lemma rev_app_twice (s a b : string) :
  String.rev_app (String.rev_app s a) b = String.rev_app a (s +:+ b).
Proof.
  revert a. induction s as [|c s IH]; intros a; [reflexivity|].
  cbn [String.rev_app]. rewrite IH. reflexivity.
Qed.

Lemma endswith_slash (u : string) :
  PyStr.endswith "/" u = true -> exists v, u = v +:+ "/".
Proof.
  unfold PyStr.endswith, String.rev. cbn [String.rev_app]. intros H.
  destruct (String.rev_app u "") as [|c w] eqn:Hrev; [discriminate|].
  cbn [String.prefix] in H. destruct (ascii_dec "/" c) as [<-|]; [|discriminate].
  exists (String.rev_app w "").
  pose proof (rev_app_twice u "" "") as Htw. rewrite Hrev in Htw.
  cbn [String.rev_app] in Htw. rewrite append_nil_r in Htw. rewrite <- Htw.
  change (String "/" "") with ("" +:+ "/") at 1. now rewrite rev_app_acc.
Qed.

(** The URIs that [_cache_put_object] accepts. *)
Lemma accepted_uri_shape (u : string) :
  PyStr.startswith "/" u = true -> PyStr.endswith "/" u = true ->
  u = "/" \/ exists w, u = "/" +:+ w +:+ "/".
Proof.
  intros Hs He. destruct (endswith_slash u He) as [v ->].
  destruct v as [|c v]; [now left|right].
  unfold PyStr.startswith in Hs. rewrite append_cons in Hs. cbn [String.prefix] in Hs.
  destruct (ascii_dec "/" c) as [<-|]; [|discriminate].
  now exists v.
Qed.

Lemma obj_path_of_object_uri x : obj_path ("/" +:+ x +:+ "/") = x +:+ ".json".
Proof. unfold obj_path. now rewrite strip_ends_slashes. Qed.

(** Two accepted URIs that share a file are the same URI, when one of them
    is the URI of an object. *)
Lemma obj_path_inj (u u0 : string) :
  PyStr.startswith "/" u = true -> PyStr.endswith "/" u = true ->
  object_uri u0 -> obj_path u = obj_path u0 -> u = u0.
Proof.
  intros Hs He (x & Hx & ->) Hp. rewrite obj_path_of_object_uri in Hp.
  destruct (accepted_uri_shape u Hs He) as [->|[w ->]].
  - exfalso. apply Hx. symmetry. apply (append_inj_r "" x ".json"). exact Hp.
  - rewrite obj_path_of_object_uri in Hp. apply append_inj_r in Hp. now subst w.
Qed.

#[global] Instance store_grows_preorder : PreOrder store_grows.
Proof.
  split.
  - intros s p H. exact H.
  - intros s1 s2 s3 H12 H23 p H. apply H23, H12, H.
Qed.

#[global] Instance store_grows_engine : EngineRel store_grows.
Proof.
  split; try (intros; intros p H; exact H); try apply _.
  - intros clock u j s s' H.
    destruct (PyStr.startswith "/" (uri u) && PyStr.endswith "/" (uri u)) eqn:Hok.
    + apply andb_prop in Hok as [Hs He].
      destruct (put_object_run clock u j s Hs He) as (s1 & Hrun & Ho & _).
      rewrite Hrun in H. injection H as <-. intros p Hp. rewrite Ho.
      destruct (decide (obj_path (uri u) = p)) as [<-|Hne].
      * rewrite lookup_insert_eq. eauto.
      * now rewrite lookup_insert_ne.
    + rewrite (put_object_fails clock u j s Hok) in H. injection H as <-. reflexivity.
  - intros u s s' H. destruct (get_object_view u s) as (s1 & Hrun & Ho & _).
    rewrite Hrun in H. injection H as <-. intros p Hp. now rewrite Ho.
Qed.

#[global] Instance keeps_coherent_preorder : PreOrder keeps_coherent.
Proof.
  split.
  - intros s H. exact H.
  - intros s1 s2 s3 H12 H23 H. apply H23, H12, H.
Qed.

Lemma get_object_coherent u s s' :
  final (_cache_get_object u s) = Some s' -> coherent s -> coherent s'.
Proof.
  unfold _cache_get_object, _memcache_has_object, _memcache_get_object, _memcache_put_object.
  run_m. cbn [memcache with_memcache_req].
  destruct (bool_decide (is_Some (memcache s !! uri u))).
  - cbn [memcache with_memcache_req with_memcache_hit].
    destruct (memcache s !! uri u); intros [= <-] Hc u0 j0 Hu0 Hm0; exact (Hc u0 j0 Hu0 Hm0).
  - cbn [objects with_memcache_req].
    destruct (objects s !! obj_path (uri u)) as [j|] eqn:Hfile; intros [= <-] Hc u0 j0 Hu0 Hm0.
    + cbn [memcache objects with_memcache with_memcache_req] in *.
      destruct (decide (uri u = u0)) as [<-|Hne].
      * rewrite lookup_insert_eq in Hm0. now injection Hm0 as <-.
      * rewrite lookup_insert_ne in Hm0 by exact Hne. exact (Hc u0 j0 Hu0 Hm0).
    + exact (Hc u0 j0 Hu0 Hm0).
Qed.

Lemma put_object_coherent clock u j s s' :
  final (_cache_put_object clock u j s) = Some s' -> coherent s -> coherent s'.
Proof.
  intros H Hc.
  destruct (PyStr.startswith "/" (uri u) && PyStr.endswith "/" (uri u)) eqn:Hok.
  - apply andb_prop in Hok as [Hs He].
    destruct (put_object_run clock u j s Hs He) as (s1 & Hrun & Ho & Hm & _).
    rewrite Hrun in H. injection H as <-. intros u0 j0 Hu0 Hm0.
    rewrite Hm in Hm0. rewrite Ho.
    destruct (decide (uri u = u0)) as [<-|Hne].
    + rewrite lookup_insert_eq in Hm0. injection Hm0 as <-. apply lookup_insert_eq.
    + rewrite lookup_insert_ne in Hm0 by exact Hne.
      rewrite lookup_insert_ne; [exact (Hc u0 j0 Hu0 Hm0)|].
      intros Hp. apply Hne. exact (obj_path_inj (uri u) u0 Hs He Hu0 Hp).
  - rewrite (put_object_fails clock u j s Hok) in H. now injection H as <-.
Qed.

#[global] Instance keeps_coherent_engine : EngineRel keeps_coherent.
Proof.
  split; try (intros; intros H u0 j0 Hu0 Hm0; exact (H u0 j0 Hu0 Hm0)); try apply _.
  - intros clock u j s s' H Hc. exact (put_object_coherent clock u j s s' H Hc).
  - intros u s s' H Hc. exact (get_object_coherent u s s' H Hc).
Qed.




